(** * Manga-Reader: notification fan-out, subscriptions, reports and reader state

    A shallow embedding of the parts of the Manga-Reader repository that
    carry its behavioural contract:

    - the SQL schema and trigger functions of [supabase/migrations]
      ([comment_subscriptions], [comment_notifications], [manga_reports],
      [admin_notifications], [profiles], [notify_comment_subscribers],
      [notify_admins_on_report]);
    - the event handlers of [src/components/Reader.tsx]
      ([handleComment], [toggleSubscription], [handleReport],
      [handlePageChange], and further [handleKeyPress],
      [toggleReadingMode], [loadComments], [loadChapter]);
    - the handlers of the admin panel ([markNotificationAsRead],
      [handleReportStatus], [handleFetchInfo], [loadNotifications] and the
      callback for pushed notifications);
    - [fetchUserProfile] of [src/lib/store.ts] and [searchManga] of
      [src/lib/mangaApi.ts];
    - [handleUsernameUpdate] of the profile dialog, [addToLibrary] and
      [loadLibraryStatus] of the manga page, the genre filter of
      [src/components/Directory.tsx] and the file list of the upload form.

    Modelling conventions.

    - The hosted store is a record of tables; a table is the list of its rows
      in insertion order.  Declared integrity constraints (PRIMARY KEY,
      UNIQUE, CHECK) are checked by the operations that can violate them and
      answer with an error, as the store does.
    - A statement runs as a role. The two trigger functions run as the role
      of the statement that fired them (none is SECURITY DEFINER), on tables
      under row-level security: the policies that bind the statements of
      their bodies, and those of the inserts that fire them, are written
      out. The other statements the handlers send address the rows of the
      logged-in user who sends them or, in the admin panel, are sent by an
      administrator; the policies admit them and are not repeated there.
    - Foreign keys to tables that are not modelled ([mangas], [auth.users])
      and transport failures are outside the model: every request reaches
      the store.
    - [gen_random_uuid()] is a supply of identifiers that never repeats
      ([next_uuid]); [now()] is an argument of the operation.
    - A React component is the record of the state cells its handlers touch;
      a handler is a function from the state, the props and the store to the
      new state, the new store and the toasts it shows. *)

From Stdlib Require Import Ascii NArith ZArith QArith Lia.
From stdpp Require Import base decidable option list gmap strings sorting pretty.

Set Warnings "-register-all".

Open Scope Z_scope.
Open Scope string_scope.
Open Scope list_scope.

(** ** Values shared by the store and the client *)

(** Identifiers of rows ([uuid] columns). *)
Definition uuid := nat.

(** [timestamptz] values, as an instant on an integer time line. *)
Definition timestamptz := Z.

(** A JavaScript string whose characters the code inspects: the sequence of
    its UTF-16 code units. *)
Definition js_string := list N.

(** The code units of an ASCII literal. *)
Fixpoint js (s : string) : js_string :=
  match s with
  | EmptyString => []
  | String a rest => N_of_ascii a :: js rest
  end.

(** Errors the store answers with: violated constraints, the complaint of
    [.single()] / [.maybeSingle()] about the number of rows, a row that the
    row-level security policies of a table refuse, and an argument a built-in
    function rejects. *)
Inductive pg_error :=
  | unique_violation (constraint : string)
  | check_violation (constraint : string)
  | not_single_row
  | insufficient_privilege (table : string)
  | invalid_parameter_value (message : string).

Inductive result (A : Type) :=
  | Ok (a : A)
  | Err (e : pg_error).
Arguments Ok {A} a.
Arguments Err {A} e.

(** Toasts of [react-hot-toast]. *)
Inductive toast :=
  | toast_error (msg : string)
  | toast_success (msg : string).

(** JSON values, as far as the triggers build them. *)
Inductive json :=
  | JNull
  | JNum (z : Z)
  | JStr (s : string)
  | JUuid (u : uuid)
  | JObject (fields : list (string * json)).

(** [json_build_object]: the members in the order of the arguments. *)
Definition json_build_object (kvs : list (string * json)) : json :=
  JObject kvs.

(** The order in which [jsonb] stores the keys of an object: shorter keys
    first, keys of equal length bytewise. *)
Definition jsonb_key_lt (k1 k2 : string) : bool :=
  match Nat.compare (String.length k1) (String.length k2) with
  | Lt => true
  | Gt => false
  | Eq => match String.compare k1 k2 with Lt => true | _ => false end
  end.

(** Storing one member in a [jsonb] object: a repeated key keeps the later
    value. *)
Fixpoint jsonb_put (k : string) (v : json) (o : list (string * json))
    : list (string * json) :=
  match o with
  | [] => [(k, v)]
  | (k', v') :: rest =>
      if String.eqb k k' then (k, v) :: rest
      else if jsonb_key_lt k k' then (k, v) :: (k', v') :: rest
      else (k', v') :: jsonb_put k v rest
  end.

(** [jsonb_build_object]. *)
Definition jsonb_build_object (kvs : list (string * json)) : json :=
  JObject (fold_left (λ o kv, jsonb_put kv.1 kv.2 o) kvs []).

(** The member of an object under a key ([->]); of repeated keys the last
    one counts. *)
Definition json_get (k : string) (j : json) : option json :=
  match j with
  | JObject fields => snd <$> last (filter (λ kv, kv.1 = k) fields)
  | _ => None
  end.

(** A nullable [text] value as JSON. *)
Definition json_of_text (t : option string) : json :=
  match t with
  | Some s => JStr s
  | None => JNull
  end.

(** The bytes one byte of a string takes between the quotes of a JSON
    string, as the store writes it: two for the escapes of backspace, tab,
    line feed, form feed, carriage return, the quote and the backslash, six
    for the [\u00XX] of any other control character, one otherwise. *)
Definition escaped_length (a : ascii) : nat :=
  let n := N_of_ascii a in
  if bool_decide (n ∈ [8; 9; 10; 12; 13; 34; 92]%N) then 2%nat
  else if (n <? 32)%N then 6%nat else 1%nat.

(** The length in bytes of a text value written as a JSON string, quotes
    included. A [string] holds the bytes of the text. *)
Fixpoint escape_json_length (s : string) : nat :=
  match s with
  | EmptyString => 2%nat
  | String a rest => (escaped_length a + escape_json_length rest)%nat
  end.

(** The length in bytes of [j::text] for a value built by
    [json_build_object]: [{"k" : v, "k" : v}], a [uuid] as the quoted 36
    characters of its text, an integer in decimal, a null as [null]. *)
Fixpoint json_text_length (j : json) : nat :=
  match j with
  | JNull => 4%nat
  | JNum z => String.length (pretty z)
  | JStr s => escape_json_length s
  | JUuid _ => 38%nat
  | JObject fields =>
      (2 + (fix members (l : list (string * json)) : nat :=
              match l with
              | [] => 0
              | (k, v) :: rest =>
                  escape_json_length k + 3 + json_text_length v
                  + match rest with [] => 0 | _ => 2 end
                  + members rest
              end) fields)%nat
  end.

(** ** The store *)

Module Store.

(** [comments] (migration "Add comments table"). *)
Record comment_row := {
  c_id : uuid;
  c_manga_id : uuid;
  c_chapter : Z;
  c_user_id : uuid;
  c_user_email : string;
  c_content : js_string;
  c_created_at : timestamptz
}.

(** [comment_subscriptions]: PRIMARY KEY (user_id, manga_id, chapter). *)
Record subscription_row := {
  cs_user_id : uuid;
  cs_manga_id : uuid;
  cs_chapter : Z;
  cs_created_at : timestamptz
}.

(** [comment_notifications]: [read boolean DEFAULT false]. *)
Record comment_notification_row := {
  cn_id : uuid;
  cn_user_id : uuid;
  cn_comment_id : uuid;
  cn_read : bool;
  cn_created_at : timestamptz
}.

(** [manga_reports]: [description] and [resolved_at] are nullable,
    [status] is text with DEFAULT 'pending'. *)
Record report_row := {
  r_id : uuid;
  r_manga_id : uuid;
  r_chapter : Z;
  r_user_id : uuid;
  r_issue_type : string;
  r_description : option string;
  r_status : string;
  r_created_at : timestamptz;
  r_resolved_at : option timestamptz
}.

(** [admin_notifications]. *)
Record admin_notification_row := {
  an_id : uuid;
  an_type : string;
  an_data : json;
  an_read : bool;
  an_created_at : timestamptz
}.

(** [profiles] (migration "Fix profiles table structure and policies"):
    [user_id] is the primary key, [username] is UNIQUE and nullable. *)
Record profile_row := {
  p_user_id : uuid;
  p_username : option string;
  p_avatar_url : option string;
  p_is_admin : option bool;
  p_created_at : timestamptz;
  p_updated_at : timestamptz
}.

(** The state of the store. [notify_queue] holds what [pg_notify] sent, as
    (channel, payload) pairs, oldest first. *)
Record db := {
  comments : list comment_row;
  comment_subscriptions : list subscription_row;
  comment_notifications : list comment_notification_row;
  manga_reports : list report_row;
  admin_notifications : list admin_notification_row;
  profiles : list profile_row;
  notify_queue : list (string * json);
  next_uuid : uuid
}.

(** *** Row-level security

    Every table has row-level security enabled, and no function of the
    migrations is declared SECURITY DEFINER: a trigger function runs as the
    role of the session whose statement fired it, and the statements in its
    body are subject to the policies like any other. *)

(** The role a statement runs as: a visitor who is not logged in, a logged-in
    user ([auth.uid()] is that user), or the owner of the tables (the role the
    migrations run as), whom the policies do not bind. *)
Inductive role :=
  | anon
  | authenticated (uid : uuid)
  | owner.

(** "Users can manage their own subscriptions" ON comment_subscriptions
    FOR ALL TO authenticated USING (auth.uid() = user_id): the rows of the
    table a SELECT by [who] ranges over. *)
Definition visible_subscriptions (who : role) (d : db)
    : list subscription_row :=
  match who with
  | owner => comment_subscriptions d
  | authenticated uid =>
      filter (λ cs, cs_user_id cs = uid) (comment_subscriptions d)
  | anon => []
  end.

(** [comment_notifications] has a policy FOR SELECT and one FOR UPDATE and
    none for INSERT: a role bound by the policies may not insert a row. *)
Definition may_insert_comment_notification (who : role) : bool :=
  match who with
  | owner => true
  | _ => false
  end.

(** "Authenticated users can create comments" and "Users can manage their
    own comments" ON comments, both TO authenticated
    WITH CHECK (auth.uid() = user_id). *)
Definition may_insert_comment (who : role) (NEW : comment_row) : bool :=
  match who with
  | owner => true
  | authenticated uid => bool_decide (uid = c_user_id NEW)
  | anon => false
  end.

(** The condition of the policies for administrators:
    EXISTS (SELECT 1 FROM profiles WHERE profiles.user_id = auth.uid()
    AND profiles.is_admin = true). The subquery runs as [who] too; the policy
    "Users can read their own profile" shows a logged-in user the row it
    asks for. *)
Definition is_admin (who : role) (d : db) : bool :=
  match who with
  | authenticated uid =>
      bool_decide
        (Exists (λ p, p_user_id p = uid ∧ p_is_admin p = Some true)
                (profiles d))
  | _ => false
  end.

(** "Admins can manage notifications" ON admin_notifications FOR ALL
    TO authenticated USING (the condition above), the only policy of the
    table: without a WITH CHECK of its own, new rows are checked against
    USING. *)
Definition may_insert_admin_notification (who : role) (d : db) : bool :=
  match who with
  | owner => true
  | authenticated _ => is_admin who d
  | anon => false
  end.

(** "Users can create reports" ON manga_reports FOR INSERT TO authenticated
    WITH CHECK (auth.uid() = user_id), or "Admins can manage all reports"
    FOR ALL TO authenticated (migration "Add manga reports table",
    supabase/migrations/20250310234149). *)
Definition may_insert_report (who : role) (d : db) (NEW : report_row)
    : bool :=
  match who with
  | owner => true
  | authenticated uid => bool_decide (uid = r_user_id NEW) || is_admin who d
  | anon => false
  end.

(** *** Comment subscriptions *)

(** The key of a subscription row. *)
Definition sub_key (cs : subscription_row) : uuid * uuid * Z :=
  (cs_user_id cs, cs_manga_id cs, cs_chapter cs).

(** The primary key of [comment_subscriptions] holds in a table. *)
Definition subscriptions_pk (t : list subscription_row) : Prop :=
  NoDup (sub_key <$> t).

(** [.eq('manga_id', m).eq('chapter', c).eq('user_id', u)] *)
Definition sub_matches (u m : uuid) (c : Z) (cs : subscription_row) : Prop :=
  sub_key cs = (u, m, c).

#[global] Instance sub_matches_dec u m c cs : Decision (sub_matches u m c cs).
Proof. unfold sub_matches. apply _. Defined.

(** INSERT INTO comment_subscriptions (manga_id, chapter, user_id):
    rejected when a row with the same key exists. *)
Definition insert_subscription (d : db) (now : timestamptz)
    (m : uuid) (c : Z) (u : uuid) : result db :=
  if decide ((u, m, c) ∈ sub_key <$> comment_subscriptions d) then
    Err (unique_violation "comment_subscriptions_pkey")
  else
    Ok {| comments := comments d;
          comment_subscriptions :=
            comment_subscriptions d ++
              [{| cs_user_id := u; cs_manga_id := m; cs_chapter := c;
                  cs_created_at := now |}];
          comment_notifications := comment_notifications d;
          manga_reports := manga_reports d;
          admin_notifications := admin_notifications d;
          profiles := profiles d;
          notify_queue := notify_queue d;
          next_uuid := next_uuid d |}.

(** DELETE FROM comment_subscriptions WHERE manga_id = m AND chapter = c
    AND user_id = u: removes the matching rows, whatever their number. *)
Definition delete_subscription (d : db) (m : uuid) (c : Z) (u : uuid)
    : result db :=
  Ok {| comments := comments d;
        comment_subscriptions :=
          filter (λ cs, ¬ sub_matches u m c cs) (comment_subscriptions d);
        comment_notifications := comment_notifications d;
        manga_reports := manga_reports d;
        admin_notifications := admin_notifications d;
        profiles := profiles d;
        notify_queue := notify_queue d;
        next_uuid := next_uuid d |}.

(** *** Comment fan-out *)

(** The WHERE clause of [notify_comment_subscribers]:
    cs.manga_id = NEW.manga_id AND cs.chapter = NEW.chapter
    AND cs.user_id != NEW.user_id. *)
Definition fanout_where (NEW : comment_row) (cs : subscription_row) : Prop :=
  cs_manga_id cs = c_manga_id NEW ∧ cs_chapter cs = c_chapter NEW
  ∧ cs_user_id cs ≠ c_user_id NEW.

#[global] Instance fanout_where_dec NEW cs : Decision (fanout_where NEW cs).
Proof. unfold fanout_where. apply _. Defined.

(** The rows the INSERT ... SELECT of [notify_comment_subscribers] is to
    insert when it runs as [who]: one per subscription the SELECT finds among
    the rows [who] may see, with [user_id] and [comment_id] given and the
    defaults for [id], [read] and [created_at]. *)
Definition fanout_rows (who : role) (NEW : comment_row) (now : timestamptz)
    (d : db) : list comment_notification_row :=
  imap (λ i cs,
          {| cn_id := (next_uuid d + i)%nat;
             cn_user_id := cs_user_id cs;
             cn_comment_id := c_id NEW;
             cn_read := false;
             cn_created_at := now |})
       (filter (fanout_where NEW) (visible_subscriptions who d)).

(** The trigger function [notify_comment_subscribers], run as [who]. A row
    it is to insert is checked against the policies of
    [comment_notifications]; a refused row raises. *)
Definition notify_comment_subscribers (who : role) (NEW : comment_row)
    (now : timestamptz) (d : db) : result db :=
  let rows := fanout_rows who NEW now d in
  if bool_decide (rows = []) || may_insert_comment_notification who then
    Ok {| comments := comments d;
          comment_subscriptions := comment_subscriptions d;
          comment_notifications := comment_notifications d ++ rows;
          manga_reports := manga_reports d;
          admin_notifications := admin_notifications d;
          profiles := profiles d;
          notify_queue := notify_queue d;
          next_uuid := (next_uuid d + length rows)%nat |}
  else Err (insufficient_privilege "comment_notifications").

(** INSERT INTO comments (manga_id, chapter, user_id, user_email, content)
    sent by [who], followed in the same transaction, and as the same role,
    by the AFTER INSERT FOR EACH ROW trigger [on_comment_created]: an error
    raised by the trigger undoes the insert. *)
Definition insert_comment (who : role) (d : db) (now : timestamptz)
    (m : uuid) (c : Z) (u : uuid) (email : string) (content : js_string)
    : result db :=
  let NEW := {| c_id := next_uuid d; c_manga_id := m; c_chapter := c;
                c_user_id := u; c_user_email := email;
                c_content := content; c_created_at := now |} in
  let d1 := {| comments := comments d ++ [NEW];
               comment_subscriptions := comment_subscriptions d;
               comment_notifications := comment_notifications d;
               manga_reports := manga_reports d;
               admin_notifications := admin_notifications d;
               profiles := profiles d;
               notify_queue := notify_queue d;
               next_uuid := S (next_uuid d) |} in
  if may_insert_comment who NEW then notify_comment_subscribers who NEW now d1
  else Err (insufficient_privilege "comments").

(** The users subscribed to the thread (manga [m], chapter [c]). *)
Definition subscribers (d : db) (m : uuid) (c : Z) : gset uuid :=
  list_to_set
    (cs_user_id <$>
       filter (λ cs, cs_manga_id cs = m ∧ cs_chapter cs = c)
              (comment_subscriptions d)).

(** *** Reports and administrator notifications *)

(** The five members both payloads of [notify_admins_on_report] are built
    from. *)
Definition report_payload (NEW : report_row) : list (string * json) :=
  [ ("report_id", JUuid (r_id NEW));
    ("manga_id", JUuid (r_manga_id NEW));
    ("chapter", JNum (r_chapter NEW));
    ("issue_type", JStr (r_issue_type NEW));
    ("description", json_of_text (r_description NEW)) ].

(** [pg_notify(channel, payload)]: the payload is sent as its text, which
    must be shorter than 8000 bytes. *)
Definition pg_notify (channel : string) (payload : json) (d : db)
    : result db :=
  if decide (8000 ≤ Z.of_nat (json_text_length payload))%Z then
    Err (invalid_parameter_value "payload string too long")
  else
    Ok {| comments := comments d;
          comment_subscriptions := comment_subscriptions d;
          comment_notifications := comment_notifications d;
          manga_reports := manga_reports d;
          admin_notifications := admin_notifications d;
          profiles := profiles d;
          notify_queue := notify_queue d ++ [(channel, payload)];
          next_uuid := next_uuid d |}.

(** The trigger function [notify_admins_on_report], run as [who]: one row
    in [admin_notifications] with type 'manga_report' and the payload as
    [jsonb], checked against the policy of that table, then [pg_notify] on
    'admin_report_notification' with the payload built by
    [json_build_object]. *)
Definition notify_admins_on_report (who : role) (NEW : report_row)
    (now : timestamptz) (d : db) : result db :=
  if may_insert_admin_notification who d then
    pg_notify "admin_report_notification"
      (json_build_object (report_payload NEW))
      {| comments := comments d;
         comment_subscriptions := comment_subscriptions d;
         comment_notifications := comment_notifications d;
         manga_reports := manga_reports d;
         admin_notifications :=
           admin_notifications d ++
             [{| an_id := next_uuid d;
                 an_type := "manga_report";
                 an_data := jsonb_build_object (report_payload NEW);
                 an_read := false;
                 an_created_at := now |}];
         profiles := profiles d;
         notify_queue := notify_queue d;
         next_uuid := S (next_uuid d) |}
  else Err (insufficient_privilege "admin_notifications").

(** CONSTRAINT valid_status CHECK (status IN ('pending', 'in_progress',
    'resolved', 'rejected')), of the migration "Add manga reports system"
    (the one that declares [status] NOT NULL). *)
Definition valid_status (s : string) : bool :=
  bool_decide (s ∈ ["pending"; "in_progress"; "resolved"; "rejected"]).

(** The row of INSERT INTO manga_reports (manga_id, chapter, user_id,
    issue_type, description), with the defaults of the other columns. *)
Definition new_report (d : db) (now : timestamptz)
    (m : uuid) (c : Z) (u : uuid) (issue_type : string)
    (description : option string) : report_row :=
  {| r_id := next_uuid d; r_manga_id := m; r_chapter := c;
     r_user_id := u; r_issue_type := issue_type;
     r_description := description; r_status := "pending";
     r_created_at := now; r_resolved_at := None |}.

(** That INSERT sent by [who], followed in the same transaction, and as the
    same role, by the trigger [on_manga_report_created]: an error raised by
    the trigger undoes the insert. *)
Definition insert_report (who : role) (d : db) (now : timestamptz)
    (m : uuid) (c : Z) (u : uuid) (issue_type : string)
    (description : option string) : result db :=
  let NEW := new_report d now m c u issue_type description in
  let d1 := {| comments := comments d;
               comment_subscriptions := comment_subscriptions d;
               comment_notifications := comment_notifications d;
               manga_reports := manga_reports d ++ [NEW];
               admin_notifications := admin_notifications d;
               profiles := profiles d;
               notify_queue := notify_queue d;
               next_uuid := S (next_uuid d) |} in
  if may_insert_report who d NEW then notify_admins_on_report who NEW now d1
  else Err (insufficient_privilege "manga_reports").

(** SET status = s, resolved_at = r on one row. *)
Definition set_report_status (s : string) (r : option timestamptz)
    (row : report_row) : report_row :=
  {| r_id := r_id row; r_manga_id := r_manga_id row;
     r_chapter := r_chapter row; r_user_id := r_user_id row;
     r_issue_type := r_issue_type row; r_description := r_description row;
     r_status := s; r_created_at := r_created_at row;
     r_resolved_at := r |}.

(** UPDATE manga_reports SET status = s, resolved_at = r WHERE id = rid.
    The CHECK constraint is evaluated on the rows the update writes. *)
Definition update_report (d : db) (rid : uuid) (s : string)
    (r : option timestamptz) : result db :=
  if decide (rid ∈ r_id <$> manga_reports d) then
    if valid_status s then
      Ok {| comments := comments d;
            comment_subscriptions := comment_subscriptions d;
            comment_notifications := comment_notifications d;
            manga_reports :=
              (λ row, if decide (r_id row = rid)
                      then set_report_status s r row else row)
                <$> manga_reports d;
            admin_notifications := admin_notifications d;
            profiles := profiles d;
            notify_queue := notify_queue d;
            next_uuid := next_uuid d |}
    else Err (check_violation "valid_status")
  else Ok d.

(** SET read = true on one row. *)
Definition set_notification_read (row : admin_notification_row)
    : admin_notification_row :=
  {| an_id := an_id row; an_type := an_type row; an_data := an_data row;
     an_read := true; an_created_at := an_created_at row |}.

(** UPDATE admin_notifications SET read = true WHERE id = nid. *)
Definition update_notification_read (d : db) (nid : uuid) : result db :=
  Ok {| comments := comments d;
        comment_subscriptions := comment_subscriptions d;
        comment_notifications := comment_notifications d;
        manga_reports := manga_reports d;
        admin_notifications :=
          (λ row, if decide (an_id row = nid)
                  then set_notification_read row else row)
            <$> admin_notifications d;
        profiles := profiles d;
        notify_queue := notify_queue d;
        next_uuid := next_uuid d |}.

(** *** Profiles *)

(** [.maybeSingle()]: no row is null, one row is that row, more is an
    error. *)
Definition maybeSingle {A} (rows : list A) : result (option A) :=
  match rows with
  | [] => Ok None
  | [r] => Ok (Some r)
  | _ => Err not_single_row
  end.

(** [.single()]: exactly one row, or an error. *)
Definition single {A} (rows : list A) : result A :=
  match rows with
  | [r] => Ok r
  | _ => Err not_single_row
  end.

(** SELECT ... FROM profiles WHERE user_id = uid. *)
Definition select_profile (d : db) (uid : uuid) : list profile_row :=
  filter (λ p, p_user_id p = uid) (profiles d).

(** SELECT * FROM comment_subscriptions WHERE manga_id = m AND chapter = c
    AND user_id = u. *)
Definition select_subscription (d : db) (m : uuid) (c : Z) (u : uuid)
    : list subscription_row :=
  filter (sub_matches u m c) (comment_subscriptions d).

(** INSERT INTO profiles (user_id, username, is_admin): rejected when the
    primary key [user_id] or a non-null UNIQUE [username] is taken. *)
Definition insert_profile (d : db) (now : timestamptz) (uid : uuid)
    (username : option string) (is_admin : bool) : result db :=
  if decide (uid ∈ p_user_id <$> profiles d) then
    Err (unique_violation "profiles_pkey")
  else if decide (is_Some username ∧ username ∈ p_username <$> profiles d)
  then Err (unique_violation "profiles_username_key")
  else
    Ok {| comments := comments d;
          comment_subscriptions := comment_subscriptions d;
          comment_notifications := comment_notifications d;
          manga_reports := manga_reports d;
          admin_notifications := admin_notifications d;
          profiles :=
            profiles d ++
              [{| p_user_id := uid; p_username := username;
                  p_avatar_url := None; p_is_admin := Some is_admin;
                  p_created_at := now; p_updated_at := now |}];
          notify_queue := notify_queue d;
          next_uuid := next_uuid d |}.

End Store.

(** ** src/App.tsx: shared client types *)

Module App.

(** [export type User]. *)
Record User := {
  id : uuid;
  email : string;
  isAdmin : bool;
  username : option string;
  avatar_url : option string
}.

End App.

(** ** JavaScript string operations the handlers use *)

(** WhiteSpace and LineTerminator code units, the characters
    [String.prototype.trim] strips. *)
Definition is_js_space (c : N) : bool :=
  (bool_decide (c ∈ [0x9; 0xA; 0xB; 0xC; 0xD; 0x20; 0xA0; 0x1680; 0x2028;
                     0x2029; 0x202F; 0x205F; 0x3000; 0xFEFF])
   || ((0x2000 <=? c) && (c <=? 0x200A)))%N.

Fixpoint trimStart (s : js_string) : js_string :=
  match s with
  | [] => []
  | c :: rest => if is_js_space c then trimStart rest else s
  end.

Definition trimEnd (s : js_string) : js_string :=
  rev (trimStart (rev s)).

(** [s.trim()]. *)
Definition trim (s : js_string) : js_string := trimEnd (trimStart s).

(** [!s] for a string: the empty string is the only falsy one. *)
Definition js_falsy (s : js_string) : bool :=
  match s with [] => true | _ => false end.

(** [s.split('@')[0]]: the characters before the first '@'. *)
Fixpoint before_at (s : string) : string :=
  match s with
  | EmptyString => EmptyString
  | String a rest =>
      if Ascii.eqb a "@"%char then EmptyString else String a (before_at rest)
  end.

(** [s.toLowerCase()] on the ASCII letters; other bytes are kept. *)
Definition lower_ascii (a : ascii) : ascii :=
  let n := N_of_ascii a in
  if ((65 <=? n) && (n <=? 90))%N then ascii_of_N (n + 32) else a.

Fixpoint toLowerCase (s : string) : string :=
  match s with
  | EmptyString => EmptyString
  | String a rest => String (lower_ascii a) (toLowerCase rest)
  end.

(** ** src/components/Reader.tsx *)

Module Reader.

(** [ReaderProps], without the callback. *)
Record props := {
  manga_id : uuid;
  user : option App.User;
  chapterNumber : Z
}.

(** The state cells of the component that the handlers below read or
    write. *)
Record state := {
  newComment : js_string;
  pages : list string;
  currentPage : Z;
  isSubscribed : bool;
  showReportModal : bool;
  reportType : string;
  reportDescription : string
}.

Definition setNewComment (v : js_string) (s : state) : state :=
  {| newComment := v; pages := pages s; currentPage := currentPage s;
     isSubscribed := isSubscribed s; showReportModal := showReportModal s;
     reportType := reportType s; reportDescription := reportDescription s |}.

Definition setIsSubscribed (v : bool) (s : state) : state :=
  {| newComment := newComment s; pages := pages s;
     currentPage := currentPage s;
     isSubscribed := v; showReportModal := showReportModal s;
     reportType := reportType s; reportDescription := reportDescription s |}.

Definition setCurrentPage (f : Z → Z) (s : state) : state :=
  {| newComment := newComment s; pages := pages s;
     currentPage := f (currentPage s);
     isSubscribed := isSubscribed s; showReportModal := showReportModal s;
     reportType := reportType s; reportDescription := reportDescription s |}.

Definition setShowReportModal (v : bool) (s : state) : state :=
  {| newComment := newComment s; pages := pages s;
     currentPage := currentPage s;
     isSubscribed := isSubscribed s; showReportModal := v;
     reportType := reportType s; reportDescription := reportDescription s |}.

Definition setReportDescription (v : string) (s : state) : state :=
  {| newComment := newComment s; pages := pages s;
     currentPage := currentPage s;
     isSubscribed := isSubscribed s; showReportModal := showReportModal s;
     reportType := reportType s; reportDescription := v |}.

(** What a handler leaves behind: the component state, the store and the
    toasts shown, in order. *)
Record outcome := {
  st : state;
  store : Store.db;
  toasts : list toast
}.

(** [handleReport]. The client sends the insert with the session of the
    logged-in user. *)
Definition handleReport (p : props) (now : timestamptz) (s : state)
    (d : Store.db) : outcome :=
  match user p with
  | None =>
      {| st := s; store := d;
         toasts := [toast_error "Please login to report issues"] |}
  | Some u =>
      match Store.insert_report (Store.authenticated (App.id u)) d now
              (manga_id p) (chapterNumber p)
              (App.id u) (reportType s) (Some (reportDescription s)) with
      | Ok d' =>
          {| st := setReportDescription "" (setShowReportModal false s);
             store := d';
             toasts := [toast_success "Report submitted successfully"] |}
      | Err _ =>
          {| st := s; store := d;
             toasts := [toast_error "Failed to submit report"] |}
      end
  end.

(** [checkSubscription]: [setIsSubscribed(!!data)]; an error is only
    logged. *)
Definition checkSubscription (p : props) (s : state) (d : Store.db)
    : state :=
  match user p with
  | None => s
  | Some u =>
      match Store.maybeSingle
              (Store.select_subscription d (manga_id p) (chapterNumber p)
                 (App.id u)) with
      | Ok data => setIsSubscribed (bool_decide (is_Some data)) s
      | Err _ => s
      end
  end.

(** [handleComment]. The client sends the insert with the session of the
    logged-in user. *)
Definition handleComment (p : props) (now : timestamptz) (s : state)
    (d : Store.db) : outcome :=
  match user p with
  | None =>
      {| st := s; store := d;
         toasts := [toast_error "Please login to comment"] |}
  | Some u =>
      if js_falsy (trim (newComment s)) then
        {| st := s; store := d;
           toasts := [toast_error "Please enter a comment"] |}
      else
        match Store.insert_comment (Store.authenticated (App.id u)) d now
                (manga_id p) (chapterNumber p)
                (App.id u) (App.email u) (trim (newComment s)) with
        | Ok d' =>
            {| st := setNewComment [] s; store := d';
               toasts := [toast_success "Comment added successfully"] |}
        | Err _ =>
            {| st := s; store := d;
               toasts := [toast_error "Failed to add comment"] |}
        end
  end.

(** [toggleSubscription]. *)
Definition toggleSubscription (p : props) (now : timestamptz) (s : state)
    (d : Store.db) : outcome :=
  match user p with
  | None =>
      {| st := s; store := d;
         toasts := [toast_error "Please login to subscribe to comments"] |}
  | Some u =>
      if isSubscribed s then
        match Store.delete_subscription d (manga_id p) (chapterNumber p)
                (App.id u) with
        | Ok d' =>
            {| st := setIsSubscribed false s; store := d';
               toasts := [toast_success "Unsubscribed from comments"] |}
        | Err _ =>
            {| st := s; store := d;
               toasts := [toast_error "Failed to update subscription"] |}
        end
      else
        match Store.insert_subscription d now (manga_id p)
                (chapterNumber p) (App.id u) with
        | Ok d' =>
            {| st := setIsSubscribed true s; store := d';
               toasts := [toast_success "Subscribed to comments"] |}
        | Err _ =>
            {| st := s; store := d;
               toasts := [toast_error "Failed to update subscription"] |}
        end
  end.

(** The argument of [handlePageChange]. *)
Inductive direction := prev | next.

(** [handlePageChange]. *)
Definition handlePageChange (dir : direction) (s : state) : state :=
  setCurrentPage
    (λ prev_page,
       match dir with
       | prev => Z.max 0 (prev_page - 1)
       | next => Z.min (Z.of_nat (length (pages s)) - 1) (prev_page + 1)
       end)
    s.

End Reader.

(** ** src/lib/mangaApi.ts *)

Module MangaApi.

(** One element of the [data] array of the metadata service's answer.
    Members the code guards with [||] or [?.] may be missing. *)
Record JikanManga := {
  jm_title : string;
  jm_synopsis : option string;
  jm_genres : list string;
  jm_status : string;
  jm_score : option Q;
  jm_large_image_url : string;
  jm_authors : option (list string)
}.

(** How [axios.get] settles: the promise rejects (network failure, error
    status), or it resolves with the [data] array of the body. *)
Inductive axios_result :=
  | rejected
  | fulfilled (data : list JikanManga).

(** The metadata service, as the answer to each query [q]. *)
Definition api := string → axios_result.

Inductive manga_status := ongoing | completed.

(** The object [searchManga] returns. *)
Record manga_info := {
  title : string;
  description : option string;
  genres : list string;
  status : manga_status;
  rating : Q;
  cover : string;
  author : string
}.

(** How a JavaScript function body completes. *)
Inductive completion (A : Type) :=
  | Return (a : A)
  | Throw.
Arguments Return {A} a.
Arguments Throw {A}.

(** [x || 0] for a number from JSON. *)
Definition number_or_zero (x : option Q) : Q :=
  match x with
  | Some q => if Qeq_bool q 0 then 0%Q else q
  | None => 0%Q
  end.

(** [manga.authors?.[0]?.name || 'Unknown']. *)
Definition first_author (authors : option (list string)) : string :=
  match authors with
  | Some (name :: _) => if decide (name = "") then "Unknown" else name
  | _ => "Unknown"
  end.

(** The body of the [try] block of [searchManga]. *)
Definition searchManga_try (jikan : api) (q : string)
    : completion (option manga_info) :=
  match jikan q with
  | rejected => Throw
  | fulfilled [] => Return None
  | fulfilled (manga :: _) =>
      Return (Some
        {| title := jm_title manga;
           description := jm_synopsis manga;
           genres := jm_genres manga;
           status := if decide (toLowerCase (jm_status manga) = "publishing")
                     then ongoing else completed;
           rating := number_or_zero (jm_score manga);
           cover := jm_large_image_url manga;
           author := first_author (jm_authors manga) |})
  end.

(** [searchManga]: the [catch] clause logs and returns null. *)
Definition searchManga (jikan : api) (q : string)
    : completion (option manga_info) :=
  match searchManga_try jikan q with
  | Throw => Return None
  | r => r
  end.

End MangaApi.

(** ** The admin panel *)

Module AdminPanel.

(** [interface MangaForm]; of the cover file only its name is kept. *)
Record MangaForm := {
  title : string;
  description : string;
  author : string;
  status : MangaApi.manga_status;
  cover : option string;
  genres : list string;
  rating : Q
}.

Definition initialForm : MangaForm :=
  {| title := ""; description := ""; author := "";
     status := MangaApi.ongoing; cover := None; genres := [];
     rating := 0%Q |}.

(** The state cells of the component that the handlers below read or
    write. [notifications] holds rows as the store returned them. *)
Record state := {
  form : MangaForm;
  searching : bool;
  notifications : list Store.admin_notification_row;
  unreadCount : Z
}.

Record outcome := {
  st : state;
  store : Store.db;
  toasts : list toast
}.

(** [markNotificationAsRead]. *)
Definition markNotificationAsRead (nid : uuid) (s : state) (d : Store.db)
    : outcome :=
  match Store.update_notification_read d nid with
  | Ok d' =>
      {| st :=
           {| form := form s; searching := searching s;
              notifications :=
                (λ n, if decide (Store.an_id n = nid)
                      then Store.set_notification_read n else n)
                  <$> notifications s;
              unreadCount := Z.max 0 (unreadCount s - 1) |};
         store := d';
         toasts := [] |}
  | Err _ =>
      {| st := s; store := d;
         toasts := [toast_error "Failed to mark notification as read"] |}
  end.

(** [a || b] for strings. *)
Definition string_or (a b : string) : string :=
  if decide (a = "") then b else a.

(** The [setForm] update of [handleFetchInfo]. *)
Definition fill_form (mangaData : MangaApi.manga_info) (prev : MangaForm)
    : MangaForm :=
  {| title := title prev;
     description :=
       match MangaApi.description mangaData with
       | Some text => string_or text (description prev)
       | None => description prev
       end;
     author := string_or (MangaApi.author mangaData) (author prev);
     status := MangaApi.status mangaData;
     cover := cover prev;
     genres := MangaApi.genres mangaData;
     rating := MangaApi.number_or_zero (Some (MangaApi.rating mangaData)) |}.

Definition setForm (f : MangaForm → MangaForm) (s : state) : state :=
  {| form := f (form s); searching := searching s;
     notifications := notifications s; unreadCount := unreadCount s |}.

Definition setSearching (v : bool) (s : state) : state :=
  {| form := form s; searching := v;
     notifications := notifications s; unreadCount := unreadCount s |}.

(** [handleFetchInfo]. *)
Definition handleFetchInfo (jikan : MangaApi.api) (s : state)
    : state * list toast :=
  if decide (title (form s) = "") then
    (s, [toast_error "Please enter a title to search"])
  else
    let s1 := setSearching true s in
    match MangaApi.searchManga jikan (title (form s)) with
    | MangaApi.Return (Some mangaData) =>
        (setSearching false (setForm (fill_form mangaData) s1),
         [toast_success "Manga information fetched successfully"])
    | MangaApi.Return None =>
        (setSearching false s1,
         [toast_error "No manga information found"])
    | MangaApi.Throw =>
        (setSearching false s1,
         [toast_error "Failed to fetch manga information"])
    end.

(** [handleReportStatus]. [clock] is the instant [new Date()] reads.  The
    reload of the report list after a successful update only reads the
    store. *)
Definition handleReportStatus (clock : timestamptz) (reportId : uuid)
    (status : string) (d : Store.db) : Store.db * list toast :=
  match Store.update_report d reportId status
          (if decide (status = "resolved") then Some clock else None) with
  | Ok d' => (d', [toast_success "Report status updated"])
  | Err _ => (d, [toast_error "Failed to update report"])
  end.

End AdminPanel.

(** ** src/lib/store.ts *)

Module AuthStore.

(** The principal [supabase.auth.getUser()] knows. *)
Record auth_user := {
  au_id : uuid;
  au_email : string
}.

(** The answer of [supabase.auth.getUser()]: an error, or data whose
    [user] may be null. *)
Inductive auth_result :=
  | auth_error
  | auth_data (u : option auth_user).

(** [AuthState], without its functions. *)
Record state := {
  user : option App.User;
  loading : bool
}.

(** What the [try] block throws. *)
Inductive thrown :=
  | thrown_auth_error
  | thrown_no_user
  | thrown_store (e : pg_error).

(** [(error as any)?.__isAuthError]. *)
Definition isAuthError (e : thrown) : bool :=
  match e with
  | thrown_auth_error => true
  | _ => false
  end.

(** The object passed to [set({ user: ... })]. *)
Definition user_of_profile (userId : uuid) (a : auth_user)
    (profile : Store.profile_row) : App.User :=
  {| App.id := userId;
     App.email := au_email a;
     App.isAdmin := default false (Store.p_is_admin profile);
     App.username := Store.p_username profile;
     App.avatar_url := Store.p_avatar_url profile |}.

(** The body of the [try] block of [fetchUserProfile]: the user to set and
    the store it leaves, or what it throws and the store at that point. *)
Definition fetchUserProfile_try (auth : auth_result) (now : timestamptz)
    (userId : uuid) (d : Store.db) : (App.User + thrown) * Store.db :=
  match auth with
  | auth_error => (inr thrown_auth_error, d)
  | auth_data None => (inr thrown_no_user, d)
  | auth_data (Some a) =>
      match Store.maybeSingle (Store.select_profile d userId) with
      | Err e => (inr (thrown_store e), d)
      | Ok (Some profile) => (inl (user_of_profile userId a profile), d)
      | Ok None =>
          match Store.insert_profile d now userId
                  (Some (before_at (au_email a))) false with
          | Err e => (inr (thrown_store e), d)
          | Ok d' =>
              match Store.single (Store.select_profile d' userId) with
              | Err e => (inr (thrown_store e), d')
              | Ok newProfile =>
                  (inl (user_of_profile userId a newProfile), d')
              end
          end
      end
  end.

(** What [fetchUserProfile] leaves behind: the state, the store, and
    whether it called [supabase.auth.signOut()]. *)
Record outcome := {
  st : state;
  store : Store.db;
  signed_out : bool
}.

(** [fetchUserProfile]: [catch] sets the user to null and signs out on an
    authentication error; [finally] clears [loading]. *)
Definition fetchUserProfile (auth : auth_result) (now : timestamptz)
    (userId : uuid) (s : state) (d : Store.db) : outcome :=
  match fetchUserProfile_try auth now userId d with
  | (inl u, d') =>
      {| st := {| user := Some u; loading := false |};
         store := d'; signed_out := false |}
  | (inr e, d') =>
      {| st := {| user := None; loading := false |};
         store := d'; signed_out := isAuthError e |}
  end.

(** A profile row for the principal exists in the store. *)
Definition has_profile (d : Store.db) (uid : uuid) : Prop :=
  uid ∈ Store.p_user_id <$> Store.profiles d.

End AuthStore.

(** ** Sample data *)

Module Sample.

Definition alice : App.User :=
  {| App.id := 1%nat; App.email := "alice@example.org";
     App.isAdmin := false; App.username := Some "alice";
     App.avatar_url := None |}.

Definition bob : App.User :=
  {| App.id := 2%nat; App.email := "bob@example.org";
     App.isAdmin := false; App.username := Some "bob";
     App.avatar_url := None |}.

(** Manga 7, chapter 3, opened by [u]. *)
Definition reader_props (u : option App.User) : Reader.props :=
  {| Reader.manga_id := 7%nat; Reader.user := u;
     Reader.chapterNumber := 3 |}.

(** A reader with two pages loaded, the given draft and the given
    subscription flag. *)
Definition reader_state (draft : js_string) (subscribed : bool)
    : Reader.state :=
  {| Reader.newComment := draft; Reader.pages := ["p1.jpg"; "p2.jpg"];
     Reader.currentPage := 0; Reader.isSubscribed := subscribed;
     Reader.showReportModal := false;
     Reader.reportType := "unreadable";
     Reader.reportDescription := "" |}.

(** A store in which alice is subscribed to (7, 3), user 3 to (7, 3) and
    to (7, 4), with alice's profile and one pending report on (7, 3). *)
Definition store : Store.db :=
  {| Store.comments := [];
     Store.comment_subscriptions :=
       [ {| Store.cs_user_id := 1%nat; Store.cs_manga_id := 7%nat;
            Store.cs_chapter := 3; Store.cs_created_at := 10 |};
         {| Store.cs_user_id := 3%nat; Store.cs_manga_id := 7%nat;
            Store.cs_chapter := 3; Store.cs_created_at := 11 |};
         {| Store.cs_user_id := 3%nat; Store.cs_manga_id := 7%nat;
            Store.cs_chapter := 4; Store.cs_created_at := 12 |} ];
     Store.comment_notifications := [];
     Store.manga_reports :=
       [ {| Store.r_id := 40%nat; Store.r_manga_id := 7%nat;
            Store.r_chapter := 3; Store.r_user_id := 2%nat;
            Store.r_issue_type := "missing";
            Store.r_description := None; Store.r_status := "pending";
            Store.r_created_at := 13; Store.r_resolved_at := None |} ];
     Store.admin_notifications := [];
     Store.profiles :=
       [ {| Store.p_user_id := 1%nat; Store.p_username := Some "alice";
            Store.p_avatar_url := None; Store.p_is_admin := Some false;
            Store.p_created_at := 1; Store.p_updated_at := 1 |} ];
     Store.notify_queue := [];
     Store.next_uuid := 100%nat |}.

(** A comment by bob on (7, 3). *)
Definition bobs_comment : Store.comment_row :=
  {| Store.c_id := 100%nat; Store.c_manga_id := 7%nat;
     Store.c_chapter := 3; Store.c_user_id := 2%nat;
     Store.c_user_email := "bob@example.org";
     Store.c_content := js "hi"; Store.c_created_at := 20 |}.

(** A second principal whose email has the local part "alice". *)
Definition other_alice : AuthStore.auth_user :=
  {| AuthStore.au_id := 2%nat; AuthStore.au_email := "alice@example.com" |}.

Definition logged_out : AuthStore.state :=
  {| AuthStore.user := None; AuthStore.loading := true |}.

(** The admin panel with the title "Berserk" typed into an otherwise
    filled-in form. *)
Definition panel : AdminPanel.state :=
  {| AdminPanel.form :=
       {| AdminPanel.title := "Berserk";
          AdminPanel.description := "draft text";
          AdminPanel.author := "";
          AdminPanel.status := MangaApi.completed;
          AdminPanel.cover := None;
          AdminPanel.genres := ["Action"];
          AdminPanel.rating := 0%Q |};
     AdminPanel.searching := false;
     AdminPanel.notifications := [];
     AdminPanel.unreadCount := 0 |}.

(** A metadata service that is down. *)
Definition jikan_down : MangaApi.api := λ _, MangaApi.rejected.

End Sample.

(** ** src/components/Reader.tsx: the rest of the component *)

Module ReaderView.

(** [interface Comment]: the columns the comment panel shows. *)
Record Comment := {
  comment_id : uuid;
  user_email : string;
  content : js_string;
  created_at : timestamptz
}.

(** A stored comment as the panel holds it. *)
Definition comment_of_row (r : Store.comment_row) : Comment :=
  {| comment_id := Store.c_id r; user_email := Store.c_user_email r;
     content := Store.c_content r; created_at := Store.c_created_at r |}.

Inductive reading_mode := paginated | cascade.

(** All state cells of the component but the scroll speed: the ones of
    [Reader.state] and the remaining ones. *)
Record view := {
  base : Reader.state;
  autoScroll : bool;
  showComments : bool;
  comments : list Comment;
  loading : bool;
  readingMode : reading_mode
}.

(** The initial values of the [useState] calls. *)
Definition initial : view :=
  {| base :=
       {| Reader.newComment := []; Reader.pages := [];
          Reader.currentPage := 0; Reader.isSubscribed := false;
          Reader.showReportModal := false;
          Reader.reportType := "unreadable";
          Reader.reportDescription := "" |};
     autoScroll := false; showComments := false; comments := [];
     loading := true; readingMode := cascade |}.

Definition setBase (f : Reader.state → Reader.state) (v : view) : view :=
  {| base := f (base v); autoScroll := autoScroll v;
     showComments := showComments v; comments := comments v;
     loading := loading v; readingMode := readingMode v |}.

Definition setAutoScroll (f : bool → bool) (v : view) : view :=
  {| base := base v; autoScroll := f (autoScroll v);
     showComments := showComments v; comments := comments v;
     loading := loading v; readingMode := readingMode v |}.

Definition setShowComments (b : bool) (v : view) : view :=
  {| base := base v; autoScroll := autoScroll v;
     showComments := b; comments := comments v;
     loading := loading v; readingMode := readingMode v |}.

Definition setComments (f : list Comment → list Comment) (v : view) : view :=
  {| base := base v; autoScroll := autoScroll v;
     showComments := showComments v; comments := f (comments v);
     loading := loading v; readingMode := readingMode v |}.

Definition setLoading (b : bool) (v : view) : view :=
  {| base := base v; autoScroll := autoScroll v;
     showComments := showComments v; comments := comments v;
     loading := b; readingMode := readingMode v |}.

Definition setReadingMode (f : reading_mode → reading_mode) (v : view) : view :=
  {| base := base v; autoScroll := autoScroll v;
     showComments := showComments v; comments := comments v;
     loading := loading v; readingMode := f (readingMode v) |}.

Definition setPages (l : list string) (s : Reader.state) : Reader.state :=
  {| Reader.newComment := Reader.newComment s; Reader.pages := l;
     Reader.currentPage := Reader.currentPage s;
     Reader.isSubscribed := Reader.isSubscribed s;
     Reader.showReportModal := Reader.showReportModal s;
     Reader.reportType := Reader.reportType s;
     Reader.reportDescription := Reader.reportDescription s |}.

(** [toggleReadingMode]. *)
Definition toggleReadingMode (v : view) : view :=
  setAutoScroll (λ _, false)
    (setBase (Reader.setCurrentPage (λ _, 0))
       (setReadingMode
          (λ prev_mode,
             match prev_mode with
             | paginated => cascade
             | cascade => paginated
             end)
          v)).

(** [handlePageChange] as a closure: [closed_pages] is the [pages] of the
    render that created the function, [s] the state the updater runs on. *)
Definition handlePageChange_closure (closed_pages : list string)
    (dir : Reader.direction) (s : Reader.state) : Reader.state :=
  Reader.setCurrentPage
    (λ prev_page,
       match dir with
       | Reader.prev => Z.max 0 (prev_page - 1)
       | Reader.next =>
           Z.min (Z.of_nat (length closed_pages) - 1) (prev_page + 1)
       end)
    s.

(** [e.key] as far as [handleKeyPress] tells keys apart. *)
Inductive key := ArrowLeft | ArrowRight | Space | Escape | other_key.

(** [handleKeyPress]. [typing] says whether the event's target is an input
    or a text area. The effect that registers the listener runs again when
    [readingMode], [showReportModal] or [showComments] change, so these are
    read from the current view; [pages] is not among its dependencies, so
    the listener uses the [closed_pages] of the render that registered it. *)
Definition handleKeyPress (closed_pages : list string) (typing : bool)
    (k : key) (v : view) : view :=
  if typing then v
  else
    match k with
    | ArrowLeft =>
        match readingMode v with
        | paginated =>
            setBase (handlePageChange_closure closed_pages Reader.prev) v
        | cascade => v
        end
    | ArrowRight =>
        match readingMode v with
        | paginated =>
            setBase (handlePageChange_closure closed_pages Reader.next) v
        | cascade => v
        end
    | Space =>
        match readingMode v with
        | cascade => setAutoScroll negb v
        | paginated => v
        end
    | Escape =>
        if Reader.showReportModal (base v) then
          setBase (Reader.setShowReportModal false) v
        else if showComments v then setShowComments false v
        else v
    | other_key => v
    end.

(** ORDER BY created_at DESC. *)
Definition newest_first (a b : Store.comment_row) : Prop :=
  (Store.c_created_at b ≤ Store.c_created_at a)%Z.

#[global] Instance newest_first_dec a b : Decision (newest_first a b).
Proof. unfold newest_first. apply _. Defined.

(** SELECT ... FROM comments WHERE manga_id = m AND chapter = c
    ORDER BY created_at DESC. Among rows of equal [created_at] the store is
    free to choose; the model takes the order of a merge sort. *)
Definition select_comments (d : Store.db) (m : uuid) (c : Z)
    : list Store.comment_row :=
  merge_sort newest_first
    (filter (λ r, Store.c_manga_id r = m ∧ Store.c_chapter r = c)
            (Store.comments d)).

(** [loadComments]. *)
Definition loadComments (p : Reader.props) (v : view) (d : Store.db) : view :=
  setComments
    (λ _, comment_of_row
            <$> select_comments d (Reader.manga_id p) (Reader.chapterNumber p))
    v.

(** The callback of [subscribeToComments] for one pushed row. *)
Definition onCommentInsert (row : Store.comment_row) (v : view) : view :=
  setComments (λ prev_comments, comment_of_row row :: prev_comments) v.

(** [page.endsWith(suffix)]. *)
Definition endsWith (s suffix : string) : bool :=
  String.prefix (String.rev suffix) (String.rev s).

(** The store's answer to the chapter query of [loadChapter]: an error (also
    when no single row matches), or the row's [pages], absent when the
    column does not hold an array. *)
Inductive chapter_answer :=
  | chapter_error
  | chapter_data (page_names : option (list string)).

(** The URL of a stored page; [supabase_url] is VITE_SUPABASE_URL. *)
Definition page_url (supabase_url page : string) : string :=
  supabase_url +:+ "/storage/v1/object/public/pages/" +:+ page.

(** What one entry of [data.pages] becomes: its URL, or for a PDF the images
    of its pages. [render_pdf] stands for PDF.js and the canvas: the data
    URLs of the document's pages in order, or nothing when loading or
    rendering fails. *)
Definition page_images (supabase_url : string)
    (render_pdf : string → option (list string)) (page : string)
    : option (list string) :=
  if endsWith page ".pdf" then render_pdf (page_url supabase_url page)
  else Some [page_url supabase_url page].

(** [loadChapter]. *)
Definition loadChapter (supabase_url : string)
    (render_pdf : string → option (list string)) (answer : chapter_answer)
    (v : view) : view * list toast :=
  match answer with
  | chapter_data (Some page_names) =>
      match mapM (page_images supabase_url render_pdf) page_names with
      | Some pageUrls =>
          (setLoading false (setBase (setPages (concat pageUrls)) v), [])
      | None =>
          (setLoading false v, [toast_error "Failed to load chapter"])
      end
  | _ => (setLoading false v, [toast_error "Failed to load chapter"])
  end.

End ReaderView.

(** ** The admin panel: notifications *)

Module AdminPanelView.

(** ORDER BY created_at DESC on [admin_notifications]. *)
Definition newest_first (a b : Store.admin_notification_row) : Prop :=
  (Store.an_created_at b ≤ Store.an_created_at a)%Z.

#[global] Instance newest_first_dec a b : Decision (newest_first a b).
Proof. unfold newest_first. apply _. Defined.

(** [loadNotifications]; rows of equal [created_at] in merge-sort order. *)
Definition loadNotifications (s : AdminPanel.state) (d : Store.db)
    : AdminPanel.state :=
  let data := merge_sort newest_first (Store.admin_notifications d) in
  {| AdminPanel.form := AdminPanel.form s;
     AdminPanel.searching := AdminPanel.searching s;
     AdminPanel.notifications := data;
     AdminPanel.unreadCount :=
       Z.of_nat (length (filter (λ n, Store.an_read n = false) data)) |}.

(** The callback of [subscribeToNotifications] for one pushed row. *)
Definition onNotificationInsert (row : Store.admin_notification_row)
    (s : AdminPanel.state) : AdminPanel.state :=
  {| AdminPanel.form := AdminPanel.form s;
     AdminPanel.searching := AdminPanel.searching s;
     AdminPanel.notifications := row :: AdminPanel.notifications s;
     AdminPanel.unreadCount := AdminPanel.unreadCount s + 1 |}.

(** The click handler of one entry of the notification list:
    [if (!notification.read) markNotificationAsRead(notification.id)]. *)
Definition onNotificationClick (notification : Store.admin_notification_row)
    (s : AdminPanel.state) (d : Store.db) : AdminPanel.outcome :=
  if Store.an_read notification then
    {| AdminPanel.st := s; AdminPanel.store := d; AdminPanel.toasts := [] |}
  else AdminPanel.markNotificationAsRead (Store.an_id notification) s d.

(** The badge shows the number of unread notifications of the list. *)
Definition badge_ok (s : AdminPanel.state) : Prop :=
  AdminPanel.unreadCount s
  = Z.of_nat (length (filter (λ n, Store.an_read n = false)
                             (AdminPanel.notifications s))).

(** What can happen to the open panel. *)
Inductive panel_event :=
  | pushed (row : Store.admin_notification_row)
  | clicked (notification : Store.admin_notification_row).

(** A pushed row is new and unread; a clicked entry is one of the list. *)
Definition event_ok (s : AdminPanel.state) (e : panel_event) : Prop :=
  match e with
  | pushed row =>
      Store.an_read row = false
      ∧ Store.an_id row ∉ Store.an_id <$> AdminPanel.notifications s
  | clicked notification => notification ∈ AdminPanel.notifications s
  end.

Definition panel_step (e : panel_event) (s : AdminPanel.state)
    (d : Store.db) : AdminPanel.state * Store.db :=
  match e with
  | pushed row => (onNotificationInsert row s, d)
  | clicked notification =>
      (AdminPanel.st (onNotificationClick notification s d),
       AdminPanel.store (onNotificationClick notification s d))
  end.

End AdminPanelView.

(** ** The profile dialog *)

Module UserProfile.

(** The constraints of [profiles]: [user_id] is the primary key and the
    non-null [username]s are UNIQUE. *)
Definition profiles_ok (t : list Store.profile_row) : Prop :=
  NoDup (Store.p_user_id <$> t) ∧ NoDup (omap Store.p_username t).

(** SET username = v on one row; the trigger [update_profiles_updated_at]
    stamps [updated_at]. *)
Definition set_username (v : string) (now : timestamptz)
    (row : Store.profile_row) : Store.profile_row :=
  {| Store.p_user_id := Store.p_user_id row;
     Store.p_username := Some v;
     Store.p_avatar_url := Store.p_avatar_url row;
     Store.p_is_admin := Store.p_is_admin row;
     Store.p_created_at := Store.p_created_at row;
     Store.p_updated_at := now |}.

(** UPDATE profiles SET username = v WHERE user_id = uid: rejected when the
    row exists and another row holds the username. *)
Definition update_username (d : Store.db) (now : timestamptz) (uid : uuid)
    (v : string) : result Store.db :=
  if decide (uid ∈ Store.p_user_id <$> Store.profiles d) then
    if decide (Some v ∈ Store.p_username
                         <$> filter (λ p, Store.p_user_id p ≠ uid)
                                    (Store.profiles d))
    then Err (unique_violation "profiles_username_key")
    else
      Ok {| Store.comments := Store.comments d;
            Store.comment_subscriptions := Store.comment_subscriptions d;
            Store.comment_notifications := Store.comment_notifications d;
            Store.manga_reports := Store.manga_reports d;
            Store.admin_notifications := Store.admin_notifications d;
            Store.profiles :=
              (λ row, if decide (Store.p_user_id row = uid)
                      then set_username v now row else row)
                <$> Store.profiles d;
            Store.notify_queue := Store.notify_queue d;
            Store.next_uuid := Store.next_uuid d |}
  else Ok d.

(** The initial value of the [username] cell:
    [user.username || user.email.split('@')[0]]. *)
Definition initial_username (u : App.User) : string :=
  match App.username u with
  | Some name => if decide (name = "") then before_at (App.email u) else name
  | None => before_at (App.email u)
  end.

(** What [handleUsernameUpdate] leaves behind: the store, the user passed to
    [onUpdate] if it was called, and the toasts. *)
Record outcome := {
  store : Store.db;
  updated : option App.User;
  toasts : list toast
}.

(** [handleUsernameUpdate]. *)
Definition handleUsernameUpdate (u : App.User) (username : string)
    (now : timestamptz) (d : Store.db) : outcome :=
  match update_username d now (App.id u) username with
  | Ok d' =>
      {| store := d';
         updated :=
           Some {| App.id := App.id u; App.email := App.email u;
                   App.isAdmin := App.isAdmin u;
                   App.username := Some username;
                   App.avatar_url := App.avatar_url u |};
         toasts := [toast_success "Username updated successfully"] |}
  | Err _ =>
      {| store := d; updated := None;
         toasts := [toast_error "Failed to update username"] |}
  end.

End UserProfile.

(** ** The manga page: the reading library *)

Module MangaDetails.

(** [CREATE TYPE library_status AS ENUM]. *)
Inductive library_status := reading | completed | planned | on_hold.

#[global] Instance library_status_eq_dec : EqDecision library_status.
Proof. solve_decision. Defined.

(** [user_library]: PRIMARY KEY (user_id, manga_id); [manga_id] is kept as
    the canonical (lower-case) text of the uuid. *)
Record library_row := {
  ul_user_id : uuid;
  ul_manga_id : string;
  ul_status : option library_status;
  ul_current_chapter : option Z;
  ul_created_at : timestamptz;
  ul_updated_at : timestamptz
}.

Definition library_key (r : library_row) : uuid * string :=
  (ul_user_id r, ul_manga_id r).

Definition library_pk (t : list library_row) : Prop :=
  NoDup (library_key <$> t).

(** [interface LibraryStatus], with the columns as the store returns them. *)
Record LibraryStatus := {
  status : option library_status;
  current_chapter : option Z
}.

Definition is_hex (a : ascii) : bool :=
  let n := N_of_ascii a in
  (((48 <=? n) && (n <=? 57)) || ((97 <=? n) && (n <=? 102))
   || ((65 <=? n) && (n <=? 70)))%N.

(** Exactly [n] hexadecimal digits at the start of [s]: what follows them. *)
Fixpoint hex_run (n : nat) (s : string) : option string :=
  match n with
  | O => Some s
  | S n' =>
      match s with
      | String a rest => if is_hex a then hex_run n' rest else None
      | EmptyString => None
      end
  end.

(** A hyphen at the start of [s]: what follows it. *)
Definition hyphen (s : string) : option string :=
  match s with
  | String a rest => if Ascii.eqb a "-"%char then Some rest else None
  | EmptyString => None
  end.

(** The test
    [/^[0-9a-f]{8}-[0-9a-f]{4}-[0-9a-f]{4}-[0-9a-f]{4}-[0-9a-f]{12}$/i]. *)
Definition is_uuid_text (s : string) : bool :=
  match
    r1 ← hex_run 8 s; r2 ← hyphen r1;
    r3 ← hex_run 4 r2; r4 ← hyphen r3;
    r5 ← hex_run 4 r4; r6 ← hyphen r5;
    r7 ← hex_run 4 r6; r8 ← hyphen r7;
    hex_run 12 r8
  with
  | Some EmptyString => true
  | _ => false
  end.

(** SELECT status, current_chapter FROM user_library WHERE manga_id = m AND
    user_id = u. *)
Definition select_library (t : list library_row) (m : string) (u : uuid)
    : list library_row :=
  filter (λ r, library_key r = (u, toLowerCase m)) t.

(** [.upsert({user_id, manga_id, status, current_chapter})]: the row with
    the key is updated (the trigger stamps [updated_at]), or a new row is
    inserted. *)
Definition upsert_library (t : list library_row) (now : timestamptz)
    (u : uuid) (m : string) (st : library_status) (chapter : Z)
    : list library_row :=
  if decide ((u, toLowerCase m) ∈ library_key <$> t) then
    (λ r, if decide (library_key r = (u, toLowerCase m))
          then {| ul_user_id := ul_user_id r; ul_manga_id := ul_manga_id r;
                  ul_status := Some st; ul_current_chapter := Some chapter;
                  ul_created_at := ul_created_at r; ul_updated_at := now |}
          else r) <$> t
  else
    t ++ [{| ul_user_id := u; ul_manga_id := toLowerCase m;
             ul_status := Some st; ul_current_chapter := Some chapter;
             ul_created_at := now; ul_updated_at := now |}].

(** [libraryStatus?.current_chapter || 1]. *)
Definition chapter_or_first (libraryStatus : option LibraryStatus) : Z :=
  match libraryStatus with
  | Some {| current_chapter := Some n |} => if decide (n = 0) then 1 else n
  | _ => 1
  end.

(** [loadLibraryStatus]: more or fewer rows than one count as no entry. *)
Definition loadLibraryStatus (user : option App.User) (manga_id : string)
    (libraryStatus : option LibraryStatus) (t : list library_row)
    : option LibraryStatus :=
  match user with
  | None => libraryStatus
  | Some u =>
      if is_uuid_text manga_id then
        match select_library t manga_id (App.id u) with
        | [r] => Some {| status := ul_status r;
                         current_chapter := ul_current_chapter r |}
        | _ => None
        end
      else libraryStatus
  end.

(** [addToLibrary]: the new [libraryStatus], the table and the toasts. *)
Definition addToLibrary (user : option App.User) (manga_id : string)
    (now : timestamptz) (st : library_status)
    (libraryStatus : option LibraryStatus) (t : list library_row)
    : option LibraryStatus * list library_row * list toast :=
  match user with
  | None =>
      (libraryStatus, t,
       [toast_error "Please login to add manga to your library"])
  | Some u =>
      if is_uuid_text manga_id then
        (Some {| status := Some st;
                 current_chapter := Some (chapter_or_first libraryStatus) |},
         upsert_library t now (App.id u) manga_id st
           (chapter_or_first libraryStatus),
         [toast_success "Added to library"])
      else (libraryStatus, t, [toast_error "Invalid manga ID"])
  end.

End MangaDetails.

(** ** src/components/Directory.tsx *)

Module Directory.

(** A row of the catalogue query: the columns of [mangas] the component
    reads, with the names of the joined genres. *)
Record manga_row := {
  m_id : uuid;
  m_title : string;
  m_cover_url : option string;
  m_author : option string;
  m_status : option MangaApi.manga_status;
  m_rating : option Q;
  m_description : option string;
  m_genres : list string
}.

(** [type Manga] of App.tsx; members the store may leave null are
    optional. *)
Record Manga := {
  id : uuid;
  title : string;
  cover : string;
  genres : list string;
  author : option string;
  status : option MangaApi.manga_status;
  rating : Q;
  chapters : Z;
  description : option string
}.

Record state := {
  mangas : list Manga;
  loading : bool;
  selectedGenres : list string
}.

(** The click handler of a genre button. *)
Definition toggleGenre (genre : string) (prev_genres : list string)
    : list string :=
  if decide (genre ∈ prev_genres) then filter (λ g, g ≠ genre) prev_genres
  else prev_genres ++ [genre].

(** The [cover] member: the public URL of a non-empty [cover_url]. *)
Definition cover_of (supabase_url : string) (cover_url : option string)
    : string :=
  match cover_url with
  | Some name =>
      if decide (name = "") then ""
      else supabase_url +:+ "/storage/v1/object/public/covers/" +:+ name
  | None => ""
  end.

Definition transform (supabase_url : string) (manga : manga_row) : Manga :=
  {| id := m_id manga;
     title := m_title manga;
     cover := cover_of supabase_url (m_cover_url manga);
     genres := m_genres manga;
     author := m_author manga;
     status := m_status manga;
     rating := MangaApi.number_or_zero (m_rating manga);
     chapters := 0;
     description := m_description manga |}.

(** [manga.manga_genres.some(g => selectedGenres.includes(g.genres.name))]. *)
Definition has_selected_genre (selected : list string) (manga : manga_row)
    : Prop :=
  Exists (λ g, g ∈ selected) (m_genres manga).

#[global] Instance has_selected_genre_dec selected manga :
  Decision (has_selected_genre selected manga).
Proof. unfold has_selected_genre. apply _. Defined.

(** [loadMangas], from the store's answer to the query on: the genre filter
    and the transformation run in the browser. *)
Definition loadMangas (supabase_url : string)
    (answer : result (list manga_row)) (s : state) : state * list toast :=
  match answer with
  | Ok data =>
      let filteredData :=
        match selectedGenres s with
        | [] => data
        | _ => filter (has_selected_genre (selectedGenres s)) data
        end in
      ({| mangas := transform supabase_url <$> filteredData;
          loading := false; selectedGenres := selectedGenres s |}, [])
  | Err _ =>
      ({| mangas := mangas s; loading := false;
          selectedGenres := selectedGenres s |},
       [toast_error "Failed to load mangas"])
  end.

End Directory.

(** ** The upload form *)

Module Upload.

(** [removeFile]: [prev.filter((_, i) => i !== index)]. *)
Definition removeFile {File : Type} (index : nat) (prev_files : list File)
    : list File :=
  snd <$> filter (λ entry, entry.1 ≠ index) (imap (λ i file, (i, file)) prev_files).

(** [e.type] of a drag event. *)
Inductive drag_type := dragenter | dragover | dragleave | other_drag.

(** [handleDrag], on the [dragActive] cell. *)
Definition handleDrag (e : drag_type) (dragActive : bool) : bool :=
  match e with
  | dragenter | dragover => true
  | dragleave => false
  | other_drag => dragActive
  end.

(** [handleDrop], on the cells [dragActive] and [files]. *)
Definition handleDrop {File : Type} (dropped : list File)
    (cells : bool * list File) : bool * list File :=
  (false, cells.2 ++ dropped).

End Upload.

(** ** Runs of the notification panel *)

Module AdminPanelRun.

(** The panel after a sequence of events, oldest first. *)
Fixpoint run (es : list AdminPanelView.panel_event) (s : AdminPanel.state)
    (d : Store.db) : AdminPanel.state * Store.db :=
  match es with
  | [] => (s, d)
  | e :: rest =>
      run rest (AdminPanelView.panel_step e s d).1
               (AdminPanelView.panel_step e s d).2
  end.

(** Every event of the sequence is possible when it happens. *)
Fixpoint events_ok (es : list AdminPanelView.panel_event)
    (s : AdminPanel.state) (d : Store.db) : Prop :=
  match es with
  | [] => True
  | e :: rest =>
      AdminPanelView.event_ok s e
      ∧ events_ok rest (AdminPanelView.panel_step e s d).1
                       (AdminPanelView.panel_step e s d).2
  end.

End AdminPanelRun.

(** ** Runs of the reader *)

Module ReaderRun.

(** What the user can do to a loaded reader, and the end of the page
    reached by the auto-scroll. *)
Inductive event :=
  | key_pressed (typing : bool) (k : ReaderView.key)
  | mode_button
  | page_button (dir : Reader.direction)
  | autoscroll_button
  | reached_bottom.

(** The page buttons are rendered in paginated mode only, the auto-scroll
    button in cascade mode only. *)
Definition event_ok (v : ReaderView.view) (e : event) : Prop :=
  match e with
  | page_button _ => ReaderView.readingMode v = ReaderView.paginated
  | autoscroll_button => ReaderView.readingMode v = ReaderView.cascade
  | _ => True
  end.

(** One event, with the key listener registered by a render that held the
    pages the view holds. *)
Definition step (e : event) (v : ReaderView.view) : ReaderView.view :=
  match e with
  | key_pressed typing k =>
      ReaderView.handleKeyPress (Reader.pages (ReaderView.base v)) typing k v
  | mode_button => ReaderView.toggleReadingMode v
  | page_button dir => ReaderView.setBase (Reader.handlePageChange dir) v
  | autoscroll_button => ReaderView.setAutoScroll negb v
  | reached_bottom => ReaderView.setAutoScroll (λ _, false) v
  end.

Fixpoint run (es : list event) (v : ReaderView.view) : ReaderView.view :=
  match es with
  | [] => v
  | e :: rest => run rest (step e v)
  end.

Fixpoint events_ok (es : list event) (v : ReaderView.view) : Prop :=
  match es with
  | [] => True
  | e :: rest => event_ok v e ∧ events_ok rest (step e v)
  end.

End ReaderRun.

(** ** More sample data *)

Module Fixtures.

(** The principal of alice, as the authentication service knows her. *)
Definition alice_auth : AuthStore.auth_user :=
  {| AuthStore.au_id := 1%nat; AuthStore.au_email := "alice@example.org" |}.

(** Two unread notifications for administrators. *)
Definition note1 : Store.admin_notification_row :=
  {| Store.an_id := 200%nat; Store.an_type := "manga_report";
     Store.an_data := JObject [("chapter", JNum 3)];
     Store.an_read := false; Store.an_created_at := 30 |}.

Definition note2 : Store.admin_notification_row :=
  {| Store.an_id := 201%nat; Store.an_type := "manga_report";
     Store.an_data := JObject [("chapter", JNum 4)];
     Store.an_read := false; Store.an_created_at := 31 |}.

(** [Sample.store] with the first notification stored. *)
Definition admin_store : Store.db :=
  {| Store.comments := Store.comments Sample.store;
     Store.comment_subscriptions := Store.comment_subscriptions Sample.store;
     Store.comment_notifications := Store.comment_notifications Sample.store;
     Store.manga_reports := Store.manga_reports Sample.store;
     Store.admin_notifications := [note1];
     Store.profiles := Store.profiles Sample.store;
     Store.notify_queue := Store.notify_queue Sample.store;
     Store.next_uuid := 300%nat |}.

(** An administrator. *)
Definition carol : App.User :=
  {| App.id := 4%nat; App.email := "carol@example.org";
     App.isAdmin := true; App.username := Some "carol";
     App.avatar_url := None |}.

(** [Sample.store] with carol's profile, which makes her an administrator. *)
Definition staffed_store : Store.db :=
  {| Store.comments := Store.comments Sample.store;
     Store.comment_subscriptions := Store.comment_subscriptions Sample.store;
     Store.comment_notifications := Store.comment_notifications Sample.store;
     Store.manga_reports := Store.manga_reports Sample.store;
     Store.admin_notifications := Store.admin_notifications Sample.store;
     Store.profiles :=
       Store.profiles Sample.store ++
         [ {| Store.p_user_id := 4%nat; Store.p_username := Some "carol";
              Store.p_avatar_url := None; Store.p_is_admin := Some true;
              Store.p_created_at := 2; Store.p_updated_at := 2 |} ];
     Store.notify_queue := Store.notify_queue Sample.store;
     Store.next_uuid := Store.next_uuid Sample.store |}.

(** A text of [n] letters 'a'. *)
Fixpoint letters (n : nat) : string :=
  match n with
  | O => EmptyString
  | S n' => String "a"%char (letters n')
  end.

(** The second notification is pushed, then the first is clicked. *)
Definition panel_events : list AdminPanelView.panel_event :=
  [AdminPanelView.pushed note2; AdminPanelView.clicked note1].

(** A metadata service that knows one manga, still publishing, without
    score, with one author. *)
Definition jikan_one : MangaApi.api :=
  λ _, MangaApi.fulfilled
         [{| MangaApi.jm_title := "Berserk";
             MangaApi.jm_synopsis := Some "Guts.";
             MangaApi.jm_genres := ["Action"; "Horror"];
             MangaApi.jm_status := "Publishing";
             MangaApi.jm_score := None;
             MangaApi.jm_large_image_url := "b.jpg";
             MangaApi.jm_authors := Some ["Miura Kentarou"] |}].

(** A loaded reader with two pages, in cascade mode. *)
Definition loaded_view : ReaderView.view :=
  {| ReaderView.base := Sample.reader_state [] false;
     ReaderView.autoScroll := false; ReaderView.showComments := true;
     ReaderView.comments := []; ReaderView.loading := false;
     ReaderView.readingMode := ReaderView.cascade |}.


(** A renderer that fails on every PDF. *)
Definition no_pdf : string → option (list string) := λ _, None.

Definition manga_text : string := "123E4567-e89b-12d3-a456-426614174000".

(** A library in which alice reads the manga above at chapter 5. *)
Definition library : list MangaDetails.library_row :=
  [ {| MangaDetails.ul_user_id := 1%nat;
       MangaDetails.ul_manga_id := "123e4567-e89b-12d3-a456-426614174000";
       MangaDetails.ul_status := Some MangaDetails.reading;
       MangaDetails.ul_current_chapter := Some 5;
       MangaDetails.ul_created_at := 3; MangaDetails.ul_updated_at := 4 |} ].

Definition alice_progress : option MangaDetails.LibraryStatus :=
  Some {| MangaDetails.status := Some MangaDetails.reading;
          MangaDetails.current_chapter := Some 5 |}.

End Fixtures.

(** * Properties *)

Import Store.

(** ** The operations on concrete inputs *)

Example trim_inner_space_kept : trim (js "  a b   ") = js "a b".
Proof. reflexivity. Qed.

Example trim_line_terminators : trim [0xA; 0x2003; 0x68; 0xFEFF; 0xD]%N = [0x68]%N.
Proof. reflexivity. Qed.

Example before_at_local_part : before_at "bob@example.org" = "bob".
Proof. reflexivity. Qed.

Example before_at_no_at : before_at "bob" = "bob".
Proof. reflexivity. Qed.

Example toLowerCase_status : toLowerCase "Publishing" = "publishing".
Proof. reflexivity. Qed.

(** [jsonb] stores the five members of a report payload by key length. *)
Example jsonb_build_object_order :
  jsonb_build_object
    [("report_id", JUuid 40%nat); ("manga_id", JUuid 7%nat);
     ("chapter", JNum 3); ("issue_type", JStr "missing");
     ("description", JNull)]
  = JObject
      [("chapter", JNum 3); ("manga_id", JUuid 7%nat);
       ("report_id", JUuid 40%nat); ("issue_type", JStr "missing");
       ("description", JNull)].
Proof. reflexivity. Qed.

Example jsonb_build_object_repeated_key :
  jsonb_build_object [("a", JNum 1); ("a", JNum 2)] = JObject [("a", JNum 2)].
Proof. reflexivity. Qed.

(** The text of a report payload as [pg_notify] sends it,
    [{"report_id" : "...", "manga_id" : "...", "chapter" : 3,
    "issue_type" : "missing", "description" : null}], has 170 bytes. *)
Example json_text_length_payload :
  json_text_length
    (json_build_object
       [("report_id", JUuid 40%nat); ("manga_id", JUuid 7%nat);
        ("chapter", JNum 3); ("issue_type", JStr "missing");
        ("description", JNull)])
  = 170%nat.
Proof. reflexivity. Qed.

(** A quote and a line feed take two bytes each, a negative chapter its
    sign. *)
Example json_text_length_escapes :
  escape_json_length (String "a" (String (ascii_of_N 34)
                                    (String (ascii_of_N 10) EmptyString)))
  = 7%nat
  ∧ json_text_length (JNum (-12)) = 3%nat.
Proof. split; reflexivity. Qed.

(** Sent as the owner of the tables, bob's comment on (7, 3) notifies alice
    and user 3. *)
Example insert_comment_as_owner :
  (λ d, cn_user_id <$> comment_notifications d)
    <$> (match insert_comment owner Sample.store 20 7%nat 3 2%nat
                 "bob@example.org" (js "hi") with
         | Ok d => Some d
         | Err _ => None
         end)
  = Some [1%nat; 3%nat].
Proof. reflexivity. Qed.

(** A comment in somebody else's name, and a comment of a visitor who is not
    logged in, are refused by the policies of [comments]. *)
Example insert_comment_refused :
  insert_comment (authenticated 1%nat) Sample.store 20 7%nat 3 2%nat
    "bob@example.org" (js "hi")
  = Err (insufficient_privilege "comments")
  ∧ insert_comment anon Sample.store 20 7%nat 3 2%nat
      "bob@example.org" (js "hi")
    = Err (insufficient_privilege "comments").
Proof. split; reflexivity. Qed.

(** Were the trigger function run as alice for bob's comment, it would find
    alice's subscription and be refused the notification row. *)
Example notify_comment_subscribers_as_subscriber :
  notify_comment_subscribers (authenticated 1%nat) Sample.bobs_comment 20
    Sample.store
  = Err (insufficient_privilege "comment_notifications").
Proof. reflexivity. Qed.

(** Carol, an administrator, files a report with a description of 7828
    letters: the event's payload has 7999 bytes and the report is stored.
    With one letter more the payload is too long for [pg_notify] and the
    report fails. *)
Example handleReport_long_description :
  let report (n : Z) :=
    Reader.handleReport (Sample.reader_props (Some Fixtures.carol)) 20
      (Reader.setReportDescription (Fixtures.letters (Z.to_nat n))
         (Sample.reader_state [] false))
      Fixtures.staffed_store in
  Reader.toasts (report 7828) = [toast_success "Report submitted successfully"]
  ∧ length (manga_reports (Reader.store (report 7828))) = 2%nat
  ∧ Reader.toasts (report 7829) = [toast_error "Failed to submit report"]
  ∧ Reader.store (report 7829) = Fixtures.staffed_store.
Proof. vm_compute. done. Qed.

(** Bob subscribes to (7, 3) and unsubscribes again: the table is as
    before. *)
Example subscribe_then_unsubscribe :
  let o1 := Reader.toggleSubscription (Sample.reader_props (Some Sample.bob))
              20 (Sample.reader_state [] false) Sample.store in
  let o2 := Reader.toggleSubscription (Sample.reader_props (Some Sample.bob))
              21 (Reader.st o1) (Reader.store o1) in
  Reader.isSubscribed (Reader.st o1) = true
  ∧ length (comment_subscriptions (Reader.store o1)) = 4%nat
  ∧ Reader.isSubscribed (Reader.st o2) = false
  ∧ Reader.store o2 = Sample.store.
Proof. vm_compute. done. Qed.

(** A publishing manga without score and authors, as [searchManga] reports
    it. *)
Example searchManga_first_result :
  MangaApi.searchManga
    (λ _, MangaApi.fulfilled
            [{| MangaApi.jm_title := "Berserk";
                MangaApi.jm_synopsis := Some "Guts.";
                MangaApi.jm_genres := ["Action"; "Horror"];
                MangaApi.jm_status := "Publishing";
                MangaApi.jm_score := None;
                MangaApi.jm_large_image_url := "b.jpg";
                MangaApi.jm_authors := Some [] |}])
    "berserk"
  = MangaApi.Return
      (Some {| MangaApi.title := "Berserk";
               MangaApi.description := Some "Guts.";
               MangaApi.genres := ["Action"; "Horror"];
               MangaApi.status := MangaApi.ongoing;
               MangaApi.rating := 0%Q;
               MangaApi.cover := "b.jpg";
               MangaApi.author := "Unknown" |}).
Proof. reflexivity. Qed.

(** ** Fan-out of comment notifications *)

Lemma filter_none {A} (P : A → Prop) `{∀ x, Decision (P x)} (l : list A) :
  (∀ x, x ∈ l → ¬ P x) → filter P l = [].
Proof.
  induction l as [|x l IH]; intros Hall; [done|].
  rewrite filter_cons_False; [|apply Hall; left].
  apply IH. intros y Hy. apply Hall. by right.
Qed.

Lemma fanout_recipients who NEW now d :
  cn_user_id <$> fanout_rows who NEW now d
  = cs_user_id <$> filter (fanout_where NEW) (visible_subscriptions who d).
Proof.
  unfold fanout_rows. rewrite fmap_imap. apply imap_const.
Qed.

Lemma fanout_ids who NEW now d :
  cn_id <$> fanout_rows who NEW now d
  = seq (next_uuid d) (length (fanout_rows who NEW now d)).
Proof.
  unfold fanout_rows. rewrite length_imap, fmap_imap.
  generalize (next_uuid d).
  induction (filter (fanout_where NEW) (visible_subscriptions who d))
    as [|cs l IH]; intros n; simpl; [done|].
  f_equal; [lia|].
  rewrite <- IH. apply imap_ext. intros i x _. simpl. lia.
Qed.

(** Within one thread the primary key makes the subscriber column
    duplicate-free. *)
Lemma thread_users_NoDup (P : subscription_row → Prop)
    `{∀ cs, Decision (P cs)} m c (t : list subscription_row) :
  (∀ cs, P cs → cs_manga_id cs = m ∧ cs_chapter cs = c) →
  subscriptions_pk t →
  NoDup (cs_user_id <$> filter P t).
Proof.
  intros HP. unfold subscriptions_pk.
  induction t as [|cs t IH]; simpl; intros Hpk; [constructor|].
  apply NoDup_cons in Hpk as [Hnotin Hpk].
  rewrite filter_cons. destruct (decide (P cs)) as [Hcs|]; [|by apply IH].
  simpl. apply NoDup_cons. split; [|by apply IH].
  intros Hin. apply Hnotin.
  apply list_elem_of_fmap in Hin as (cs' & Hu & Hin').
  apply list_elem_of_filter in Hin' as [Hcs' Hin'].
  apply list_elem_of_fmap. exists cs'. split; [|done].
  destruct (HP _ Hcs) as [Hm Hc]. destruct (HP _ Hcs') as [Hm' Hc'].
  unfold sub_key. congruence.
Qed.

(** What the rows of one fan-out are when the function runs as the owner of
    the tables, who sees every subscription: their recipients are, without
    repetition, the subscribers of the comment's thread other than its
    author; their ids are fresh and distinct; each references the comment and
    is unread. *)
Lemma fanout_rows_exact (NEW : comment_row) now (d : db) :
  subscriptions_pk (comment_subscriptions d) →
  list_to_set (cn_user_id <$> fanout_rows owner NEW now d)
    = subscribers d (c_manga_id NEW) (c_chapter NEW) ∖ {[c_user_id NEW]}
  ∧ NoDup (cn_user_id <$> fanout_rows owner NEW now d)
  ∧ length (fanout_rows owner NEW now d)
    = size (subscribers d (c_manga_id NEW) (c_chapter NEW) ∖ {[c_user_id NEW]})
  ∧ NoDup (cn_id <$> fanout_rows owner NEW now d)
  ∧ Forall (λ n, cn_comment_id n = c_id NEW ∧ cn_read n = false)
           (fanout_rows owner NEW now d).
Proof.
  intros Hpk.
  assert (Hnd : NoDup (cn_user_id <$> fanout_rows owner NEW now d)).
  { rewrite fanout_recipients.
    apply (thread_users_NoDup _ (c_manga_id NEW) (c_chapter NEW)); [|done].
    intros cs (Hm & Hc & _). done. }
  assert (Hset : list_to_set (C:=gset uuid)
                   (cn_user_id <$> fanout_rows owner NEW now d)
      = subscribers d (c_manga_id NEW) (c_chapter NEW) ∖ {[c_user_id NEW]}).
  { rewrite fanout_recipients. unfold subscribers, visible_subscriptions.
    apply set_eq. intros u.
    rewrite elem_of_difference, !elem_of_list_to_set, !list_elem_of_fmap,
      elem_of_singleton.
    split.
    - intros (cs & -> & Hin).
      apply list_elem_of_filter in Hin as [(Hm & Hc & Hu) Hin].
      split; [|done]. exists cs. split; [done|].
      apply list_elem_of_filter. done.
    - intros [(cs & -> & Hin) Hu].
      apply list_elem_of_filter in Hin as [[Hm Hc] Hin].
      exists cs. split; [done|]. apply list_elem_of_filter.
      split; [|done]. done. }
  repeat split; try done.
  - rewrite <- Hset, size_list_to_set by done. by rewrite length_fmap.
  - rewrite fanout_ids. apply NoDup_seq.
  - unfold fanout_rows. apply Forall_forall. intros n Hn.
    apply elem_of_lookup_imap in Hn as (i & cs & -> & _). done.
Qed.

(** Run as the owner of the tables, the trigger function appends to
    [comment_notifications] exactly one row per subscriber of the thread
    other than the author; the other tables are untouched. *)
Lemma notify_comment_subscribers_as_owner (NEW : comment_row) now (d : db) :
  subscriptions_pk (comment_subscriptions d) →
  ∃ d' (created : list comment_notification_row),
    notify_comment_subscribers owner NEW now d = Ok d'
    ∧ comment_notifications d' = comment_notifications d ++ created
    ∧ list_to_set (cn_user_id <$> created)
      = subscribers d (c_manga_id NEW) (c_chapter NEW) ∖ {[c_user_id NEW]}
    ∧ NoDup (cn_user_id <$> created)
    ∧ length created
      = size (subscribers d (c_manga_id NEW) (c_chapter NEW) ∖ {[c_user_id NEW]})
    ∧ NoDup (cn_id <$> created)
    ∧ Forall (λ n, cn_comment_id n = c_id NEW ∧ cn_read n = false) created
    ∧ comment_subscriptions d' = comment_subscriptions d
    ∧ comments d' = comments d.
Proof.
  intros Hpk. unfold notify_comment_subscribers.
  rewrite orb_true_r. eexists. exists (fanout_rows owner NEW now d).
  destruct (fanout_rows_exact NEW now d Hpk) as (Hset & Hnd & Hlen & Hids & Hall).
  split; [reflexivity|]. split; [reflexivity|].
  split; [exact Hset|]. split; [exact Hnd|]. split; [exact Hlen|].
  split; [exact Hids|]. split; [exact Hall|]. split; reflexivity.
Qed.

(** A logged-in user sees the subscriptions of nobody else, and the trigger
    function leaves the user's own out: run for a comment of the user who
    fired it, it finds no row to insert. *)
Lemma fanout_rows_as_author (NEW : comment_row) now (d : db) :
  fanout_rows (authenticated (c_user_id NEW)) NEW now d = [].
Proof.
  unfold fanout_rows, visible_subscriptions.
  rewrite (filter_none (fanout_where NEW)); [done|].
  intros cs Hcs (_ & _ & Hother).
  apply list_elem_of_filter in Hcs as [Hown _]. done.
Qed.

Lemma db_eta (d : db) :
  {| comments := comments d;
     comment_subscriptions := comment_subscriptions d;
     comment_notifications := comment_notifications d;
     manga_reports := manga_reports d;
     admin_notifications := admin_notifications d;
     profiles := profiles d;
     notify_queue := notify_queue d;
     next_uuid := next_uuid d |} = d.
Proof. by destruct d. Qed.

(** Fired by its author's own insert, the trigger function changes
    nothing. *)
Lemma notify_comment_subscribers_as_author (NEW : comment_row) now (d : db) :
  notify_comment_subscribers (authenticated (c_user_id NEW)) NEW now d = Ok d.
Proof.
  unfold notify_comment_subscribers. rewrite fanout_rows_as_author.
  simpl. rewrite app_nil_r, Nat.add_0_r. by rewrite db_eta.
Qed.

(** The comment insert of a logged-in user for that user: the row is stored
    with a fresh id and nothing else changes. *)
Lemma insert_comment_own (d : db) now m c u email content :
  insert_comment (authenticated u) d now m c u email content
  = Ok {| comments :=
            comments d ++
              [{| c_id := next_uuid d; c_manga_id := m; c_chapter := c;
                  c_user_id := u; c_user_email := email;
                  c_content := content; c_created_at := now |}];
          comment_subscriptions := comment_subscriptions d;
          comment_notifications := comment_notifications d;
          manga_reports := manga_reports d;
          admin_notifications := admin_notifications d;
          profiles := profiles d;
          notify_queue := notify_queue d;
          next_uuid := S (next_uuid d) |}.
Proof.
  unfold insert_comment. cbn [may_insert_comment c_user_id].
  rewrite bool_decide_eq_true_2 by done.
  match goal with
  | |- notify_comment_subscribers _ ?NEW _ ?d1 = _ =>
      exact (notify_comment_subscribers_as_author NEW now d1)
  end.
Qed.

(** C1. The trigger function runs as the user whose comment fired it. To
    that user the policy on [comment_subscriptions] shows only the user's
    own subscriptions, which the function leaves out: for the comment of a
    logged-in user it inserts no notification. With alice and user 3
    subscribed to (7, 3), bob's comment on (7, 3), sent as bob, is stored and
    notifies neither. *)
Theorem notify_comment_subscribers_runs_as_author :
  (∀ NEW now d,
     notify_comment_subscribers (authenticated (c_user_id NEW)) NEW now d
     = Ok d)
  ∧ elements (subscribers Sample.store 7%nat 3 ∖ {[2%nat]}) ≡ₚ [1%nat; 3%nat]
  ∧ (∃ d',
       insert_comment (authenticated 2%nat) Sample.store 20 7%nat 3 2%nat
         "bob@example.org" (js "hi") = Ok d'
       ∧ comments d' = [Sample.bobs_comment]
       ∧ comment_notifications d' = [])
  ∧ comment_notifications
      (Reader.store
         (Reader.handleComment (Sample.reader_props (Some Sample.bob)) 20
            (Sample.reader_state (js "hi") false) Sample.store))
    = [].
Proof.
  split; [exact notify_comment_subscribers_as_author|].
  split.
  { apply (bool_decide_unpack _). vm_compute. exact I. }
  split.
  { eexists. split; [apply insert_comment_own|]. split; reflexivity. }
  unfold Reader.handleComment. cbn [Reader.user Sample.reader_props].
  cbn [js_falsy trim]. rewrite insert_comment_own. reflexivity.
Qed.

(** ** Subscriptions *)

Lemma filter_all {A} (P : A → Prop) `{∀ x, Decision (P x)} (l : list A) :
  (∀ x, x ∈ l → P x) → filter P l = l.
Proof.
  induction l as [|x l IH]; intros Hall; [done|].
  rewrite filter_cons_True; [|apply Hall; left].
  f_equal. apply IH. intros y Hy. apply Hall. by right.
Qed.

Lemma select_subscription_present (t : list subscription_row) u m c :
  subscriptions_pk t →
  (u, m, c) ∈ sub_key <$> t →
  length (filter (sub_matches u m c) t) = 1%nat.
Proof.
  unfold subscriptions_pk.
  induction t as [|cs t IH]; simpl; intros Hpk Hin;
    [by apply elem_of_nil in Hin|].
  apply NoDup_cons in Hpk as [Hnotin Hpk].
  rewrite filter_cons. destruct (decide (sub_matches u m c cs)) as [Hcs|Hcs].
  - simpl. f_equal. unfold sub_matches in Hcs. rewrite Hcs in Hnotin.
    rewrite filter_none; [done|].
    intros cs' Hcs' Hm. apply Hnotin. apply list_elem_of_fmap. by exists cs'.
  - apply IH; [done|]. apply elem_of_cons in Hin as [Heq|Hin]; [|done].
    by destruct Hcs.
Qed.

Lemma select_subscription_absent (t : list subscription_row) u m c :
  (u, m, c) ∉ sub_key <$> t →
  filter (sub_matches u m c) t = [].
Proof.
  intros Hnotin. apply filter_none. intros cs Hcs Hm. apply Hnotin.
  apply list_elem_of_fmap. by exists cs.
Qed.

Lemma delete_subscription_absent (t : list subscription_row) u m c :
  (u, m, c) ∉ sub_key <$> t →
  filter (λ cs, ¬ sub_matches u m c cs) t = t.
Proof.
  intros Hnotin. apply filter_all. intros cs Hcs Hm. apply Hnotin.
  apply list_elem_of_fmap. by exists cs.
Qed.

(** The primary key survives an accepted insert. *)
Lemma insert_subscription_pk d now m c u d' :
  subscriptions_pk (comment_subscriptions d) →
  insert_subscription d now m c u = Ok d' →
  subscriptions_pk (comment_subscriptions d').
Proof.
  unfold insert_subscription, subscriptions_pk. intros Hpk.
  case_decide as Hin; [done|]. intros [= <-]. simpl.
  rewrite fmap_app. apply NoDup_app. split; [done|]. split.
  - intros k Hk Hk'. simpl in Hk'. apply list_elem_of_singleton in Hk'.
    subst k. done.
  - simpl. apply NoDup_singleton.
Qed.

(** So does it survive a delete. *)
Lemma delete_subscription_pk d m c u d' :
  subscriptions_pk (comment_subscriptions d) →
  delete_subscription d m c u = Ok d' →
  subscriptions_pk (comment_subscriptions d').
Proof.
  unfold delete_subscription, subscriptions_pk. intros Hpk [= <-]. simpl.
  eapply sublist_NoDup; [exact Hpk|].
  apply fmap_sublist, sublist_filter.
Qed.

(** C2, as the code has it. Subscribing (the branch of [toggleSubscription]
    taken when [isSubscribed] is false) leaves exactly one subscription row
    for the (user, manga, chapter) tuple and keeps the primary key. When a
    row for the tuple already exists the insert is rejected as a primary-key
    violation and the handler treats it as a failure: it shows
    'Failed to update subscription' and leaves the store and the component
    state, [isSubscribed] included, as they were. When no row exists the row
    is inserted and [isSubscribed] becomes true. *)
Theorem toggleSubscription_subscribe (p : Reader.props) now
    (s : Reader.state) (d : db) (u : App.User) :
  Reader.user p = Some u →
  Reader.isSubscribed s = false →
  subscriptions_pk (comment_subscriptions d) →
  let o := Reader.toggleSubscription p now s d in
  let key := (App.id u, Reader.manga_id p, Reader.chapterNumber p) in
  length (select_subscription (Reader.store o) (Reader.manga_id p)
            (Reader.chapterNumber p) (App.id u)) = 1%nat
  ∧ subscriptions_pk (comment_subscriptions (Reader.store o))
  ∧ (key ∈ sub_key <$> comment_subscriptions d →
       Reader.store o = d ∧ Reader.st o = s
       ∧ Reader.toasts o = [toast_error "Failed to update subscription"])
  ∧ (key ∉ sub_key <$> comment_subscriptions d →
       Reader.isSubscribed (Reader.st o) = true
       ∧ Reader.toasts o = [toast_success "Subscribed to comments"]).
Proof.
  intros Hu Hs Hpk. unfold Reader.toggleSubscription. rewrite Hu, Hs.
  pose proof (insert_subscription_pk d now (Reader.manga_id p)
                (Reader.chapterNumber p) (App.id u)) as Hpk'.
  unfold insert_subscription in *.
  case_decide as Hin; simpl.
  - repeat split; try done.
    by apply select_subscription_present.
  - specialize (Hpk' _ Hpk eq_refl). simpl in Hpk'.
    repeat split; try done.
    apply select_subscription_present; [done|].
    simpl. rewrite fmap_app. apply elem_of_app. right. simpl. by left.
Qed.

(** C2, witness: alice, subscribed to (7, 3), subscribes again from a view
    whose flag is stale. *)
Lemma toggleSubscription_subscribe_witness :
  subscriptions_pk (comment_subscriptions Sample.store)
  ∧ length (select_subscription
              (Reader.store
                 (Reader.toggleSubscription
                    (Sample.reader_props (Some Sample.alice)) 20
                    (Sample.reader_state [] false) Sample.store))
              7%nat 3 1%nat) = 1%nat.
Proof.
  assert (Hpk : subscriptions_pk (comment_subscriptions Sample.store)).
  { unfold subscriptions_pk. apply (bool_decide_unpack _). vm_compute. exact I. }
  split; [exact Hpk|].
  exact (proj1 (toggleSubscription_subscribe
                  (Sample.reader_props (Some Sample.alice)) 20
                  (Sample.reader_state [] false) Sample.store Sample.alice
                  eq_refl eq_refl Hpk)).
Defined.

(** C2, counterexample to the claim as stated: alice's subscription row for
    (7, 3) exists, she subscribes, the store answers with a primary-key
    violation, and the handler reports an error and does not mark the view
    as subscribed. *)
Lemma toggleSubscription_collision_is_error :
  length (select_subscription Sample.store 7%nat 3 1%nat) = 1%nat
  ∧ insert_subscription Sample.store 20 7%nat 3 1%nat
    = Err (unique_violation "comment_subscriptions_pkey")
  ∧ Reader.toasts
      (Reader.toggleSubscription (Sample.reader_props (Some Sample.alice)) 20
         (Sample.reader_state [] false) Sample.store)
    = [toast_error "Failed to update subscription"]
  ∧ Reader.isSubscribed
      (Reader.st
         (Reader.toggleSubscription (Sample.reader_props (Some Sample.alice))
            20 (Sample.reader_state [] false) Sample.store))
    = false.
Proof. vm_compute. done. Qed.

(** C5. Unsubscribing (the branch of [toggleSubscription] taken when
    [isSubscribed] is true) when the store holds no subscription row for the
    (user, manga, chapter) tuple changes nothing in the store and is not an
    error: the handler shows 'Unsubscribed from comments'. *)
Theorem toggleSubscription_unsubscribe_absent (p : Reader.props) now
    (s : Reader.state) (d : db) (u : App.User) :
  Reader.user p = Some u →
  Reader.isSubscribed s = true →
  (App.id u, Reader.manga_id p, Reader.chapterNumber p)
    ∉ sub_key <$> comment_subscriptions d →
  let o := Reader.toggleSubscription p now s d in
  Reader.store o = d
  ∧ Reader.toasts o = [toast_success "Unsubscribed from comments"]
  ∧ Reader.isSubscribed (Reader.st o) = false.
Proof.
  intros Hu Hs Hnotin. unfold Reader.toggleSubscription. rewrite Hu, Hs.
  simpl. rewrite delete_subscription_absent by done.
  by destruct d.
Qed.

(** C5, witness: bob, who has no subscription row for (7, 3), unsubscribes
    from a view whose flag says he is subscribed. *)
Lemma toggleSubscription_unsubscribe_absent_witness :
  ((2%nat, 7%nat, 3) ∉ sub_key <$> comment_subscriptions Sample.store)
  ∧ Reader.store
      (Reader.toggleSubscription (Sample.reader_props (Some Sample.bob)) 20
         (Sample.reader_state [] true) Sample.store)
    = Sample.store.
Proof.
  assert (Hno : (2%nat, 7%nat, 3) ∉ sub_key <$> comment_subscriptions Sample.store).
  { unfold subscriptions_pk. apply (bool_decide_unpack _). vm_compute. exact I. }
  split; [exact Hno|].
  exact (proj1 (toggleSubscription_unsubscribe_absent
                  (Sample.reader_props (Some Sample.bob)) 20
                  (Sample.reader_state [] true) Sample.store Sample.bob
                  eq_refl eq_refl Hno)).
Defined.

(** ** Posting a comment *)

Lemma trimStart_nil_iff (s : js_string) :
  trimStart s = [] ↔ Forall (λ c, is_js_space c = true) s.
Proof.
  induction s as [|c s IH]; simpl.
  - split; [constructor|done].
  - destruct (is_js_space c) eqn:Hc.
    + rewrite IH. split; [by constructor|]. by intros [_ ?]%Forall_cons.
    + split; [done|]. intros [Hc' _]%Forall_cons. congruence.
Qed.

Lemma trimStart_head (s : js_string) c rest :
  trimStart s = c :: rest → is_js_space c = false.
Proof.
  induction s as [|c' s IH]; simpl; [done|].
  destruct (is_js_space c') eqn:Hc; [done|]. by intros [= <- _].
Qed.

(** [s.trim()] is empty exactly when [s] consists of white space only. *)
Lemma trim_nil_iff (s : js_string) :
  trim s = [] ↔ Forall (λ c, is_js_space c = true) s.
Proof.
  unfold trim, trimEnd. split.
  - intros H. apply trimStart_nil_iff.
    destruct (trimStart s) as [|c rest] eqn:Hs; [done|].
    apply (f_equal (@rev N)) in H. rewrite rev_involutive in H. simpl in H.
    apply trimStart_nil_iff in H.
    rewrite Forall_app, Forall_singleton in H. destruct H as [_ H].
    apply trimStart_head in Hs. congruence.
  - intros H. apply trimStart_nil_iff in H. by rewrite H.
Qed.

Lemma js_falsy_nil (s : js_string) : js_falsy s = true ↔ s = [].
Proof. by destruct s. Qed.

(** C6, as the code has it. [handleComment] posts the draft with leading and
    trailing white space removed: when a user is logged in and the draft is
    not blank, exactly one comment row is appended, carrying the manga id,
    the chapter number, the user's id and email and the trimmed draft; the
    draft is then cleared. When no user is logged in, or the draft is empty
    or blank, no row is inserted and the store and the component state, the
    draft included, are unchanged; an error toast is shown. *)
Theorem handleComment_spec (p : Reader.props) now (s : Reader.state) (d : db) :
  let o := Reader.handleComment p now s d in
  (∀ u, Reader.user p = Some u →
        ¬ Forall (λ c, is_js_space c = true) (Reader.newComment s) →
        ∃ row,
          comments (Reader.store o) = comments d ++ [row]
          ∧ c_manga_id row = Reader.manga_id p
          ∧ c_chapter row = Reader.chapterNumber p
          ∧ c_user_id row = App.id u
          ∧ c_user_email row = App.email u
          ∧ c_content row = trim (Reader.newComment s)
          ∧ Reader.newComment (Reader.st o) = []
          ∧ Reader.toasts o = [toast_success "Comment added successfully"])
  ∧ (Reader.user p = None ∨ Reader.newComment s = []
     ∨ Forall (λ c, is_js_space c = true) (Reader.newComment s) →
       Reader.store o = d ∧ Reader.st o = s
       ∧ ∃ msg, Reader.toasts o = [toast_error msg]).
Proof.
  unfold Reader.handleComment. split.
  - intros u Hu Hblank. rewrite Hu.
    destruct (js_falsy (trim (Reader.newComment s))) eqn:Hf.
    + apply js_falsy_nil, trim_nil_iff in Hf. done.
    + rewrite insert_comment_own. simpl. eexists. repeat split.
  - intros Hfail. destruct (Reader.user p) as [u|]; [|by eauto].
    assert (Hblank : Forall (λ c, is_js_space c = true) (Reader.newComment s)).
    { destruct Hfail as [?|[->|?]]; [done|constructor|done]. }
    apply trim_nil_iff in Hblank. rewrite Hblank. simpl. eauto.
Qed.

(** C6, witness: bob posts the draft "hi". *)
Lemma handleComment_spec_witness :
  ∃ row,
    comments
      (Reader.store
         (Reader.handleComment (Sample.reader_props (Some Sample.bob)) 20
            (Sample.reader_state (js "hi") false) Sample.store))
    = comments Sample.store ++ [row]
    ∧ c_user_id row = 2%nat
    ∧ c_content row = js "hi".
Proof.
  destruct (proj1 (handleComment_spec (Sample.reader_props (Some Sample.bob))
                     20 (Sample.reader_state (js "hi") false) Sample.store)
              Sample.bob eq_refl)
    as (row & Hrows & _ & _ & Huser & _ & Hcontent & _).
  - intros Hblank. apply Forall_cons in Hblank as [Hc _]. discriminate Hc.
  - exists row. split; [exact Hrows|]. split; [exact Huser|exact Hcontent].
Defined.

(** C6, counterexample to the claim as stated: for the draft " hi " the row
    that is inserted does not carry the draft but "hi". *)
Lemma handleComment_content_is_trimmed :
  ∃ row,
    comments
      (Reader.store
         (Reader.handleComment (Sample.reader_props (Some Sample.bob)) 20
            (Sample.reader_state (js " hi ") false) Sample.store))
    = [row]
    ∧ c_content row = js "hi"
    ∧ c_content row ≠ Reader.newComment (Sample.reader_state (js " hi ") false).
Proof. eexists. vm_compute. repeat split. discriminate. Qed.

(** ** Reports and administrator notifications *)

(** Looking a key up in either payload of [notify_admins_on_report] gives the
    same member. *)
Lemma report_payload_same (NEW : report_row) (k : string) :
  json_get k (json_build_object (report_payload NEW))
  = json_get k (jsonb_build_object (report_payload NEW)).
Proof.
  unfold json_build_object, jsonb_build_object, report_payload, json_get.
  cbn [fold_left jsonb_put fst snd String.eqb Ascii.eqb Bool.eqb jsonb_key_lt
       String.length Nat.compare String.compare Ascii.compare].
  rewrite !filter_cons, !filter_nil. cbn [fst].
  repeat (case_decide; simplify_eq; try done).
Qed.

(** When the policy of [admin_notifications] admits the role the trigger
    function runs as, and the text of the payload is short enough to be
    sent, the function appends exactly one row to [admin_notifications]: it
    is unread, has type 'manga_report', and its payload holds the report's
    id, manga id, chapter, issue type and description. It also sends exactly
    one event on the channel 'admin_report_notification', whose payload has
    the same member under every key. *)
Lemma notify_admins_on_report_admitted who (NEW : report_row) now (d : db) :
  may_insert_admin_notification who d = true →
  (Z.of_nat (json_text_length (json_build_object (report_payload NEW)))
   < 8000)%Z →
  ∃ d' n payload,
    notify_admins_on_report who NEW now d = Ok d'
    ∧ admin_notifications d' = admin_notifications d ++ [n]
    ∧ an_type n = "manga_report"
    ∧ an_read n = false
    ∧ json_get "report_id" (an_data n) = Some (JUuid (r_id NEW))
    ∧ json_get "manga_id" (an_data n) = Some (JUuid (r_manga_id NEW))
    ∧ json_get "chapter" (an_data n) = Some (JNum (r_chapter NEW))
    ∧ json_get "issue_type" (an_data n) = Some (JStr (r_issue_type NEW))
    ∧ json_get "description" (an_data n)
      = Some (json_of_text (r_description NEW))
    ∧ notify_queue d'
      = notify_queue d ++ [("admin_report_notification", payload)]
    ∧ (∀ k, json_get k payload = json_get k (an_data n))
    ∧ manga_reports d' = manga_reports d.
Proof.
  intros Hmay Hfits. unfold notify_admins_on_report, pg_notify.
  rewrite Hmay. rewrite decide_False by lia.
  eexists. eexists. exists (json_build_object (report_payload NEW)).
  split; [reflexivity|]. simpl.
  repeat split; try reflexivity.
  apply report_payload_same.
Qed.

(** A role the policy of [admin_notifications] does not admit makes the
    function raise. *)
Lemma notify_admins_on_report_refused who (NEW : report_row) now (d : db) :
  may_insert_admin_notification who d = false →
  notify_admins_on_report who NEW now d
  = Err (insufficient_privilege "admin_notifications").
Proof.
  intros Hmay. unfold notify_admins_on_report. by rewrite Hmay.
Qed.

(** So does a payload of 8000 bytes or more. *)
Lemma notify_admins_on_report_too_long who (NEW : report_row) now (d : db) :
  may_insert_admin_notification who d = true →
  (8000 ≤ Z.of_nat (json_text_length
                       (json_build_object (report_payload NEW))))%Z →
  notify_admins_on_report who NEW now d
  = Err (invalid_parameter_value "payload string too long").
Proof.
  intros Hmay Hlong. unfold notify_admins_on_report, pg_notify.
  rewrite Hmay. by rewrite decide_True by lia.
Qed.

(** The report insert of a logged-in user for that user, in full: it goes
    through exactly when the user is an administrator and the payload of the
    event is short enough, and then stores the report and what the trigger
    function adds. *)
Lemma insert_report_own (d : db) now m c u issue_type description :
  let NEW := new_report d now m c u issue_type description in
  insert_report (authenticated u) d now m c u issue_type description
  = if is_admin (authenticated u) d then
      if decide (8000 ≤ Z.of_nat (json_text_length
                                    (json_build_object (report_payload NEW))))%Z
      then Err (invalid_parameter_value "payload string too long")
      else
        Ok {| comments := comments d;
              comment_subscriptions := comment_subscriptions d;
              comment_notifications := comment_notifications d;
              manga_reports := manga_reports d ++ [NEW];
              admin_notifications :=
                admin_notifications d ++
                  [{| an_id := S (next_uuid d);
                      an_type := "manga_report";
                      an_data := jsonb_build_object (report_payload NEW);
                      an_read := false;
                      an_created_at := now |}];
              profiles := profiles d;
              notify_queue :=
                notify_queue d ++
                  [("admin_report_notification",
                    json_build_object (report_payload NEW))];
              next_uuid := S (S (next_uuid d)) |}
    else Err (insufficient_privilege "admin_notifications").
Proof.
  intros NEW. unfold insert_report. fold NEW.
  assert (Hmay : may_insert_report (authenticated u) d NEW = true).
  { unfold may_insert_report. subst NEW. cbn [new_report r_user_id].
    by rewrite bool_decide_eq_true_2. }
  rewrite Hmay. unfold notify_admins_on_report, pg_notify.
  cbn [may_insert_admin_notification is_admin profiles].
  destruct (bool_decide _); [|reflexivity].
  destruct (decide _); reflexivity.
Qed.

(** C3. The trigger function runs as the user whose report fired it, and
    the only policy of [admin_notifications] admits administrators: for the
    report of any other logged-in user the function raises, and the report
    is not stored. Bob is no administrator; his report of (7, 3) through
    [handleReport] leaves no report row, no notification and no event, and
    the reader shows 'Failed to submit report'. *)
Theorem notify_admins_on_report_runs_as_reporter :
  (∀ uid NEW now d,
     is_admin (authenticated uid) d = false →
     notify_admins_on_report (authenticated uid) NEW now d
     = Err (insufficient_privilege "admin_notifications"))
  ∧ is_admin (authenticated 2%nat) Sample.store = false
  ∧ insert_report (authenticated 2%nat) Sample.store 20 7%nat 3 2%nat
      "unreadable" (Some "")
    = Err (insufficient_privilege "admin_notifications")
  ∧ Reader.handleReport (Sample.reader_props (Some Sample.bob)) 20
      (Sample.reader_state [] false) Sample.store
    = {| Reader.st := Sample.reader_state [] false;
         Reader.store := Sample.store;
         Reader.toasts := [toast_error "Failed to submit report"] |}.
Proof.
  split.
  { intros uid NEW now d Hno. by apply notify_admins_on_report_refused. }
  split; [reflexivity|]. split; [reflexivity|]. reflexivity.
Qed.

(** ** Report status *)

(** One accepted status update: every row with the given id carries the new
    status, and a resolution instant exactly when that status is
    'resolved'; the other rows are untouched. *)
Lemma handleReportStatus_update clock rid (s : string) (d : db) :
  valid_status s = true →
  let d' := (AdminPanel.handleReportStatus clock rid s d).1 in
  (AdminPanel.handleReportStatus clock rid s d).2
    = [toast_success "Report status updated"]
  ∧ r_id <$> manga_reports d' = r_id <$> manga_reports d
  ∧ (∀ row, row ∈ manga_reports d' → r_id row = rid →
        r_status row = s
        ∧ r_resolved_at row
          = if decide (s = "resolved") then Some clock else None)
  ∧ (∀ row, row ∈ manga_reports d' → r_id row ≠ rid →
        row ∈ manga_reports d).
Proof.
  intros Hs. unfold AdminPanel.handleReportStatus, update_report.
  rewrite Hs. case_decide as Hin; simpl.
  - split; [done|]. split; [|split].
    + rewrite <- list_fmap_compose. apply list_fmap_ext.
      intros i row _. simpl. by case_decide.
    + intros row Hrow Hid.
      apply list_elem_of_fmap in Hrow as (row0 & -> & _).
      case_decide as Hid0; [done|]. done.
    + intros row Hrow Hid.
      apply list_elem_of_fmap in Hrow as (row0 & -> & Hrow0).
      case_decide as Hid0; [|done]. done.
  - split; [done|]. split; [done|]. split.
    + intros row Hrow Hid. destruct Hin.
      apply list_elem_of_fmap. by exists row.
    + done.
Qed.

(** C4. For every report in the store and every status the store accepts,
    [handleReportStatus] succeeds and leaves the report with that status and
    with a resolution instant that is the current instant when the status is
    'resolved' and null otherwise. In particular, moving a report to
    'in_progress' and then to 'resolved' leaves the resolution instant null
    after the first update and sets it at the second. *)
Theorem handleReportStatus_resolved_at (d : db) (rid : uuid) :
  rid ∈ r_id <$> manga_reports d →
  (∀ clock s, valid_status s = true →
     let d' := (AdminPanel.handleReportStatus clock rid s d).1 in
     (AdminPanel.handleReportStatus clock rid s d).2
       = [toast_success "Report status updated"]
     ∧ rid ∈ r_id <$> manga_reports d'
     ∧ ∀ row, row ∈ manga_reports d' → r_id row = rid →
         r_status row = s
         ∧ (s = "resolved" → r_resolved_at row = Some clock)
         ∧ (s ≠ "resolved" → r_resolved_at row = None))
  ∧ (∀ t1 t2,
       let d1 := (AdminPanel.handleReportStatus t1 rid "in_progress" d).1 in
       let d2 := (AdminPanel.handleReportStatus t2 rid "resolved" d1).1 in
       (∀ row, row ∈ manga_reports d1 → r_id row = rid →
          r_status row = "in_progress" ∧ r_resolved_at row = None)
       ∧ (∀ row, row ∈ manga_reports d2 → r_id row = rid →
          r_status row = "resolved" ∧ r_resolved_at row = Some t2)).
Proof.
  intros Hin. split.
  - intros clock s Hs.
    destruct (handleReportStatus_update clock rid s d Hs) as (Ht & Hids & Hrow & _).
    split; [done|]. split; [by rewrite Hids|].
    intros row Hr Hid. destruct (Hrow row Hr Hid) as [Hst Hres].
    split; [done|]. rewrite Hres. split; intros ?; by case_decide.
  - intros t1 t2.
    destruct (handleReportStatus_update t1 rid "in_progress" d eq_refl)
      as (_ & Hids1 & Hrow1 & _).
    split; [exact Hrow1|].
    destruct (handleReportStatus_update t2 rid "resolved"
                (AdminPanel.handleReportStatus t1 rid "in_progress" d).1 eq_refl)
      as (_ & _ & Hrow2 & _).
    exact Hrow2.
Qed.

(** C4, witness: the pending report 40 is moved to 'in_progress' at instant
    21 and to 'resolved' at instant 22. *)
Lemma handleReportStatus_resolved_at_witness :
  40%nat ∈ r_id <$> manga_reports Sample.store
  ∧ (∀ row,
       row ∈ manga_reports
               (AdminPanel.handleReportStatus 21 40%nat "in_progress"
                  Sample.store).1 →
       r_id row = 40%nat →
       r_status row = "in_progress" ∧ r_resolved_at row = None)
  ∧ (∀ row,
       row ∈ manga_reports
               (AdminPanel.handleReportStatus 22 40%nat "resolved"
                  (AdminPanel.handleReportStatus 21 40%nat "in_progress"
                     Sample.store).1).1 →
       r_id row = 40%nat →
       r_status row = "resolved" ∧ r_resolved_at row = Some 22).
Proof.
  assert (Hin : 40%nat ∈ r_id <$> manga_reports Sample.store).
  { apply (bool_decide_unpack _). vm_compute. exact I. }
  split; [exact Hin|].
  exact (proj2 (handleReportStatus_resolved_at Sample.store 40%nat Hin) 21 22).
Defined.

(** ** Marking a notification as read *)

Lemma set_notification_read_idem (nid : uuid) (l : list admin_notification_row) :
  (λ row, if decide (an_id row = nid) then set_notification_read row else row)
    <$> ((λ row, if decide (an_id row = nid)
                 then set_notification_read row else row) <$> l)
  = (λ row, if decide (an_id row = nid) then set_notification_read row else row)
      <$> l.
Proof.
  rewrite <- list_fmap_compose. apply list_fmap_ext. intros i row _. simpl.
  destruct (decide (an_id row = nid)) as [Hid|Hid]; simpl.
  - by rewrite decide_True.
  - by rewrite decide_False.
Qed.

(** C7. [markNotificationAsRead] never fails; afterwards every notification
    with the given id is read, whether it was read before or not, and no
    row is added or removed. Applying it a second time changes neither the
    store nor the list of notifications the panel holds. *)
Theorem markNotificationAsRead_idempotent (nid : uuid)
    (s : AdminPanel.state) (d : db) :
  let o1 := AdminPanel.markNotificationAsRead nid s d in
  let o2 := AdminPanel.markNotificationAsRead nid (AdminPanel.st o1)
              (AdminPanel.store o1) in
  AdminPanel.toasts o1 = [] ∧ AdminPanel.toasts o2 = []
  ∧ an_id <$> admin_notifications (AdminPanel.store o1)
    = an_id <$> admin_notifications d
  ∧ (∀ n, n ∈ admin_notifications (AdminPanel.store o1) →
          an_id n = nid → an_read n = true)
  ∧ (∀ n, n ∈ admin_notifications d → an_read n = true →
          n ∈ admin_notifications (AdminPanel.store o1))
  ∧ AdminPanel.store o2 = AdminPanel.store o1
  ∧ AdminPanel.notifications (AdminPanel.st o2)
    = AdminPanel.notifications (AdminPanel.st o1).
Proof.
  unfold AdminPanel.markNotificationAsRead, update_notification_read. simpl.
  repeat split.
  - rewrite <- list_fmap_compose. apply list_fmap_ext.
    intros i row _. simpl. by case_decide.
  - intros n Hn Hid. apply list_elem_of_fmap in Hn as (n0 & -> & _).
    by case_decide.
  - intros n Hn Hread. apply list_elem_of_fmap. exists n. split; [|done].
    case_decide; [|done]. destruct n; simpl in *. by subst.
  - f_equal. apply set_notification_read_idem.
  - apply set_notification_read_idem.
Qed.

(** ** Lazy creation of the profile *)

(** Without a profile row the lookup by [user_id] is empty. *)
Lemma select_profile_absent (d : db) uid :
  ¬ AuthStore.has_profile d uid → select_profile d uid = [].
Proof.
  unfold AuthStore.has_profile, select_profile. intros Hno.
  apply filter_none. intros p Hp Hid. apply Hno.
  apply list_elem_of_fmap. by exists p.
Qed.

(** X4. A principal whose profile row exists: [fetchUserProfile] reads it,
    sets the user from it and writes nothing to the store. *)
Theorem fetchUserProfile_existing a now uid (s : AuthStore.state) (d : db)
    (profile : profile_row) :
  select_profile d uid = [profile] →
  let o := AuthStore.fetchUserProfile (AuthStore.auth_data (Some a)) now uid s d in
  AuthStore.store o = d
  ∧ AuthStore.user (AuthStore.st o)
    = Some (AuthStore.user_of_profile uid a profile)
  ∧ AuthStore.loading (AuthStore.st o) = false.
Proof.
  intros Hsel. unfold AuthStore.fetchUserProfile, AuthStore.fetchUserProfile_try.
  by rewrite Hsel.
Qed.

(** X4, witness: alice, whose profile row exists, logs in. *)
Lemma fetchUserProfile_existing_witness :
  ∃ profile,
    select_profile Sample.store 1%nat = [profile]
    ∧ AuthStore.store
        (AuthStore.fetchUserProfile
           (AuthStore.auth_data
              (Some {| AuthStore.au_id := 1%nat;
                       AuthStore.au_email := "alice@example.org" |}))
           20 1%nat Sample.logged_out Sample.store)
      = Sample.store.
Proof.
  eexists. split; [reflexivity|].
  exact (proj1 (fetchUserProfile_existing
                  {| AuthStore.au_id := 1%nat;
                     AuthStore.au_email := "alice@example.org" |}
                  20 1%nat Sample.logged_out Sample.store _ eq_refl)).
Defined.

(** X5. A principal without a profile row whose derived username is free:
    [fetchUserProfile] creates the row, with the part of the email before
    '@' as username and without the admin flag, and sets the user from it. *)
Theorem fetchUserProfile_creates a now uid (s : AuthStore.state) (d : db) :
  ¬ AuthStore.has_profile d uid →
  Some (before_at (AuthStore.au_email a)) ∉ p_username <$> profiles d →
  let o := AuthStore.fetchUserProfile (AuthStore.auth_data (Some a)) now uid s d in
  ∃ row,
    profiles (AuthStore.store o) = profiles d ++ [row]
    ∧ p_user_id row = uid
    ∧ p_username row = Some (before_at (AuthStore.au_email a))
    ∧ p_is_admin row = Some false
    ∧ AuthStore.user (AuthStore.st o)
      = Some (AuthStore.user_of_profile uid a row).
Proof.
  intros Hno Hfree.
  unfold AuthStore.fetchUserProfile, AuthStore.fetchUserProfile_try.
  rewrite (select_profile_absent d uid Hno). simpl.
  unfold insert_profile.
  rewrite decide_False by exact Hno.
  rewrite decide_False by (intros [_ ?]; done).
  unfold select_profile. simpl. rewrite filter_app.
  fold (select_profile d uid). rewrite (select_profile_absent d uid Hno).
  rewrite filter_cons_True by done. simpl.
  eexists. repeat split.
Qed.

(** X5, witness: principal 2 logs in for the first time with the email
    "bob@example.org". *)
Lemma fetchUserProfile_creates_witness :
  ¬ AuthStore.has_profile Sample.store 2%nat
  ∧ ∃ row,
      profiles
        (AuthStore.store
           (AuthStore.fetchUserProfile
              (AuthStore.auth_data
                 (Some {| AuthStore.au_id := 2%nat;
                          AuthStore.au_email := "bob@example.org" |}))
              20 2%nat Sample.logged_out Sample.store))
      = profiles Sample.store ++ [row]
      ∧ p_username row = Some "bob".
Proof.
  assert (Hno : ¬ AuthStore.has_profile Sample.store 2%nat).
  { unfold AuthStore.has_profile. apply (bool_decide_unpack _).
    vm_compute. exact I. }
  split; [exact Hno|].
  destruct (fetchUserProfile_creates
              {| AuthStore.au_id := 2%nat;
                 AuthStore.au_email := "bob@example.org" |}
              20 2%nat Sample.logged_out Sample.store Hno)
    as (row & Hrows & _ & Hname & _).
  - apply (bool_decide_unpack _). vm_compute. exact I.
  - exists row. split; [exact Hrows|exact Hname].
Defined.

(** C8, at the failing input. The profile of user 1 has the username
    "alice"; the principal 2, authenticated with the email
    "alice@example.com", has no profile row. [fetchUserProfile] tries to
    create one with the username "alice", the store rejects it for the UNIQUE
    constraint on [username], and the function ends with no user set and
    still no profile row for principal 2. *)
Theorem fetchUserProfile_username_taken :
  select_profile Sample.store 2%nat = []
  ∧ insert_profile Sample.store 20 2%nat (Some "alice") false
    = Err (unique_violation "profiles_username_key")
  ∧ AuthStore.store
      (AuthStore.fetchUserProfile
         (AuthStore.auth_data (Some Sample.other_alice)) 20 2%nat
         Sample.logged_out Sample.store)
    = Sample.store
  ∧ select_profile
      (AuthStore.store
         (AuthStore.fetchUserProfile
            (AuthStore.auth_data (Some Sample.other_alice)) 20 2%nat
            Sample.logged_out Sample.store)) 2%nat
    = []
  ∧ AuthStore.user
      (AuthStore.st
         (AuthStore.fetchUserProfile
            (AuthStore.auth_data (Some Sample.other_alice)) 20 2%nat
            Sample.logged_out Sample.store))
    = None.
Proof. vm_compute. repeat split. Qed.

(** ** Metadata lookup *)

(** [searchManga] never throws. *)
Lemma searchManga_total (jikan : MangaApi.api) (q : string) :
  ∃ r, MangaApi.searchManga jikan q = MangaApi.Return r.
Proof.
  unfold MangaApi.searchManga, MangaApi.searchManga_try.
  destruct (jikan q) as [|[|manga rest]]; eauto.
Qed.

(** C9. For every title, when the call to the metadata service fails or
    answers with no result, [searchManga] returns null instead of throwing.
    [handleFetchInfo], called with that title in the form, then leaves every
    field of the form as it was and shows 'No manga information found'. *)
Theorem searchManga_failure_is_null (jikan : MangaApi.api) (q : string)
    (s : AdminPanel.state) :
  jikan q = MangaApi.rejected ∨ jikan q = MangaApi.fulfilled [] →
  MangaApi.searchManga jikan q = MangaApi.Return None
  ∧ (AdminPanel.title (AdminPanel.form s) = q →
     AdminPanel.form (AdminPanel.handleFetchInfo jikan s).1 = AdminPanel.form s
     ∧ (q ≠ "" →
        (AdminPanel.handleFetchInfo jikan s).2
          = [toast_error "No manga information found"])).
Proof.
  intros Hfail.
  assert (Hnull : MangaApi.searchManga jikan q = MangaApi.Return None).
  { unfold MangaApi.searchManga, MangaApi.searchManga_try.
    by destruct Hfail as [-> | ->]. }
  split; [done|]. intros Htitle.
  unfold AdminPanel.handleFetchInfo. rewrite Htitle, Hnull.
  case_decide; simpl; split; done.
Qed.

(** C9, witness: the metadata service is down while the form holds the title
    "Berserk". *)
Lemma searchManga_failure_is_null_witness :
  Sample.jikan_down "Berserk" = MangaApi.rejected
  ∧ MangaApi.searchManga Sample.jikan_down "Berserk" = MangaApi.Return None
  ∧ AdminPanel.form (AdminPanel.handleFetchInfo Sample.jikan_down Sample.panel).1
    = AdminPanel.form Sample.panel.
Proof.
  split; [reflexivity|].
  destruct (searchManga_failure_is_null Sample.jikan_down "Berserk"
              Sample.panel (or_introl eq_refl)) as (Hnull & Hform).
  split; [exact Hnull|exact (proj1 (Hform eq_refl))].
Defined.

(** ** Paginated reading *)

Lemma handlePageChange_pages dir (s : Reader.state) :
  Reader.pages (Reader.handlePageChange dir s) = Reader.pages s.
Proof. done. Qed.

Lemma handlePageChange_bounds dir (s : Reader.state) :
  Reader.pages s ≠ [] →
  (0 ≤ Reader.currentPage s ≤ Z.of_nat (length (Reader.pages s)) - 1)%Z →
  (0 ≤ Reader.currentPage (Reader.handlePageChange dir s)
     ≤ Z.of_nat (length (Reader.pages s)) - 1)%Z.
Proof.
  intros Hne Hb. destruct dir; simpl; lia.
Qed.

(** C10. With a non-empty list of pages and starting from page 0, every
    sequence of [handlePageChange] calls keeps [currentPage] between 0 and
    [pages.length - 1]; 'prev' on the first page and 'next' on the last page
    leave it unchanged. *)
Theorem handlePageChange_in_bounds (s : Reader.state)
    (dirs : list Reader.direction) :
  Reader.pages s ≠ [] →
  Reader.currentPage s = 0 →
  let last_page := Z.of_nat (length (Reader.pages s)) - 1 in
  let s' := foldl (λ acc dir, Reader.handlePageChange dir acc) s dirs in
  (0 ≤ Reader.currentPage s' ≤ last_page)%Z
  ∧ Reader.pages s' = Reader.pages s
  ∧ (Reader.currentPage s' = 0 →
     Reader.currentPage (Reader.handlePageChange Reader.prev s') = 0)
  ∧ (Reader.currentPage s' = last_page →
     Reader.currentPage (Reader.handlePageChange Reader.next s') = last_page).
Proof.
  intros Hne H0 last_page s'.
  assert (Hinv : (0 ≤ Reader.currentPage s' ≤ last_page)%Z
                 ∧ Reader.pages s' = Reader.pages s).
  { subst s' last_page.
    assert (Hstart : (0 ≤ Reader.currentPage s
                      ≤ Z.of_nat (length (Reader.pages s)) - 1)%Z).
    { destruct (Reader.pages s); [done|]. simpl length. lia. }
    clear H0. revert s Hne Hstart.
    induction dirs as [|dir dirs IH]; intros s Hne Hstart; [done|].
    simpl foldl.
    destruct (IH (Reader.handlePageChange dir s)) as [Hb Hp].
    - by rewrite handlePageChange_pages.
    - rewrite handlePageChange_pages. by apply handlePageChange_bounds.
    - rewrite handlePageChange_pages in Hb, Hp. done. }
  destruct Hinv as [Hb Hp]. repeat split; try tauto.
  - intros Hz. simpl. rewrite Hz. done.
  - intros Hl. simpl. rewrite Hl, Hp. subst last_page. lia.
Qed.

(** C10, witness: two pages; 'next' three times, then 'prev'. *)
Lemma handlePageChange_in_bounds_witness :
  Reader.pages (Sample.reader_state [] false) ≠ []
  ∧ (0 ≤ Reader.currentPage
           (foldl (λ acc dir, Reader.handlePageChange dir acc)
              (Sample.reader_state [] false)
              [Reader.next; Reader.next; Reader.next; Reader.prev])
       ≤ 1)%Z.
Proof.
  assert (Hne : Reader.pages (Sample.reader_state [] false) ≠ []).
  { discriminate. }
  split; [exact Hne|].
  exact (proj1 (handlePageChange_in_bounds (Sample.reader_state [] false)
                  [Reader.next; Reader.next; Reader.next; Reader.prev]
                  Hne eq_refl)).
Defined.


(** * Further properties of the same code *)

(** X1. A logged-in user posting a non-blank draft, end to end: the comment
    row is appended with a fresh id, and that is all the store shows of it.
    The trigger runs as the poster and finds no subscription to notify: no
    notification row is created, whoever is subscribed to the thread. *)
Theorem handleComment_notifies_nobody (p : Reader.props) now
    (s : Reader.state) (d : db) (u : App.User) :
  Reader.user p = Some u →
  ¬ Forall (λ c, is_js_space c = true) (Reader.newComment s) →
  let o := Reader.handleComment p now s d in
  (∃ row, comments (Reader.store o) = comments d ++ [row]
          ∧ c_id row = next_uuid d
          ∧ c_user_id row = App.id u)
  ∧ comment_notifications (Reader.store o) = comment_notifications d
  ∧ comment_subscriptions (Reader.store o) = comment_subscriptions d
  ∧ manga_reports (Reader.store o) = manga_reports d
  ∧ admin_notifications (Reader.store o) = admin_notifications d
  ∧ profiles (Reader.store o) = profiles d
  ∧ notify_queue (Reader.store o) = notify_queue d
  ∧ Reader.toasts o = [toast_success "Comment added successfully"].
Proof.
  intros Hu Hblank. unfold Reader.handleComment. rewrite Hu.
  destruct (js_falsy (trim (Reader.newComment s))) eqn:Hf.
  { apply js_falsy_nil, trim_nil_iff in Hf. done. }
  rewrite insert_comment_own. simpl.
  split; [eexists; repeat split|]. repeat split.
Qed.

(** X1, witness: bob posts "hi" on (7, 3), to which alice and user 3 are
    subscribed; nobody is notified. *)
Lemma handleComment_notifies_nobody_witness :
  elements (subscribers Sample.store 7%nat 3 ∖ {[2%nat]}) ≡ₚ [1%nat; 3%nat]
  ∧ (∃ row,
       comments
         (Reader.store
            (Reader.handleComment (Sample.reader_props (Some Sample.bob)) 20
               (Sample.reader_state (js "hi") false) Sample.store))
       = comments Sample.store ++ [row]
       ∧ c_id row = 100%nat)
  ∧ comment_notifications
      (Reader.store
         (Reader.handleComment (Sample.reader_props (Some Sample.bob)) 20
            (Sample.reader_state (js "hi") false) Sample.store))
    = [].
Proof.
  split; [apply (bool_decide_unpack _); vm_compute; exact I|].
  destruct (handleComment_notifies_nobody
              (Sample.reader_props (Some Sample.bob)) 20
              (Sample.reader_state (js "hi") false) Sample.store Sample.bob
              eq_refl) as ((row & Hrow & Hid & _) & Hnotes & _).
  - intros Hblank. apply Forall_cons in Hblank as [Hc _]. discriminate Hc.
  - split; [exists row; split; [exact Hrow|exact Hid]|exact Hnotes].
Defined.

(** X2. [handleReport] by a logged-in user, end to end. The trigger runs as
    the reporter, so the report goes through exactly when the reporter is an
    administrator and the text of the event's payload is shorter than 8000
    bytes: then one report row is appended with the reader's manga, chapter,
    user, issue type and description, status 'pending' and no resolution
    instant, exactly one unread administrator notification naming that
    report is created, one event is sent, the modal is closed and the
    description cleared. Otherwise nothing is stored, the component state is
    as before and 'Failed to submit report' is shown. *)
Theorem handleReport_outcome (p : Reader.props) now (s : Reader.state)
    (d : db) (u : App.User) :
  Reader.user p = Some u →
  let o := Reader.handleReport p now s d in
  let NEW := new_report d now (Reader.manga_id p) (Reader.chapterNumber p)
               (App.id u) (Reader.reportType s)
               (Some (Reader.reportDescription s)) in
  let size :=
    Z.of_nat (json_text_length (json_build_object (report_payload NEW))) in
  (is_admin (authenticated (App.id u)) d = true → (size < 8000)%Z →
     manga_reports (Reader.store o) = manga_reports d ++ [NEW]
     ∧ (∃ n,
          admin_notifications (Reader.store o) = admin_notifications d ++ [n]
          ∧ an_type n = "manga_report"
          ∧ an_read n = false
          ∧ json_get "report_id" (an_data n) = Some (JUuid (r_id NEW))
          ∧ json_get "issue_type" (an_data n)
            = Some (JStr (Reader.reportType s))
          ∧ json_get "description" (an_data n)
            = Some (JStr (Reader.reportDescription s)))
     ∧ notify_queue (Reader.store o)
       = notify_queue d
           ++ [("admin_report_notification",
                json_build_object (report_payload NEW))]
     ∧ Reader.showReportModal (Reader.st o) = false
     ∧ Reader.reportDescription (Reader.st o) = ""
     ∧ Reader.toasts o = [toast_success "Report submitted successfully"])
  ∧ (is_admin (authenticated (App.id u)) d = false ∨ (8000 ≤ size)%Z →
       Reader.store o = d ∧ Reader.st o = s
       ∧ Reader.toasts o = [toast_error "Failed to submit report"]).
Proof.
  intros Hu o NEW size. subst o. unfold Reader.handleReport. rewrite Hu.
  rewrite insert_report_own. fold NEW. fold size.
  split.
  - intros Hadmin Hfits. rewrite Hadmin. rewrite decide_False by lia.
    cbn [Reader.store Reader.st Reader.toasts manga_reports
         admin_notifications notify_queue].
    split; [reflexivity|]. split.
    { eexists. split; [reflexivity|]. cbn [an_type an_read an_data].
      rewrite <- !report_payload_same.
      repeat split. }
    repeat split.
  - intros [Hno|Hlong].
    + rewrite Hno. done.
    + destruct (is_admin _ d); [|done]. rewrite decide_True by lia. done.
Qed.

(** X2, witness: carol, an administrator, reports chapter 3 of manga 7 as
    unreadable; the same report by bob, who is none, fails. *)
Lemma handleReport_outcome_witness :
  (∃ NEW n,
     manga_reports
       (Reader.store
          (Reader.handleReport (Sample.reader_props (Some Fixtures.carol)) 20
             (Sample.reader_state [] false) Fixtures.staffed_store))
     = manga_reports Fixtures.staffed_store ++ [NEW]
     ∧ r_user_id NEW = 4%nat
     ∧ r_status NEW = "pending"
     ∧ admin_notifications
         (Reader.store
            (Reader.handleReport (Sample.reader_props (Some Fixtures.carol))
               20 (Sample.reader_state [] false) Fixtures.staffed_store))
       = admin_notifications Fixtures.staffed_store ++ [n]
     ∧ json_get "report_id" (an_data n) = Some (JUuid (r_id NEW)))
  ∧ Reader.store
      (Reader.handleReport (Sample.reader_props (Some Sample.bob)) 20
         (Sample.reader_state [] false) Fixtures.staffed_store)
    = Fixtures.staffed_store.
Proof.
  split.
  - destruct (proj1 (handleReport_outcome
                       (Sample.reader_props (Some Fixtures.carol)) 20
                       (Sample.reader_state [] false) Fixtures.staffed_store
                       Fixtures.carol eq_refl))
      as (Hrows & (n & Hnotes & _ & _ & Hid & _) & _).
    + reflexivity.
    + vm_compute. reflexivity.
    + eexists. exists n. split; [exact Hrows|].
      split; [reflexivity|]. split; [reflexivity|].
      split; [exact Hnotes|exact Hid].
  - apply (proj2 (handleReport_outcome
                    (Sample.reader_props (Some Sample.bob)) 20
                    (Sample.reader_state [] false) Fixtures.staffed_store
                    Sample.bob eq_refl)).
    left. reflexivity.
Defined.

(** X3. [checkSubscription] sets [isSubscribed] to whether the store holds
    the user's subscription row for the thread. *)
Theorem checkSubscription_reflects_store (p : Reader.props)
    (s : Reader.state) (d : db) (u : App.User) :
  Reader.user p = Some u →
  subscriptions_pk (comment_subscriptions d) →
  Reader.isSubscribed (Reader.checkSubscription p s d)
  = bool_decide ((App.id u, Reader.manga_id p, Reader.chapterNumber p)
                   ∈ sub_key <$> comment_subscriptions d).
Proof.
  intros Hu Hpk. unfold Reader.checkSubscription. rewrite Hu.
  unfold select_subscription.
  destruct (decide ((App.id u, Reader.manga_id p, Reader.chapterNumber p)
                      ∈ sub_key <$> comment_subscriptions d)) as [Hin|Hno].
  - rewrite (bool_decide_eq_true_2 _ Hin).
    pose proof (select_subscription_present _ _ _ _ Hpk Hin) as Hlen.
    destruct (filter _ (comment_subscriptions d)) as [|cs [|cs' rest]];
      simpl in Hlen; try discriminate Hlen. done.
  - rewrite (bool_decide_eq_false_2 _ Hno).
    by rewrite (select_subscription_absent _ _ _ _ Hno).
Qed.

(** X3, witness: alice opens (7, 3), to which she is subscribed. *)
Lemma checkSubscription_reflects_store_witness :
  subscriptions_pk (comment_subscriptions Sample.store)
  ∧ Reader.isSubscribed
      (Reader.checkSubscription (Sample.reader_props (Some Sample.alice))
         (Sample.reader_state [] false) Sample.store)
    = true.
Proof.
  assert (Hpk : subscriptions_pk (comment_subscriptions Sample.store)).
  { unfold subscriptions_pk. apply (bool_decide_unpack _). vm_compute. exact I. }
  split; [exact Hpk|].
  exact (checkSubscription_reflects_store
           (Sample.reader_props (Some Sample.alice))
           (Sample.reader_state [] false) Sample.store Sample.alice
           eq_refl Hpk).
Defined.

(** The counter of unread notifications is lowered by every call of
    [markNotificationAsRead], down to zero. *)
Lemma markNotificationAsRead_unreadCount (nid : uuid)
    (s : AdminPanel.state) (d : db) :
  AdminPanel.unreadCount
    (AdminPanel.st (AdminPanel.markNotificationAsRead nid s d))
  = Z.max 0 (AdminPanel.unreadCount s - 1).
Proof. reflexivity. Qed.

(** ** Logging in twice *)

Lemma select_profile_app (d : db) uid (row : profile_row) :
  filter (λ p, p_user_id p = uid) (profiles d ++ [row])
  = select_profile d uid ++ (if decide (p_user_id row = uid) then [row] else []).
Proof.
  rewrite filter_app. reflexivity.
Qed.

(** X6. [fetchUserProfile] is idempotent: a second call with the same answer
    of the authentication service, at whatever instant, ends in exactly the
    outcome of the first (same store, same user, same sign-out decision),
    whether the first call found the profile, created it, or failed. *)
Theorem fetchUserProfile_idempotent (auth : AuthStore.auth_result)
    now1 now2 uid (s : AuthStore.state) (d : db) :
  AuthStore.fetchUserProfile auth now2 uid
    (AuthStore.st (AuthStore.fetchUserProfile auth now1 uid s d))
    (AuthStore.store (AuthStore.fetchUserProfile auth now1 uid s d))
  = AuthStore.fetchUserProfile auth now1 uid s d.
Proof.
  unfold AuthStore.fetchUserProfile, AuthStore.fetchUserProfile_try.
  destruct auth as [|[a|]]; simpl; [done| |done].
  destruct (select_profile d uid) as [|p [|p' l]] eqn:Hsel; simpl.
  - unfold insert_profile.
    destruct (decide (uid ∈ p_user_id <$> profiles d)) as [Hpk|Hpk]; simpl.
    { rewrite Hsel. simpl. unfold insert_profile.
      by rewrite decide_True by done. }
    destruct (decide (is_Some (Some (before_at (AuthStore.au_email a)))
                      ∧ Some (before_at (AuthStore.au_email a))
                        ∈ p_username <$> profiles d)) as [Hname|Hname];
      simpl.
    { rewrite Hsel. simpl. unfold insert_profile.
      rewrite decide_False by done. by rewrite decide_True by done. }
    unfold select_profile. simpl.
    rewrite select_profile_app, Hsel. simpl.
    rewrite decide_True by done. unfold single. simpl.
    rewrite select_profile_app, Hsel. simpl.
    rewrite decide_True by done. done.
  - by rewrite Hsel.
  - by rewrite Hsel.
Qed.

(** X7. Whenever [fetchUserProfile] ends with a user set, that user is the
    principal asked for, carries the email of the authenticated principal,
    and mirrors a profile row of that principal that is in the store:
    username and admin flag are the row's. *)
Theorem fetchUserProfile_user_has_profile (auth : AuthStore.auth_result)
    now uid (s : AuthStore.state) (d : db) (u : App.User) :
  AuthStore.user (AuthStore.st (AuthStore.fetchUserProfile auth now uid s d))
    = Some u →
  App.id u = uid
  ∧ AuthStore.has_profile
      (AuthStore.store (AuthStore.fetchUserProfile auth now uid s d)) uid
  ∧ ∃ a row,
      auth = AuthStore.auth_data (Some a)
      ∧ App.email u = AuthStore.au_email a
      ∧ row ∈ profiles
                (AuthStore.store (AuthStore.fetchUserProfile auth now uid s d))
      ∧ p_user_id row = uid
      ∧ App.username u = p_username row
      ∧ App.isAdmin u = default false (p_is_admin row).
Proof.
  unfold AuthStore.fetchUserProfile, AuthStore.fetchUserProfile_try,
    AuthStore.has_profile.
  destruct auth as [|[a|]]; simpl; [done| |done].
  destruct (select_profile d uid) as [|p [|p' l]] eqn:Hsel; simpl; [| |done].
  - unfold insert_profile.
    case_decide as Hpk; simpl; [done|].
    case_decide as Hname; simpl; [done|].
    unfold select_profile. simpl. rewrite select_profile_app, Hsel. simpl.
    rewrite decide_True by done. simpl. intros [= <-]. simpl.
    split; [done|]. split.
    + rewrite fmap_app. apply elem_of_app. right. simpl. by left.
    + eexists a, _. split; [done|]. split; [done|]. split.
      * apply elem_of_app. right. by left.
      * done.
  - intros [= <-]. simpl.
    assert (Hp : p ∈ select_profile d uid) by (rewrite Hsel; by left).
    apply list_elem_of_filter in Hp as [Hid Hp].
    split; [done|]. split.
    + apply list_elem_of_fmap. by exists p.
    + by exists a, p.
Qed.

Lemma omap_app_singleton {A B} (f : A → option B) (l : list A) (x : A) :
  omap f (l ++ [x]) = omap f l ++ (match f x with Some y => [y] | None => [] end).
Proof.
  rewrite omap_app. f_equal.
Qed.

Lemma elem_of_omap_username (t : list profile_row) (name : string) :
  name ∈ omap p_username t ↔ Some name ∈ p_username <$> t.
Proof.
  rewrite list_elem_of_omap, list_elem_of_fmap. split.
  - intros (p & Hp & Hname). by exists p.
  - intros (p & Hname & Hp). by exists p.
Qed.

(** X8. [fetchUserProfile] keeps the constraints of [profiles]: if user ids
    and non-null usernames are unique before the call, they are unique after
    it. *)
Theorem fetchUserProfile_keeps_constraints (auth : AuthStore.auth_result)
    now uid (s : AuthStore.state) (d : db) :
  UserProfile.profiles_ok (profiles d) →
  UserProfile.profiles_ok
    (profiles (AuthStore.store (AuthStore.fetchUserProfile auth now uid s d))).
Proof.
  intros [Hpk Huniq].
  unfold AuthStore.fetchUserProfile, AuthStore.fetchUserProfile_try.
  destruct auth as [|[a|]]; simpl; [done| |done].
  destruct (select_profile d uid) as [|p [|p' l]] eqn:Hsel; simpl;
    [|done|done].
  unfold insert_profile.
  case_decide as Hin; simpl; [done|].
  case_decide as Hname; simpl; [done|].
  assert (Hok : UserProfile.profiles_ok
                  (profiles d ++
                     [{| p_user_id := uid;
                         p_username := Some (before_at (AuthStore.au_email a));
                         p_avatar_url := None; p_is_admin := Some false;
                         p_created_at := now; p_updated_at := now |}])).
  { split.
    - rewrite fmap_app. apply NoDup_app. split; [done|]. split.
      + intros k Hk Hk'. apply list_elem_of_singleton in Hk'. by subst.
      + apply NoDup_singleton.
    - rewrite omap_app_singleton. simpl. apply NoDup_app. split; [done|]. split.
      + intros k Hk Hk'. apply list_elem_of_singleton in Hk'. subst k.
        apply Hname. split; [by eexists|]. by apply elem_of_omap_username.
      + apply NoDup_singleton. }
  by destruct (single _).
Qed.

(** ** The subscription bell *)

Lemma insert_subscription_keys d now m c u d' :
  insert_subscription d now m c u = Ok d' →
  sub_key <$> comment_subscriptions d'
  = (sub_key <$> comment_subscriptions d) ++ [(u, m, c)].
Proof.
  unfold insert_subscription. case_decide; [done|]. intros [= <-]. simpl.
  by rewrite fmap_app.
Qed.

Lemma delete_subscription_keys d m c u d' :
  delete_subscription d m c u = Ok d' →
  sub_key <$> comment_subscriptions d'
  = filter (λ k, k ≠ (u, m, c)) (sub_key <$> comment_subscriptions d).
Proof.
  unfold delete_subscription. intros [= <-]. simpl.
  induction (comment_subscriptions d) as [|cs t IH]; [done|].
  rewrite fmap_cons, !filter_cons.
  repeat case_decide; unfold sub_matches in *; try done.
  rewrite fmap_cons. by f_equal.
Qed.

(** X9. The bell tells the truth after every click: if [isSubscribed] says
    whether the store holds the user's subscription row for the thread (as
    it does after [checkSubscription]), then [toggleSubscription] succeeds,
    flips the flag, and the flag again says whether the row exists; the
    primary key of the table is kept. *)
Theorem toggleSubscription_keeps_flag (p : Reader.props) now
    (s : Reader.state) (d : db) (u : App.User) :
  Reader.user p = Some u →
  subscriptions_pk (comment_subscriptions d) →
  Reader.isSubscribed s
  = bool_decide ((App.id u, Reader.manga_id p, Reader.chapterNumber p)
                   ∈ sub_key <$> comment_subscriptions d) →
  let o := Reader.toggleSubscription p now s d in
  Reader.isSubscribed (Reader.st o) = negb (Reader.isSubscribed s)
  ∧ Reader.isSubscribed (Reader.st o)
    = bool_decide ((App.id u, Reader.manga_id p, Reader.chapterNumber p)
                     ∈ sub_key <$> comment_subscriptions (Reader.store o))
  ∧ subscriptions_pk (comment_subscriptions (Reader.store o))
  ∧ ∃ msg, Reader.toasts o = [toast_success msg].
Proof.
  intros Hu Hpk Hflag. unfold Reader.toggleSubscription. rewrite Hu.
  destruct (Reader.isSubscribed s) eqn:Hs; symmetry in Hflag.
  - apply bool_decide_eq_true in Hflag.
    destruct (delete_subscription d (Reader.manga_id p)
                (Reader.chapterNumber p) (App.id u)) as [d'|e] eqn:Hdel;
      [|discriminate Hdel].
    pose proof (delete_subscription_keys _ _ _ _ _ Hdel) as Hkeys.
    pose proof (delete_subscription_pk _ _ _ _ _ Hpk Hdel) as Hpk'.
    simpl. split; [done|]. split; [|split; [done|by eexists]].
    symmetry. apply bool_decide_eq_false. rewrite Hkeys.
    intros Hin. apply list_elem_of_filter in Hin as [Hne _]. done.
  - apply bool_decide_eq_false in Hflag.
    destruct (insert_subscription d now (Reader.manga_id p)
                (Reader.chapterNumber p) (App.id u)) as [d'|e] eqn:Hins.
    + pose proof (insert_subscription_keys _ _ _ _ _ _ Hins) as Hkeys.
      pose proof (insert_subscription_pk _ _ _ _ _ _ Hpk Hins) as Hpk'.
      simpl. split; [done|]. split; [|split; [done|by eexists]].
      symmetry. apply bool_decide_eq_true. rewrite Hkeys.
      apply elem_of_app. right. by left.
    + unfold insert_subscription in Hins. by rewrite decide_False in Hins.
Qed.

(** X10. Subscribing and unsubscribing again, from a view whose flag is
    right and says "not subscribed", gives back the store exactly as it
    was, and the flag ends as it began. *)
Theorem toggleSubscription_round_trip (p : Reader.props) now1 now2
    (s : Reader.state) (d : db) (u : App.User) :
  Reader.user p = Some u →
  Reader.isSubscribed s = false →
  (App.id u, Reader.manga_id p, Reader.chapterNumber p)
    ∉ sub_key <$> comment_subscriptions d →
  let o1 := Reader.toggleSubscription p now1 s d in
  let o2 := Reader.toggleSubscription p now2 (Reader.st o1) (Reader.store o1) in
  Reader.store o2 = d ∧ Reader.st o2 = s.
Proof.
  intros Hu Hs Hno. unfold Reader.toggleSubscription. rewrite Hu, Hs.
  unfold insert_subscription. rewrite decide_False by done. simpl.
  rewrite filter_app, delete_subscription_absent by done.
  rewrite filter_cons_False, filter_nil, app_nil_r.
  - destruct d, s; simpl in *. by subst.
  - intros Hm. apply Hm. reflexivity.
Qed.

(** X11. [toggleSubscription] touches nothing but the caller's own
    subscription to the open thread: every other (user, manga, chapter) key
    is in the table afterwards exactly if it was before, and all other
    tables are as they were. *)
Theorem toggleSubscription_frame (p : Reader.props) now
    (s : Reader.state) (d : db) (k : uuid * uuid * Z) :
  (∀ u, Reader.user p = Some u →
        k ≠ (App.id u, Reader.manga_id p, Reader.chapterNumber p)) →
  let o := Reader.toggleSubscription p now s d in
  (k ∈ sub_key <$> comment_subscriptions (Reader.store o)
   ↔ k ∈ sub_key <$> comment_subscriptions d)
  ∧ comments (Reader.store o) = comments d
  ∧ comment_notifications (Reader.store o) = comment_notifications d
  ∧ manga_reports (Reader.store o) = manga_reports d
  ∧ admin_notifications (Reader.store o) = admin_notifications d
  ∧ profiles (Reader.store o) = profiles d.
Proof.
  intros Hk. unfold Reader.toggleSubscription.
  destruct (Reader.user p) as [u|]; [|done].
  specialize (Hk u eq_refl).
  destruct (Reader.isSubscribed s).
  - destruct (delete_subscription d (Reader.manga_id p)
                (Reader.chapterNumber p) (App.id u)) as [d'|e] eqn:Hdel;
      [|done].
    pose proof (delete_subscription_keys _ _ _ _ _ Hdel) as Hkeys.
    simpl. rewrite Hkeys. unfold delete_subscription in Hdel.
    injection Hdel as <-. simpl. split; [|done].
    rewrite list_elem_of_filter. tauto.
  - destruct (insert_subscription d now (Reader.manga_id p)
                (Reader.chapterNumber p) (App.id u)) as [d'|e] eqn:Hins;
      [|done].
    pose proof (insert_subscription_keys _ _ _ _ _ _ Hins) as Hkeys.
    simpl. rewrite Hkeys. unfold insert_subscription in Hins.
    case_decide; [done|]. injection Hins as <-. simpl. split; [|done].
    rewrite elem_of_app, list_elem_of_singleton. tauto.
Qed.

(** X12. Without a logged-in user the reader's handlers do nothing but show
    one error toast: [handleComment], [toggleSubscription] and [handleReport]
    leave the store and the component state as they were, and
    [checkSubscription] leaves the state as it was. *)
Theorem reader_handlers_need_login (p : Reader.props) now
    (s : Reader.state) (d : db) :
  Reader.user p = None →
  (Reader.store (Reader.handleComment p now s d) = d
   ∧ Reader.st (Reader.handleComment p now s d) = s
   ∧ Reader.toasts (Reader.handleComment p now s d)
     = [toast_error "Please login to comment"])
  ∧ (Reader.store (Reader.toggleSubscription p now s d) = d
     ∧ Reader.st (Reader.toggleSubscription p now s d) = s
     ∧ Reader.toasts (Reader.toggleSubscription p now s d)
       = [toast_error "Please login to subscribe to comments"])
  ∧ (Reader.store (Reader.handleReport p now s d) = d
     ∧ Reader.st (Reader.handleReport p now s d) = s
     ∧ Reader.toasts (Reader.handleReport p now s d)
       = [toast_error "Please login to report issues"])
  ∧ Reader.checkSubscription p s d = s.
Proof.
  intros Hu.
  unfold Reader.handleComment, Reader.toggleSubscription, Reader.handleReport,
    Reader.checkSubscription.
  rewrite Hu. done.
Qed.

(** ** The admin panel: reports, badge and metadata *)

(** X13. An update [handleReportStatus] does not perform. For a report id
    that is not in the table the UPDATE matches no row: whatever the status
    asked for, the store is left as it was, no constraint is consulted, and
    the panel reports 'Report status updated', not a failure. *)
Theorem handleReportStatus_no_update clock rid (status : string) (d : db) :
  rid ∉ r_id <$> manga_reports d →
  (AdminPanel.handleReportStatus clock rid status d).1 = d
  ∧ toast_success "Report status updated"
      ∈ (AdminPanel.handleReportStatus clock rid status d).2
  ∧ toast_error "Failed to update report"
      ∉ (AdminPanel.handleReportStatus clock rid status d).2.
Proof.
  intros Hno. unfold AdminPanel.handleReportStatus, update_report.
  rewrite decide_False by done. simpl.
  split; [done|]. split; [apply list_elem_of_singleton; done|].
  intros Hin. apply list_elem_of_singleton in Hin. discriminate Hin.
Qed.

Lemma mark_read_other (nid : uuid) (l : list admin_notification_row) :
  nid ∉ an_id <$> l →
  (λ row, if decide (an_id row = nid) then set_notification_read row else row)
    <$> l = l.
Proof.
  intros Hno. induction l as [|n l IH]; [done|].
  rewrite fmap_cons in Hno. apply not_elem_of_cons in Hno as [Hne Hno].
  rewrite fmap_cons, decide_False by done. by rewrite IH.
Qed.

Lemma mark_read_count (nid : uuid) (l : list admin_notification_row)
    (n : admin_notification_row) :
  NoDup (an_id <$> l) → n ∈ l → an_id n = nid → an_read n = false →
  length (filter (λ x, an_read x = false) l)
  = S (length (filter (λ x, an_read x = false)
                 ((λ row, if decide (an_id row = nid)
                          then set_notification_read row else row) <$> l))).
Proof.
  intros Hnd Hin Hid Hread. induction l as [|x l IH]; [by apply elem_of_nil in Hin|].
  rewrite fmap_cons in Hnd. apply NoDup_cons in Hnd as [Hx Hnd].
  rewrite fmap_cons. apply elem_of_cons in Hin as [<-|Hin].
  - rewrite decide_True by done. rewrite mark_read_other by (by rewrite <- Hid).
    rewrite filter_cons_True by done. rewrite filter_cons_False; [done|].
    simpl. done.
  - assert (an_id x ≠ nid) as Hne.
    { intros Heq. apply Hx. rewrite Heq, <- Hid.
      apply list_elem_of_fmap. by exists n. }
    rewrite decide_False by done. rewrite !filter_cons.
    case_decide; simpl; by rewrite (IH Hnd Hin).
Qed.

Lemma mark_read_ids (nid : uuid) (l : list admin_notification_row) :
  an_id <$> ((λ row, if decide (an_id row = nid)
                     then set_notification_read row else row) <$> l)
  = an_id <$> l.
Proof.
  rewrite <- list_fmap_compose. apply list_fmap_ext. intros i row _. simpl.
  by case_decide.
Qed.

Lemma panel_step_keeps_badge (e : AdminPanelView.panel_event)
    (s : AdminPanel.state) (d : db) :
  AdminPanelView.badge_ok s →
  NoDup (an_id <$> AdminPanel.notifications s) →
  AdminPanelView.event_ok s e →
  AdminPanelView.badge_ok (AdminPanelView.panel_step e s d).1
  ∧ NoDup (an_id <$> AdminPanel.notifications
                       (AdminPanelView.panel_step e s d).1).
Proof.
  unfold AdminPanelView.badge_ok. intros Hbadge Hnd Hok.
  destruct e as [row|n]; simpl in *.
  - destruct Hok as [Hread Hfresh]. split.
    + rewrite filter_cons_True by done. simpl length. rewrite Hbadge. lia.
    + by apply NoDup_cons.
  - unfold AdminPanelView.onNotificationClick.
    destruct (an_read n) eqn:Hread; simpl; [done|].
    rewrite mark_read_ids. split; [|done].
    rewrite Hbadge, (mark_read_count (an_id n) _ n Hnd Hok eq_refl Hread).
    lia.
Qed.

Lemma run_keeps_badge (es : list AdminPanelView.panel_event)
    (s : AdminPanel.state) (d : db) :
  AdminPanelView.badge_ok s →
  NoDup (an_id <$> AdminPanel.notifications s) →
  AdminPanelRun.events_ok es s d →
  AdminPanelView.badge_ok (AdminPanelRun.run es s d).1.
Proof.
  revert s d. induction es as [|e es IH]; intros s d Hbadge Hnd Hok; [done|].
  destruct Hok as [He Hrest]. simpl.
  destruct (panel_step_keeps_badge e s d Hbadge Hnd He) as [Hbadge' Hnd'].
  by apply IH.
Qed.

(** X14. The badge counts the unread notifications. After
    [loadNotifications], and then after any sequence of pushed rows (each
    new and unread) and of clicks on entries of the list, [unreadCount] is
    the number of unread entries of the list the panel holds. *)
Theorem badge_counts_unread (s0 : AdminPanel.state) (d : db)
    (es : list AdminPanelView.panel_event) :
  NoDup (an_id <$> admin_notifications d) →
  AdminPanelRun.events_ok es (AdminPanelView.loadNotifications s0 d) d →
  AdminPanelView.badge_ok
    (AdminPanelRun.run es (AdminPanelView.loadNotifications s0 d) d).1.
Proof.
  intros Hpk Hok. apply run_keeps_badge; [reflexivity| |done].
  simpl. by rewrite merge_sort_Permutation.
Qed.

(** X15. [markNotificationAsRead] with an id that neither the store nor the
    panel's list knows changes neither of them and shows no error, yet the
    badge count goes down by one (not below zero). *)
Theorem markNotificationAsRead_unknown_id (nid : uuid)
    (s : AdminPanel.state) (d : db) :
  nid ∉ an_id <$> admin_notifications d →
  nid ∉ an_id <$> AdminPanel.notifications s →
  let o := AdminPanel.markNotificationAsRead nid s d in
  AdminPanel.store o = d
  ∧ AdminPanel.notifications (AdminPanel.st o) = AdminPanel.notifications s
  ∧ AdminPanel.toasts o = []
  ∧ AdminPanel.unreadCount (AdminPanel.st o)
    = Z.max 0 (AdminPanel.unreadCount s - 1).
Proof.
  intros Hd Hs. unfold AdminPanel.markNotificationAsRead,
    update_notification_read. simpl.
  rewrite !mark_read_other by done. by destruct d.
Qed.

Lemma first_author_nonempty (authors : option (list string)) :
  MangaApi.first_author authors ≠ "".
Proof.
  unfold MangaApi.first_author.
  destruct authors as [[|name rest]|]; try done. by case_decide.
Qed.

Lemma number_or_zero_idem (x : option Q) :
  MangaApi.number_or_zero (Some (MangaApi.number_or_zero x))
  = MangaApi.number_or_zero x.
Proof.
  unfold MangaApi.number_or_zero. destruct x as [q|]; [|done].
  destruct (Qeq_bool q 0) eqn:Hq; [done|]. by rewrite Hq.
Qed.

(** X16. From the service's answer to the form: when the title is not empty
    and the metadata service returns at least one result, [handleFetchInfo]
    keeps the title and the cover, takes the synopsis unless it is missing
    or empty, always replaces the author (by the first author's name, or by
    'Unknown' when there is none, never keeping what the form held), takes
    the genres, sets the status to ongoing exactly for the status
    'publishing' in any capitalisation, and sets the rating to the score or
    to 0 when the score is missing or zero. *)
Theorem handleFetchInfo_found (jikan : MangaApi.api) (s : AdminPanel.state)
    (manga : MangaApi.JikanManga) (others : list MangaApi.JikanManga) :
  AdminPanel.title (AdminPanel.form s) ≠ "" →
  jikan (AdminPanel.title (AdminPanel.form s))
    = MangaApi.fulfilled (manga :: others) →
  (AdminPanel.handleFetchInfo jikan s).2
    = [toast_success "Manga information fetched successfully"]
  ∧ AdminPanel.searching (AdminPanel.handleFetchInfo jikan s).1 = false
  ∧ AdminPanel.form (AdminPanel.handleFetchInfo jikan s).1
    = {| AdminPanel.title := AdminPanel.title (AdminPanel.form s);
         AdminPanel.description :=
           match MangaApi.jm_synopsis manga with
           | Some text =>
               if decide (text = "")
               then AdminPanel.description (AdminPanel.form s) else text
           | None => AdminPanel.description (AdminPanel.form s)
           end;
         AdminPanel.author := MangaApi.first_author (MangaApi.jm_authors manga);
         AdminPanel.status :=
           if decide (toLowerCase (MangaApi.jm_status manga) = "publishing")
           then MangaApi.ongoing else MangaApi.completed;
         AdminPanel.cover := AdminPanel.cover (AdminPanel.form s);
         AdminPanel.genres := MangaApi.jm_genres manga;
         AdminPanel.rating :=
           MangaApi.number_or_zero (MangaApi.jm_score manga) |}.
Proof.
  intros Htitle Hans. unfold AdminPanel.handleFetchInfo.
  rewrite decide_False by done.
  unfold MangaApi.searchManga, MangaApi.searchManga_try. rewrite Hans.
  cbn -[MangaApi.number_or_zero MangaApi.first_author toLowerCase].
  split; [done|]. split; [done|].
  unfold AdminPanel.fill_form.
  cbn -[MangaApi.number_or_zero MangaApi.first_author toLowerCase].
  rewrite number_or_zero_idem.
  f_equal. unfold AdminPanel.string_or.
  rewrite decide_False by apply first_author_nonempty. done.
Qed.

(** ** The reader: pages, keys and modes *)

(** X17. With no pages loaded, 'next' moves [currentPage] from any
    non-negative page to -1, and 'prev' brings it back to 0. *)
Theorem handlePageChange_no_pages (s : Reader.state) :
  Reader.pages s = [] →
  (0 ≤ Reader.currentPage s)%Z →
  Reader.currentPage (Reader.handlePageChange Reader.next s) = (-1)%Z
  ∧ Reader.currentPage
      (Reader.handlePageChange Reader.prev
         (Reader.handlePageChange Reader.next s)) = 0.
Proof.
  intros Hp Hc. simpl. rewrite Hp. simpl. lia.
Qed.

(** Keys that do nothing: any key while the user types in an input or a text
    area, any key other than the arrows, the space bar and Escape, the
    arrows in cascade mode, the space bar in paginated mode, and Escape when
    neither the report dialog nor the comment panel is open. *)
Lemma handleKeyPress_inert (closed_pages : list string) (typing : bool)
    (k : ReaderView.key) (v : ReaderView.view) :
  typing = true
  ∨ k = ReaderView.other_key
  ∨ (ReaderView.readingMode v = ReaderView.cascade
     ∧ (k = ReaderView.ArrowLeft ∨ k = ReaderView.ArrowRight))
  ∨ (ReaderView.readingMode v = ReaderView.paginated ∧ k = ReaderView.Space)
  ∨ (k = ReaderView.Escape
     ∧ Reader.showReportModal (ReaderView.base v) = false
     ∧ ReaderView.showComments v = false) →
  ReaderView.handleKeyPress closed_pages typing k v = v.
Proof.
  unfold ReaderView.handleKeyPress. intros H.
  destruct typing; [done|].
  destruct H as [H|[->|[[Hm [->| ->]]|[[Hm ->]|(-> & Hr & Hc)]]]];
    try done; try (by rewrite Hm).
  by rewrite Hr, Hc.
Qed.




(** ** The reader: comments and chapter pages *)

#[local] Instance newest_first_total : Total ReaderView.newest_first.
Proof. intros a b. unfold ReaderView.newest_first. lia. Qed.

#[local] Instance newest_first_trans : Transitive ReaderView.newest_first.
Proof. intros a b c. unfold ReaderView.newest_first. lia. Qed.

(** X20. [loadComments] fills the panel with exactly the comments of the
    open thread, newest first: the list is a rearrangement of the thread's
    stored comments, and every entry is at least as new as every entry
    after it. The rest of the view is unchanged: the pages, the page shown,
    the draft, the subscription flag and the report dialog, auto-scroll, the
    comment panel, the spinner and the reading mode. *)
Theorem loadComments_newest_first (p : Reader.props) (v : ReaderView.view)
    (d : db) :
  ReaderView.comments (ReaderView.loadComments p v d)
    ≡ₚ ReaderView.comment_of_row
         <$> filter (λ r, c_manga_id r = Reader.manga_id p
                          ∧ c_chapter r = Reader.chapterNumber p)
                    (comments d)
  ∧ StronglySorted
      (λ a b, (ReaderView.created_at b ≤ ReaderView.created_at a)%Z)
      (ReaderView.comments (ReaderView.loadComments p v d))
  ∧ ReaderView.base (ReaderView.loadComments p v d) = ReaderView.base v
  ∧ ReaderView.autoScroll (ReaderView.loadComments p v d)
    = ReaderView.autoScroll v
  ∧ ReaderView.showComments (ReaderView.loadComments p v d)
    = ReaderView.showComments v
  ∧ ReaderView.loading (ReaderView.loadComments p v d) = ReaderView.loading v
  ∧ ReaderView.readingMode (ReaderView.loadComments p v d)
    = ReaderView.readingMode v.
Proof.
  unfold ReaderView.loadComments, ReaderView.select_comments. simpl.
  split; [by rewrite merge_sort_Permutation|]. split; [|done].
  eapply StronglySorted_fmap; [|apply StronglySorted_merge_sort; apply _].
  intros x y Hxy. exact Hxy.
Qed.

(** X21. A posted comment shows up where it belongs: after a logged-in user
    posts a non-blank draft, [loadComments] for the same thread returns the
    previous list and one more entry, carrying the user's email and the
    trimmed draft; for any other thread it returns what it returned before
    the post. *)
Theorem posted_comment_is_loaded (p p' : Reader.props) now
    (s : Reader.state) (v : ReaderView.view) (d : db) (u : App.User) :
  Reader.user p = Some u →
  ¬ Forall (λ c, is_js_space c = true) (Reader.newComment s) →
  let d' := Reader.store (Reader.handleComment p now s d) in
  (∃ c,
     ReaderView.comments (ReaderView.loadComments p v d')
       ≡ₚ c :: ReaderView.comments (ReaderView.loadComments p v d)
     ∧ ReaderView.user_email c = App.email u
     ∧ ReaderView.content c = trim (Reader.newComment s)
     ∧ ReaderView.created_at c = now)
  ∧ ((Reader.manga_id p', Reader.chapterNumber p')
       ≠ (Reader.manga_id p, Reader.chapterNumber p) →
     ReaderView.comments (ReaderView.loadComments p' v d')
     = ReaderView.comments (ReaderView.loadComments p' v d)).
Proof.
  intros Hu Hblank. unfold Reader.handleComment. rewrite Hu.
  destruct (js_falsy (trim (Reader.newComment s))) eqn:Hf.
  { apply js_falsy_nil, trim_nil_iff in Hf. done. }
  rewrite insert_comment_own.
  unfold ReaderView.loadComments, ReaderView.select_comments.
  simpl. split.
  - eexists. split.
    + rewrite !merge_sort_Permutation, filter_app, fmap_app.
      rewrite filter_cons_True by done. rewrite filter_nil. simpl.
      rewrite <- Permutation_cons_append. reflexivity.
    + done.
  - intros Hother. rewrite filter_app, filter_cons_False, filter_nil, app_nil_r;
      [done|].
    simpl. intros [Hm Hc]. apply Hother. by rewrite Hm, Hc.
Qed.

Lemma mapM_all_Some {A B} (f : A → option B) (g : A → B) (l : list A) :
  Forall (λ x, f x = Some (g x)) l → mapM f l = Some (g <$> l).
Proof.
  intros Hall. apply mapM_Some. induction Hall; constructor; done.
Qed.

(** X22. A chapter stored as images: when the chapter row is found and no
    page name ends in ".pdf", [loadChapter] shows one page per stored name,
    in order, each the public URL of that name; the PDF renderer is not
    consulted, no toast is shown, and the spinner is cleared. *)
Theorem loadChapter_images (supabase_url : string)
    (render_pdf : string → option (list string)) (page_names : list string)
    (v : ReaderView.view) :
  Forall (λ name, ReaderView.endsWith name ".pdf" = false) page_names →
  let r := ReaderView.loadChapter supabase_url render_pdf
             (ReaderView.chapter_data (Some page_names)) v in
  Reader.pages (ReaderView.base r.1)
    = ReaderView.page_url supabase_url <$> page_names
  ∧ length (Reader.pages (ReaderView.base r.1)) = length page_names
  ∧ ReaderView.loading r.1 = false
  ∧ r.2 = []
  ∧ Reader.currentPage (ReaderView.base r.1)
    = Reader.currentPage (ReaderView.base v).
Proof.
  intros Hall. unfold ReaderView.loadChapter.
  rewrite (mapM_all_Some _ (λ name, [ReaderView.page_url supabase_url name])).
  - simpl.
    assert (Hflat : concat ((λ name, [ReaderView.page_url supabase_url name])
                              <$> page_names)
                    = ReaderView.page_url supabase_url <$> page_names).
    { clear Hall. induction page_names as [|n l IH]; [done|].
      simpl. f_equal. exact IH. }
    rewrite Hflat. repeat split. by rewrite length_fmap.
  - eapply Forall_impl; [exact Hall|]. intros name Hname.
    unfold ReaderView.page_images. by rewrite Hname.
Qed.

(** X23. A chapter that cannot be loaded: when the chapter query fails, when
    the row's pages are not an array, or when some PDF among the pages does
    not render, [loadChapter] shows 'Failed to load chapter', clears the
    spinner and leaves the pages and everything else in the view as they
    were. *)
Theorem loadChapter_failure (supabase_url : string)
    (render_pdf : string → option (list string))
    (answer : ReaderView.chapter_answer) (v : ReaderView.view) :
  answer = ReaderView.chapter_error
  ∨ answer = ReaderView.chapter_data None
  ∨ (∃ page_names name,
       answer = ReaderView.chapter_data (Some page_names)
       ∧ name ∈ page_names
       ∧ ReaderView.endsWith name ".pdf" = true
       ∧ render_pdf (ReaderView.page_url supabase_url name) = None) →
  ReaderView.loadChapter supabase_url render_pdf answer v
  = (ReaderView.setLoading false v, [toast_error "Failed to load chapter"]).
Proof.
  intros [->|[->|(page_names & name & -> & Hin & Hpdf & Hfail)]]; try done.
  unfold ReaderView.loadChapter.
  assert (Hnone : mapM (ReaderView.page_images supabase_url render_pdf)
                       page_names = None).
  { apply mapM_None, Exists_exists. exists name. split; [done|].
    unfold ReaderView.page_images. by rewrite Hpdf. }
  by rewrite Hnone.
Qed.

(** ** Changing the username *)

Lemma set_username_fmap_ids uid v now (l : list profile_row) :
  p_user_id <$> ((λ row, if decide (p_user_id row = uid)
                         then UserProfile.set_username v now row else row)
                   <$> l)
  = p_user_id <$> l.
Proof.
  rewrite <- list_fmap_compose. apply list_fmap_ext. intros i row _. simpl.
  by case_decide.
Qed.

Lemma set_username_absent uid v now (l : list profile_row) :
  uid ∉ p_user_id <$> l →
  (λ row, if decide (p_user_id row = uid)
          then UserProfile.set_username v now row else row) <$> l = l.
Proof.
  intros Hno. induction l as [|x l IH]; [done|].
  rewrite fmap_cons in Hno. apply not_elem_of_cons in Hno as [Hne Hno].
  rewrite fmap_cons, decide_False by done. by rewrite IH.
Qed.

Lemma set_username_select uid v now (l : list profile_row) :
  filter (λ p, p_user_id p = uid)
    ((λ row, if decide (p_user_id row = uid)
             then UserProfile.set_username v now row else row) <$> l)
  = UserProfile.set_username v now <$> filter (λ p, p_user_id p = uid) l.
Proof.
  induction l as [|x l IH]; [done|].
  rewrite fmap_cons. destruct (decide (p_user_id x = uid)) as [Hx|Hx].
  - rewrite !filter_cons_True by done. rewrite fmap_cons. by rewrite IH.
  - rewrite !filter_cons_False by done. exact IH.
Qed.

Lemma set_username_unique uid v now (l : list profile_row) :
  NoDup (p_user_id <$> l) →
  NoDup (omap p_username l) →
  Some v ∉ p_username <$> filter (λ p, p_user_id p ≠ uid) l →
  NoDup (omap p_username
           ((λ row, if decide (p_user_id row = uid)
                    then UserProfile.set_username v now row else row) <$> l))
  ∧ ∀ name, name ∈ omap p_username
                     ((λ row, if decide (p_user_id row = uid)
                              then UserProfile.set_username v now row
                              else row) <$> l) →
            name = v ∨ name ∈ omap p_username l.
Proof.
  induction l as [|x l IH]; intros Hpk Huniq Hfree.
  { split; [constructor|]. intros name Hin. by apply elem_of_nil in Hin. }
  rewrite fmap_cons in Hpk. apply NoDup_cons in Hpk as [Hx Hpk].
  rewrite fmap_cons. destruct (decide (p_user_id x = uid)) as [Hid|Hid].
  - rewrite set_username_absent by (by rewrite <- Hid).
    assert (Htail : NoDup (omap p_username l)).
    { simpl in Huniq. destruct (p_username x); [|done].
      by apply NoDup_cons in Huniq as [_ ?]. }
    assert (Hothers : filter (λ p, p_user_id p ≠ uid) l = l).
    { apply filter_all. intros y Hy Heq. apply Hx. rewrite Hid, <- Heq.
      apply list_elem_of_fmap. by exists y. }
    rewrite filter_cons_False in Hfree by (intros Hn; by apply Hn).
    rewrite Hothers in Hfree.
    split.
    + simpl. apply NoDup_cons. split; [|done].
      intros Hin. apply Hfree. by apply elem_of_omap_username.
    + simpl. intros name Hin. apply elem_of_cons in Hin as [->|Hin]; [by left|].
      right. destruct (p_username x); [by right|done].
  - rewrite filter_cons_True in Hfree by done.
    rewrite fmap_cons in Hfree. apply not_elem_of_cons in Hfree as [Hxv Hfree].
    assert (Htail : NoDup (omap p_username l)).
    { simpl in Huniq. destruct (p_username x); [|done].
      by apply NoDup_cons in Huniq as [_ ?]. }
    destruct (IH Hpk Htail Hfree) as [Hnd Hsub].
    split.
    + simpl. destruct (p_username x) as [y|] eqn:Hy; [|done].
      apply NoDup_cons. split; [|done].
      intros Hin. apply Hsub in Hin as [->|Hin]; [done|].
      simpl in Huniq. rewrite Hy in Huniq.
      by apply NoDup_cons in Huniq as [? _].
    + simpl. intros name Hin.
      destruct (p_username x) as [y|] eqn:Hy.
      * apply elem_of_cons in Hin as [->|Hin]; [right; by left|].
        apply Hsub in Hin as [->|Hin]; [by left|right; by right].
      * apply Hsub in Hin as [->|Hin]; [by left|by right].
Qed.

(** X24. [handleUsernameUpdate] for a user whose profile row exists: when
    another profile already holds the username, nothing is written, the
    dialog shows 'Failed to update username' and [onUpdate] is not called;
    otherwise the user's row, and only it, gets the username, and [onUpdate]
    receives the user with that username. Either way user ids and non-null
    usernames stay unique. *)
Theorem handleUsernameUpdate_spec (u : App.User) (name : string) now (d : db) :
  UserProfile.profiles_ok (profiles d) →
  App.id u ∈ p_user_id <$> profiles d →
  let o := UserProfile.handleUsernameUpdate u name now d in
  let taken := Some name ∈ p_username
                             <$> filter (λ p, p_user_id p ≠ App.id u)
                                        (profiles d) in
  UserProfile.profiles_ok (profiles (UserProfile.store o))
  ∧ (taken →
     UserProfile.store o = d ∧ UserProfile.updated o = None
     ∧ UserProfile.toasts o = [toast_error "Failed to update username"])
  ∧ (¬ taken →
     p_user_id <$> profiles (UserProfile.store o) = p_user_id <$> profiles d
     ∧ (∀ row, row ∈ profiles (UserProfile.store o) →
          if decide (p_user_id row = App.id u)
          then p_username row = Some name
          else row ∈ profiles d)
     ∧ (App.username <$> UserProfile.updated o) = Some (Some name)
     ∧ (App.id <$> UserProfile.updated o) = Some (App.id u)
     ∧ UserProfile.toasts o = [toast_success "Username updated successfully"]).
Proof.
  intros [Hpk Huniq] Hin o taken. subst o taken.
  unfold UserProfile.handleUsernameUpdate, UserProfile.update_username.
  rewrite decide_True by done.
  destruct (decide (Some name ∈ p_username
                      <$> filter (λ p, p_user_id p ≠ App.id u) (profiles d)))
    as [Htaken|Hfree]; simpl.
  - split; [done|]. split; [done|]. intros Hn. by destruct Hn.
  - destruct (set_username_unique (App.id u) name now (profiles d)
                Hpk Huniq Hfree) as [Hnd _].
    split; [split; [by rewrite set_username_fmap_ids|done]|].
    split; [intros Ht; by destruct Hfree|]. intros _.
    split; [apply set_username_fmap_ids|]. split; [|done].
    intros row Hrow. apply list_elem_of_fmap in Hrow as (row0 & -> & Hrow0).
    destruct (decide (p_user_id row0 = App.id u)) as [Hid|Hid]; simpl.
    + by rewrite decide_True.
    + by rewrite decide_False.
Qed.

(** X25. A changed username is what the next login shows: after
    [handleUsernameUpdate] succeeded for the user's profile row,
    [fetchUserProfile] for that user writes nothing and sets a user with
    the new username and the row's avatar and admin flag. *)
Theorem username_update_then_login (u : App.User) (name : string)
    now1 now2 (a : AuthStore.auth_user) (s : AuthStore.state) (d : db)
    (row : profile_row) :
  select_profile d (App.id u) = [row] →
  Some name ∉ p_username <$> filter (λ p, p_user_id p ≠ App.id u) (profiles d) →
  let d' := UserProfile.store (UserProfile.handleUsernameUpdate u name now1 d) in
  let o := AuthStore.fetchUserProfile (AuthStore.auth_data (Some a)) now2
             (App.id u) s d' in
  AuthStore.store o = d'
  ∧ AuthStore.user (AuthStore.st o)
    = Some {| App.id := App.id u; App.email := AuthStore.au_email a;
              App.isAdmin := default false (p_is_admin row);
              App.username := Some name;
              App.avatar_url := p_avatar_url row |}.
Proof.
  intros Hsel Hfree.
  assert (Hin : App.id u ∈ p_user_id <$> profiles d).
  { assert (Hrow : row ∈ select_profile d (App.id u)) by (rewrite Hsel; by left).
    apply list_elem_of_filter in Hrow as [Hid Hrow].
    apply list_elem_of_fmap. by exists row. }
  unfold UserProfile.handleUsernameUpdate, UserProfile.update_username.
  rewrite decide_True by done. rewrite decide_False by done. simpl.
  unfold AuthStore.fetchUserProfile, AuthStore.fetchUserProfile_try.
  unfold select_profile in *. simpl.
  rewrite set_username_select, Hsel. simpl. done.
Qed.

(** ** The reading library *)

Lemma upsert_library_keys (t : list MangaDetails.library_row) now u m st ch :
  MangaDetails.library_key <$> MangaDetails.upsert_library t now u m st ch
  = if decide ((u, toLowerCase m) ∈ MangaDetails.library_key <$> t)
    then MangaDetails.library_key <$> t
    else (MangaDetails.library_key <$> t) ++ [(u, toLowerCase m)].
Proof.
  unfold MangaDetails.upsert_library. case_decide.
  - rewrite <- list_fmap_compose. apply list_fmap_ext. intros i r _. simpl.
    by case_decide.
  - by rewrite fmap_app.
Qed.

Lemma upsert_library_select (t : list MangaDetails.library_row) now u m st ch
    (k : uuid * string) :
  filter (λ r, MangaDetails.library_key r = k)
         (MangaDetails.upsert_library t now u m st ch)
  = if decide (k = (u, toLowerCase m)) then
      if decide ((u, toLowerCase m) ∈ MangaDetails.library_key <$> t) then
        (λ r, {| MangaDetails.ul_user_id := MangaDetails.ul_user_id r;
                 MangaDetails.ul_manga_id := MangaDetails.ul_manga_id r;
                 MangaDetails.ul_status := Some st;
                 MangaDetails.ul_current_chapter := Some ch;
                 MangaDetails.ul_created_at := MangaDetails.ul_created_at r;
                 MangaDetails.ul_updated_at := now |})
          <$> filter (λ r, MangaDetails.library_key r = k) t
      else
        filter (λ r, MangaDetails.library_key r = k) t
        ++ [{| MangaDetails.ul_user_id := u;
               MangaDetails.ul_manga_id := toLowerCase m;
               MangaDetails.ul_status := Some st;
               MangaDetails.ul_current_chapter := Some ch;
               MangaDetails.ul_created_at := now;
               MangaDetails.ul_updated_at := now |}]
    else filter (λ r, MangaDetails.library_key r = k) t.
Proof.
  unfold MangaDetails.upsert_library.
  destruct (decide ((u, toLowerCase m) ∈ MangaDetails.library_key <$> t))
    as [Hin|Hno].
  - clear Hin. induction t as [|r t IH]; [by case_decide|].
    rewrite fmap_cons.
    destruct (decide (MangaDetails.library_key r = (u, toLowerCase m)))
      as [Hr|Hr].
    + destruct (decide (k = (u, toLowerCase m))) as [->|Hk].
      * rewrite filter_cons_True by done. rewrite filter_cons_True by done.
        rewrite fmap_cons. f_equal. exact IH.
      * rewrite filter_cons_False by (unfold MangaDetails.library_key in *;
                                       simpl; congruence).
        rewrite filter_cons_False by congruence. exact IH.
    + destruct (decide (k = (u, toLowerCase m))) as [->|Hk].
      * rewrite !filter_cons_False by done. exact IH.
      * rewrite !filter_cons. case_decide; [|exact IH]. f_equal. exact IH.
  - rewrite filter_app, filter_cons, filter_nil.
    destruct (decide (k = (u, toLowerCase m))) as [->|Hk].
    + by rewrite decide_True.
    + rewrite decide_False; [by rewrite app_nil_r|].
      unfold MangaDetails.library_key. simpl. congruence.
Qed.

Lemma library_select_present (t : list MangaDetails.library_row) k :
  MangaDetails.library_pk t →
  k ∈ MangaDetails.library_key <$> t →
  ∃ r, filter (λ r, MangaDetails.library_key r = k) t = [r].
Proof.
  unfold MangaDetails.library_pk.
  induction t as [|x t IH]; intros Hpk Hin; [by apply elem_of_nil in Hin|].
  rewrite fmap_cons in Hpk, Hin. apply NoDup_cons in Hpk as [Hx Hpk].
  destruct (decide (MangaDetails.library_key x = k)) as [Hk|Hk].
  - exists x. rewrite filter_cons_True by done. f_equal.
    apply filter_none. intros y Hy Hyk. apply Hx. rewrite Hk, <- Hyk.
    apply list_elem_of_fmap. by exists y.
  - rewrite filter_cons_False by done. apply IH; [done|].
    apply elem_of_cons in Hin as [Heq|Hin]; [by destruct Hk|done].
Qed.

(** The entry [addToLibrary] leaves behind, the rows it does not touch and
    how [loadLibraryStatus] reads it back. *)
Lemma addToLibrary_entry (u : App.User) (manga_id : string) now
    (st : MangaDetails.library_status)
    (libraryStatus : option MangaDetails.LibraryStatus)
    (t : list MangaDetails.library_row) :
  MangaDetails.is_uuid_text manga_id = true →
  MangaDetails.library_pk t →
  let r := MangaDetails.addToLibrary (Some u) manga_id now st libraryStatus t in
  MangaDetails.library_pk r.1.2
  ∧ (∃ row,
       MangaDetails.select_library r.1.2 manga_id (App.id u) = [row]
       ∧ MangaDetails.ul_status row = Some st
       ∧ MangaDetails.ul_current_chapter row
         = Some (MangaDetails.chapter_or_first libraryStatus))
  ∧ (∀ k, k ≠ (App.id u, toLowerCase manga_id) →
       filter (λ x, MangaDetails.library_key x = k) r.1.2
       = filter (λ x, MangaDetails.library_key x = k) t)
  ∧ MangaDetails.loadLibraryStatus (Some u) manga_id r.1.1 r.1.2 = r.1.1
  ∧ r.2 = [toast_success "Added to library"].
Proof.
  intros Hid Hpk. unfold MangaDetails.addToLibrary. rewrite Hid. simpl.
  assert (Hsel : ∃ row,
    MangaDetails.select_library
      (MangaDetails.upsert_library t now (App.id u) manga_id st
         (MangaDetails.chapter_or_first libraryStatus)) manga_id (App.id u)
    = [row]
    ∧ MangaDetails.ul_status row = Some st
    ∧ MangaDetails.ul_current_chapter row
      = Some (MangaDetails.chapter_or_first libraryStatus)).
  { unfold MangaDetails.select_library. rewrite upsert_library_select.
    rewrite decide_True by done. case_decide as Hin.
    - destruct (library_select_present t _ Hpk Hin) as [r0 Hr0].
      rewrite Hr0. simpl. by eexists.
    - rewrite filter_none; [by eexists|].
      intros y Hy Hk. apply Hin. apply list_elem_of_fmap. by exists y. }
  split; [|split; [exact Hsel|split; [|split; [|done]]]].
  - unfold MangaDetails.library_pk. rewrite upsert_library_keys.
    case_decide as Hin; [done|]. apply NoDup_app. split; [done|]. split.
    + intros k Hk Hk'. apply list_elem_of_singleton in Hk'. by subst.
    + apply NoDup_singleton.
  - intros k Hk. rewrite upsert_library_select. by rewrite decide_False.
  - unfold MangaDetails.loadLibraryStatus. rewrite Hid.
    destruct Hsel as (row & -> & Hst & Hch). by rewrite Hst, Hch.
Qed.

(** X26. [addToLibrary] by a logged-in user on a well-formed manga id is an
    upsert: afterwards the table holds exactly one entry for (user, manga),
    with the chosen status and with the chapter the view held (1 when the
    view held none or 0), whether or not an entry existed; the entries of
    other users and mangas are untouched, the primary key is kept, and the
    status the view shows is what [loadLibraryStatus] would read back. *)
Theorem addToLibrary_upserts (u : App.User) (manga_id : string) now
    (st : MangaDetails.library_status)
    (libraryStatus : option MangaDetails.LibraryStatus)
    (t : list MangaDetails.library_row) :
  MangaDetails.is_uuid_text manga_id = true →
  MangaDetails.library_pk t →
  let r := MangaDetails.addToLibrary (Some u) manga_id now st libraryStatus t in
  MangaDetails.library_pk r.1.2
  ∧ (∃ row,
       MangaDetails.select_library r.1.2 manga_id (App.id u) = [row]
       ∧ MangaDetails.ul_status row = Some st
       ∧ MangaDetails.ul_current_chapter row
         = Some (MangaDetails.chapter_or_first libraryStatus))
  ∧ (∀ k, k ≠ (App.id u, toLowerCase manga_id) →
       filter (λ x, MangaDetails.library_key x = k) r.1.2
       = filter (λ x, MangaDetails.library_key x = k) t)
  ∧ MangaDetails.loadLibraryStatus (Some u) manga_id r.1.1 r.1.2 = r.1.1
  ∧ r.2 = [toast_success "Added to library"].
Proof.
  intros Hid Hpk.
  exact (addToLibrary_entry u manga_id now st libraryStatus t Hid Hpk).
Qed.

(** X27. Moving a manga to another list keeps the reading progress: after
    [addToLibrary] with one status and then, from the resulting view, with
    another, the single entry carries the second status and the chapter the
    first call stored. *)
Theorem addToLibrary_keeps_progress (u : App.User) (manga_id : string)
    now1 now2 (st1 st2 : MangaDetails.library_status)
    (libraryStatus : option MangaDetails.LibraryStatus)
    (t : list MangaDetails.library_row) :
  MangaDetails.is_uuid_text manga_id = true →
  MangaDetails.library_pk t →
  let r1 := MangaDetails.addToLibrary (Some u) manga_id now1 st1
              libraryStatus t in
  let r2 := MangaDetails.addToLibrary (Some u) manga_id now2 st2
              r1.1.1 r1.1.2 in
  ∃ row,
    MangaDetails.select_library r2.1.2 manga_id (App.id u) = [row]
    ∧ MangaDetails.ul_status row = Some st2
    ∧ MangaDetails.ul_current_chapter row
      = Some (MangaDetails.chapter_or_first libraryStatus)
    ∧ MangaDetails.chapter_or_first libraryStatus ≠ 0.
Proof.
  intros Hid Hpk r1 r2.
  destruct (addToLibrary_entry u manga_id now1 st1 libraryStatus t Hid Hpk)
    as (Hpk1 & _).
  fold r1 in Hpk1.
  destruct (addToLibrary_entry u manga_id now2 st2 r1.1.1 r1.1.2 Hid Hpk1)
    as (_ & (row & Hsel & Hst & Hch) & _).
  fold r2 in Hsel.
  assert (Hsame : MangaDetails.chapter_or_first r1.1.1
                  = MangaDetails.chapter_or_first libraryStatus).
  { subst r1. unfold MangaDetails.addToLibrary. rewrite Hid. simpl.
    case_decide as Hz; [|done].
    unfold MangaDetails.chapter_or_first in Hz.
    destruct libraryStatus as [[? [n|]]|]; try done.
    by case_decide. }
  exists row. rewrite Hch, Hsame. split; [done|]. split; [done|].
  split; [done|].
  unfold MangaDetails.chapter_or_first.
  destruct libraryStatus as [[? [n|]]|]; try done.
  by case_decide.
Qed.

(** What [addToLibrary] refuses: without a logged-in user, or for a manga id
    that is not a well-formed uuid, the table and the view's status are left
    as they were and one error toast is shown; [loadLibraryStatus] then
    leaves the view's status alone too. *)
Lemma addToLibrary_guards (user : option App.User) (manga_id : string) now
    (st : MangaDetails.library_status)
    (libraryStatus : option MangaDetails.LibraryStatus)
    (t : list MangaDetails.library_row) :
  user = None ∨ MangaDetails.is_uuid_text manga_id = false →
  (MangaDetails.addToLibrary user manga_id now st libraryStatus t).1
    = (libraryStatus, t)
  ∧ (∃ msg,
       (MangaDetails.addToLibrary user manga_id now st libraryStatus t).2
       = [toast_error msg])
  ∧ MangaDetails.loadLibraryStatus user manga_id libraryStatus t
    = libraryStatus.
Proof.
  unfold MangaDetails.addToLibrary, MangaDetails.loadLibraryStatus.
  intros [->|Hbad]; [by eauto|].
  destruct user; rewrite ?Hbad; by eauto.
Qed.

(** ** The catalogue filters *)

(** X28. The genre buttons of the directory: a click flips whether the
    genre is selected and leaves every other genre as it was; a selection
    without repeated genres stays without them; and clicking twice on a
    genre that was not selected restores the selection exactly. *)
Theorem toggleGenre_flips (genre : string) (selected : list string) :
  (genre ∈ Directory.toggleGenre genre selected ↔ genre ∉ selected)
  ∧ (∀ other, other ≠ genre →
       (other ∈ Directory.toggleGenre genre selected ↔ other ∈ selected))
  ∧ (NoDup selected → NoDup (Directory.toggleGenre genre selected))
  ∧ (genre ∉ selected →
     Directory.toggleGenre genre (Directory.toggleGenre genre selected)
     = selected).
Proof.
  unfold Directory.toggleGenre at 1 2 3.
  destruct (decide (genre ∈ selected)) as [Hin|Hno].
  - split; [|split; [|split]].
    + rewrite list_elem_of_filter. tauto.
    + intros other Hne. rewrite list_elem_of_filter. tauto.
    + intros Hnd. by apply NoDup_filter.
    + done.
  - split; [|split; [|split]].
    + rewrite elem_of_app, list_elem_of_singleton. tauto.
    + intros other Hne. rewrite elem_of_app, list_elem_of_singleton. tauto.
    + intros Hnd. apply NoDup_app. split; [done|]. split.
      * intros g Hg Hg'. apply list_elem_of_singleton in Hg'. by subst.
      * apply NoDup_singleton.
    + intros _.
      assert (Hfirst : Directory.toggleGenre genre selected
                       = selected ++ [genre]).
      { unfold Directory.toggleGenre. by rewrite decide_False. }
      rewrite Hfirst. unfold Directory.toggleGenre.
      rewrite decide_True by (apply elem_of_app; right; by left).
      rewrite filter_app, filter_cons_False, filter_nil, app_nil_r
        by (intros Hn; by apply Hn).
      apply filter_all. intros g Hg ->. done.
Qed.

(** X29. What the directory shows for an answered query: with no genre
    selected, one card per returned manga, in the order of the answer; with
    genres selected, exactly the returned mangas that have at least one of
    the selected genres, in the order of the answer. Every card shows 0
    chapters; the spinner is cleared and no toast is shown. *)
Theorem loadMangas_filters (supabase_url : string)
    (data : list Directory.manga_row) (s : Directory.state) :
  let r := Directory.loadMangas supabase_url (Ok data) s in
  (Directory.selectedGenres s = [] →
   Directory.mangas r.1 = Directory.transform supabase_url <$> data)
  ∧ (Directory.selectedGenres s ≠ [] →
     ∃ shown,
       Directory.mangas r.1 = Directory.transform supabase_url <$> shown
       ∧ shown `sublist_of` data
       ∧ ∀ manga, manga ∈ shown
                  ↔ manga ∈ data
                    ∧ ∃ g, g ∈ Directory.m_genres manga
                           ∧ g ∈ Directory.selectedGenres s)
  ∧ Directory.id <$> Directory.mangas r.1
      `sublist_of` Directory.m_id <$> data
  ∧ Forall (λ manga, Directory.chapters manga = 0) (Directory.mangas r.1)
  ∧ Directory.loading r.1 = false
  ∧ r.2 = [].
Proof.
  unfold Directory.loadMangas. simpl.
  split; [by intros ->|]. split; [|split; [|split; [|done]]].
  - intros Hne. destruct (Directory.selectedGenres s) as [|g l] eqn:Hsel;
      [done|].
    exists (filter (Directory.has_selected_genre (g :: l)) data).
    split; [done|]. split; [apply sublist_filter|].
    intros manga. rewrite list_elem_of_filter.
    unfold Directory.has_selected_genre. rewrite Exists_exists. tauto.
  - rewrite <- list_fmap_compose.
    destruct (Directory.selectedGenres s).
    + by apply reflexive_eq, list_fmap_ext.
    + rewrite (list_fmap_ext (Directory.id ∘ Directory.transform supabase_url)
                 Directory.m_id _ (λ _ _ _, eq_refl)).
      apply fmap_sublist, sublist_filter.
  - apply Forall_fmap, Forall_forall. done.
Qed.

(** ** The upload form *)

Lemma snd_imap_pair {File : Type} (g : nat → nat) (files : list File) :
  snd <$> imap (λ i file, (g i, file)) files = files.
Proof.
  rewrite fmap_imap. rewrite (imap_const (λ x, x)). apply list_fmap_id.
Qed.

Lemma removeFile_offset {File : Type} (k index : nat) (files : list File) :
  snd <$> filter (λ entry, entry.1 ≠ (k + index)%nat)
                 (imap (λ i file, ((k + i)%nat, file)) files)
  = delete index files.
Proof.
  revert k index. induction files as [|f files IH]; intros k index; [done|].
  rewrite imap_cons.
  assert (Hshift : imap ((λ i file, ((k + i)%nat, file)) ∘ S) files
                   = imap (λ i (file : File), ((S k + i)%nat, file)) files).
  { apply imap_ext. intros i x _. simpl. f_equal. lia. }
  rewrite Hshift. destruct index as [|index].
  - rewrite filter_cons_False by (intros Hn; by apply Hn).
    rewrite filter_all.
    + apply snd_imap_pair.
    + intros [j x] Hin. apply elem_of_lookup_imap in Hin as (i & y & Heq & _).
      injection Heq as -> ->. simpl. lia.
  - rewrite filter_cons_True by (simpl; lia).
    rewrite fmap_cons. simpl. f_equal.
    rewrite <- (IH (S k) index). f_equal.
    apply list_filter_iff. intros [j x]. simpl. lia.
Qed.

(** X30. [removeFile] removes the file at the given position and nothing
    else: the files before it and after it keep their order; a position
    past the end removes nothing; and removing the position at which a
    single dropped file was appended gives back the previous list. *)
Theorem removeFile_deletes {File : Type} (index : nat) (files : list File)
    (dropped : File) :
  Upload.removeFile index files = take index files ++ drop (S index) files
  ∧ ((length files ≤ index)%nat → Upload.removeFile index files = files)
  ∧ ((index < length files)%nat →
     length (Upload.removeFile index files) = pred (length files))
  ∧ Upload.removeFile (length files)
      (Upload.handleDrop [dropped] (true, files)).2
    = files.
Proof.
  assert (Hdel : ∀ i (l : list File), Upload.removeFile i l = delete i l).
  { intros i l. unfold Upload.removeFile.
    rewrite <- (removeFile_offset 0 i l). done. }
  rewrite !Hdel. split; [|split; [|split]].
  - by rewrite delete_take_drop.
  - intros Hlen. clear Hdel. revert index Hlen.
    induction files as [|f l IH]; intros index Hlen; [by destruct index|].
    destruct index as [|index]; simpl in *; [lia|].
    f_equal. apply IH. lia.
  - intros Hlt. rewrite length_delete; [lia|].
    by apply lookup_lt_is_Some_2.
  - simpl. clear Hdel. induction files as [|f l IH]; [done|].
    simpl. f_equal. exact IH.
Qed.

(** * Sample runs of the further properties *)

Lemma sample_profiles_ok : UserProfile.profiles_ok (profiles Sample.store).
Proof.
  split; apply (bool_decide_unpack _); vm_compute; exact I.
Qed.

Lemma sample_subscriptions_pk :
  subscriptions_pk (comment_subscriptions Sample.store).
Proof.
  unfold subscriptions_pk. apply (bool_decide_unpack _). vm_compute. exact I.
Qed.

(** X7, witness: alice logs in. *)
Lemma fetchUserProfile_user_has_profile_witness :
  AuthStore.user
    (AuthStore.st
       (AuthStore.fetchUserProfile (AuthStore.auth_data (Some Fixtures.alice_auth))
          20 1%nat Sample.logged_out Sample.store))
  = Some Sample.alice
  ∧ App.id Sample.alice = 1%nat
  ∧ AuthStore.has_profile
      (AuthStore.store
         (AuthStore.fetchUserProfile
            (AuthStore.auth_data (Some Fixtures.alice_auth))
            20 1%nat Sample.logged_out Sample.store)) 1%nat.
Proof.
  split; [reflexivity|].
  destruct (fetchUserProfile_user_has_profile
              (AuthStore.auth_data (Some Fixtures.alice_auth)) 20 1%nat
              Sample.logged_out Sample.store Sample.alice eq_refl)
    as (Hid & Hhas & _).
  split; [exact Hid|exact Hhas].
Defined.

(** X8, witness: principal 2 logs in for the first time. *)
Lemma fetchUserProfile_keeps_constraints_witness :
  UserProfile.profiles_ok (profiles Sample.store)
  ∧ UserProfile.profiles_ok
      (profiles
         (AuthStore.store
            (AuthStore.fetchUserProfile
               (AuthStore.auth_data
                  (Some {| AuthStore.au_id := 2%nat;
                           AuthStore.au_email := "bob@example.org" |}))
               20 2%nat Sample.logged_out Sample.store))).
Proof.
  split; [exact sample_profiles_ok|].
  exact (fetchUserProfile_keeps_constraints _ 20 2%nat Sample.logged_out
           Sample.store sample_profiles_ok).
Defined.

(** X9, witness: alice, subscribed to (7, 3), clicks the bell. *)
Lemma toggleSubscription_keeps_flag_witness :
  subscriptions_pk (comment_subscriptions Sample.store)
  ∧ Reader.isSubscribed (Sample.reader_state [] true)
    = bool_decide ((1%nat, 7%nat, 3)
                     ∈ sub_key <$> comment_subscriptions Sample.store)
  ∧ Reader.isSubscribed
      (Reader.st
         (Reader.toggleSubscription (Sample.reader_props (Some Sample.alice))
            20 (Sample.reader_state [] true) Sample.store))
    = false.
Proof.
  split; [exact sample_subscriptions_pk|]. split; [reflexivity|].
  exact (proj1 (toggleSubscription_keeps_flag
                  (Sample.reader_props (Some Sample.alice)) 20
                  (Sample.reader_state [] true) Sample.store Sample.alice
                  eq_refl sample_subscriptions_pk eq_refl)).
Defined.

(** X10, witness: bob subscribes to (7, 3) and unsubscribes again. *)
Lemma toggleSubscription_round_trip_witness :
  ((2%nat, 7%nat, 3) ∉ sub_key <$> comment_subscriptions Sample.store)
  ∧ Reader.store
      (Reader.toggleSubscription (Sample.reader_props (Some Sample.bob)) 21
         (Reader.st
            (Reader.toggleSubscription (Sample.reader_props (Some Sample.bob))
               20 (Sample.reader_state [] false) Sample.store))
         (Reader.store
            (Reader.toggleSubscription (Sample.reader_props (Some Sample.bob))
               20 (Sample.reader_state [] false) Sample.store)))
    = Sample.store.
Proof.
  assert (Hno : (2%nat, 7%nat, 3) ∉ sub_key <$> comment_subscriptions Sample.store).
  { apply (bool_decide_unpack _). vm_compute. exact I. }
  split; [exact Hno|].
  exact (proj1 (toggleSubscription_round_trip
                  (Sample.reader_props (Some Sample.bob)) 20 21
                  (Sample.reader_state [] false) Sample.store Sample.bob
                  eq_refl eq_refl Hno)).
Defined.

(** X11, witness: bob's click leaves the subscription of user 3 alone. *)
Lemma toggleSubscription_frame_witness :
  (3%nat, 7%nat, 3)
    ∈ sub_key <$> comment_subscriptions
                    (Reader.store
                       (Reader.toggleSubscription
                          (Sample.reader_props (Some Sample.bob)) 20
                          (Sample.reader_state [] false) Sample.store))
  ↔ (3%nat, 7%nat, 3) ∈ sub_key <$> comment_subscriptions Sample.store.
Proof.
  refine (proj1 (toggleSubscription_frame
                   (Sample.reader_props (Some Sample.bob)) 20
                   (Sample.reader_state [] false) Sample.store
                   (3%nat, 7%nat, 3) _)).
  intros u [= <-]. discriminate.
Defined.

(** X12, witness: a visitor who is not logged in tries to comment. *)
Lemma reader_handlers_need_login_witness :
  Reader.user (Sample.reader_props None) = None
  ∧ Reader.store
      (Reader.handleComment (Sample.reader_props None) 20
         (Sample.reader_state (js "hi") false) Sample.store)
    = Sample.store.
Proof.
  split; [reflexivity|].
  exact (proj1 (proj1 (reader_handlers_need_login (Sample.reader_props None)
                         20 (Sample.reader_state (js "hi") false)
                         Sample.store eq_refl))).
Defined.

(** X13, witness: report 41 does not exist; it is given the status 'done',
    which no report could carry. *)
Lemma handleReportStatus_no_update_witness :
  (41%nat ∉ r_id <$> manga_reports Sample.store)
  ∧ (AdminPanel.handleReportStatus 21 41%nat "done" Sample.store).1
    = Sample.store
  ∧ toast_success "Report status updated"
      ∈ (AdminPanel.handleReportStatus 21 41%nat "done" Sample.store).2.
Proof.
  assert (Hno : 41%nat ∉ r_id <$> manga_reports Sample.store).
  { apply (bool_decide_unpack _). vm_compute. exact I. }
  split; [exact Hno|].
  destruct (handleReportStatus_no_update 21 41%nat "done" Sample.store Hno)
    as (Hstore & Hok & _).
  split; [exact Hstore|exact Hok].
Defined.

(** X14, witness: one stored notification is loaded, a second is pushed and
    the first is clicked: the badge shows 1. *)
Lemma badge_counts_unread_witness :
  NoDup (an_id <$> admin_notifications Fixtures.admin_store)
  ∧ AdminPanelRun.events_ok Fixtures.panel_events
      (AdminPanelView.loadNotifications Sample.panel Fixtures.admin_store)
      Fixtures.admin_store
  ∧ AdminPanel.unreadCount
      (AdminPanelRun.run Fixtures.panel_events
         (AdminPanelView.loadNotifications Sample.panel Fixtures.admin_store)
         Fixtures.admin_store).1
    = 1
  ∧ AdminPanelView.badge_ok
      (AdminPanelRun.run Fixtures.panel_events
         (AdminPanelView.loadNotifications Sample.panel Fixtures.admin_store)
         Fixtures.admin_store).1.
Proof.
  assert (Hpk : NoDup (an_id <$> admin_notifications Fixtures.admin_store)).
  { apply (bool_decide_unpack _). vm_compute. exact I. }
  assert (Hok : AdminPanelRun.events_ok Fixtures.panel_events
                  (AdminPanelView.loadNotifications Sample.panel
                     Fixtures.admin_store) Fixtures.admin_store).
  { split; [split; [reflexivity|]|split; [|exact I]].
    - apply (bool_decide_unpack _). vm_compute. exact I.
    - right. left. }
  split; [exact Hpk|]. split; [exact Hok|]. split; [reflexivity|].
  exact (badge_counts_unread Sample.panel Fixtures.admin_store
           Fixtures.panel_events Hpk Hok).
Defined.

(** X15, witness: a click handler holding the id 999, which nobody knows. *)
Lemma markNotificationAsRead_unknown_id_witness :
  (999%nat ∉ an_id <$> admin_notifications Fixtures.admin_store)
  ∧ AdminPanel.store
      (AdminPanel.markNotificationAsRead 999%nat Sample.panel
         Fixtures.admin_store)
    = Fixtures.admin_store.
Proof.
  assert (Hno : 999%nat ∉ an_id <$> admin_notifications Fixtures.admin_store).
  { apply (bool_decide_unpack _). vm_compute. exact I. }
  split; [exact Hno|].
  refine (proj1 (markNotificationAsRead_unknown_id 999%nat Sample.panel
                   Fixtures.admin_store Hno _)).
  apply (bool_decide_unpack _). vm_compute. exact I.
Defined.

(** X16, witness: the form holds the title "Berserk", a description and no
    author; the service knows the manga. *)
Lemma handleFetchInfo_found_witness :
  AdminPanel.title (AdminPanel.form Sample.panel) ≠ ""
  ∧ AdminPanel.author
      (AdminPanel.form (AdminPanel.handleFetchInfo Fixtures.jikan_one
                          Sample.panel).1)
    = "Miura Kentarou"
  ∧ AdminPanel.description
      (AdminPanel.form (AdminPanel.handleFetchInfo Fixtures.jikan_one
                          Sample.panel).1)
    = "Guts.".
Proof.
  assert (Hne : AdminPanel.title (AdminPanel.form Sample.panel) ≠ "").
  { discriminate. }
  split; [exact Hne|].
  destruct (handleFetchInfo_found Fixtures.jikan_one Sample.panel _ _ Hne
              eq_refl) as (_ & _ & Hform).
  rewrite Hform. split; reflexivity.
Defined.

(** X17, witness: the reader before any chapter is loaded. *)
Lemma handlePageChange_no_pages_witness :
  Reader.pages (ReaderView.base ReaderView.initial) = []
  ∧ Reader.currentPage
      (Reader.handlePageChange Reader.next
         (ReaderView.base ReaderView.initial))
    = (-1)%Z.
Proof.
  split; [reflexivity|].
  refine (proj1 (handlePageChange_no_pages
                   (ReaderView.base ReaderView.initial) eq_refl _)).
  simpl. lia.
Defined.


(** X21, witness: bob posts "hi" on (7, 3); the thread (7, 4) is looked at
    as well. *)
Lemma posted_comment_is_loaded_witness :
  (∃ c,
     ReaderView.comments
       (ReaderView.loadComments (Sample.reader_props (Some Sample.bob))
          Fixtures.loaded_view
          (Reader.store
             (Reader.handleComment (Sample.reader_props (Some Sample.bob)) 20
                (Sample.reader_state (js "hi") false) Sample.store)))
     ≡ₚ c :: ReaderView.comments
               (ReaderView.loadComments (Sample.reader_props (Some Sample.bob))
                  Fixtures.loaded_view Sample.store)
     ∧ ReaderView.content c = js "hi")
  ∧ ReaderView.comments
      (ReaderView.loadComments
         {| Reader.manga_id := 7%nat; Reader.user := Some Sample.bob;
            Reader.chapterNumber := 4 |}
         Fixtures.loaded_view
         (Reader.store
            (Reader.handleComment (Sample.reader_props (Some Sample.bob)) 20
               (Sample.reader_state (js "hi") false) Sample.store)))
    = [].
Proof.
  destruct (posted_comment_is_loaded (Sample.reader_props (Some Sample.bob))
              {| Reader.manga_id := 7%nat; Reader.user := Some Sample.bob;
                 Reader.chapterNumber := 4 |}
              20 (Sample.reader_state (js "hi") false) Fixtures.loaded_view
              Sample.store Sample.bob eq_refl)
    as [(c & Hperm & _ & Hcontent & _) Hother].
  - intros Hblank. apply Forall_cons in Hblank as [Hc _]. discriminate Hc.
  - split; [exists c; split; [exact Hperm|exact Hcontent]|].
    rewrite Hother; [reflexivity|]. discriminate.
Defined.

(** X22, witness: a chapter of two images. *)
Lemma loadChapter_images_witness :
  Forall (λ name, ReaderView.endsWith name ".pdf" = false) ["1.jpg"; "2.png"]
  ∧ Reader.pages
      (ReaderView.base
         (ReaderView.loadChapter "https://x.example" Fixtures.no_pdf
            (ReaderView.chapter_data (Some ["1.jpg"; "2.png"]))
            ReaderView.initial).1)
    = ["https://x.example/storage/v1/object/public/pages/1.jpg";
       "https://x.example/storage/v1/object/public/pages/2.png"].
Proof.
  assert (Hall : Forall (λ name, ReaderView.endsWith name ".pdf" = false)
                        ["1.jpg"; "2.png"]).
  { repeat constructor. }
  split; [exact Hall|].
  exact (proj1 (loadChapter_images "https://x.example" Fixtures.no_pdf
                  ["1.jpg"; "2.png"] ReaderView.initial Hall)).
Defined.

(** X23, witness: a chapter whose second page is a PDF that does not
    render. *)
Lemma loadChapter_failure_witness :
  ReaderView.endsWith "2.pdf" ".pdf" = true
  ∧ ReaderView.loadChapter "https://x.example" Fixtures.no_pdf
      (ReaderView.chapter_data (Some ["1.jpg"; "2.pdf"])) ReaderView.initial
    = (ReaderView.setLoading false ReaderView.initial,
       [toast_error "Failed to load chapter"]).
Proof.
  split; [reflexivity|].
  apply loadChapter_failure. right. right.
  exists ["1.jpg"; "2.pdf"], "2.pdf".
  split; [reflexivity|]. split; [right; left|]. split; reflexivity.
Defined.

(** X24, witness: alice renames herself to "alicia". *)
Lemma handleUsernameUpdate_spec_witness :
  UserProfile.profiles_ok (profiles Sample.store)
  ∧ App.id Sample.alice ∈ p_user_id <$> profiles Sample.store
  ∧ UserProfile.profiles_ok
      (profiles
         (UserProfile.store
            (UserProfile.handleUsernameUpdate Sample.alice "alicia" 20
               Sample.store)))
  ∧ UserProfile.toasts
      (UserProfile.handleUsernameUpdate Sample.alice "alicia" 20 Sample.store)
    = [toast_success "Username updated successfully"].
Proof.
  assert (Hin : App.id Sample.alice ∈ p_user_id <$> profiles Sample.store).
  { apply (bool_decide_unpack _). vm_compute. exact I. }
  split; [exact sample_profiles_ok|]. split; [exact Hin|].
  split; [|reflexivity].
  exact (proj1 (handleUsernameUpdate_spec Sample.alice "alicia" 20
                  Sample.store sample_profiles_ok Hin)).
Defined.

(** X25, witness: alice renames herself to "alicia" and logs in again. *)
Lemma username_update_then_login_witness :
  (∃ row, select_profile Sample.store 1%nat = [row])
  ∧ App.username
      <$> AuthStore.user
            (AuthStore.st
               (AuthStore.fetchUserProfile
                  (AuthStore.auth_data (Some Fixtures.alice_auth)) 21 1%nat
                  Sample.logged_out
                  (UserProfile.store
                     (UserProfile.handleUsernameUpdate Sample.alice "alicia"
                        20 Sample.store))))
    = Some (Some "alicia").
Proof.
  split; [eexists; reflexivity|].
  destruct (username_update_then_login Sample.alice "alicia" 20 21
              Fixtures.alice_auth Sample.logged_out Sample.store _ eq_refl)
    as [_ Huser].
  - apply (bool_decide_unpack _). vm_compute. exact I.
  - exact (f_equal (fmap App.username) Huser).
Defined.

(** X26, witness: alice, reading the manga at chapter 5, marks it
    completed. *)
Lemma addToLibrary_upserts_witness :
  MangaDetails.is_uuid_text Fixtures.manga_text = true
  ∧ MangaDetails.library_pk Fixtures.library
  ∧ ∃ row,
      MangaDetails.select_library
        (MangaDetails.addToLibrary (Some Sample.alice) Fixtures.manga_text 20
           MangaDetails.completed Fixtures.alice_progress
           Fixtures.library).1.2
        Fixtures.manga_text 1%nat
      = [row]
      ∧ MangaDetails.ul_status row = Some MangaDetails.completed
      ∧ MangaDetails.ul_current_chapter row = Some 5.
Proof.
  assert (Hpk : MangaDetails.library_pk Fixtures.library).
  { unfold MangaDetails.library_pk. apply (bool_decide_unpack _).
    vm_compute. exact I. }
  split; [reflexivity|]. split; [exact Hpk|].
  exact (proj1 (proj2 (addToLibrary_upserts Sample.alice Fixtures.manga_text
                         20 MangaDetails.completed Fixtures.alice_progress
                         Fixtures.library eq_refl Hpk))).
Defined.

(** X27, witness: bob, who has no entry, plans the manga and then starts
    reading it. *)
Lemma addToLibrary_keeps_progress_witness :
  MangaDetails.library_pk Fixtures.library
  ∧ ∃ row,
      MangaDetails.select_library
        (MangaDetails.addToLibrary (Some Sample.bob) Fixtures.manga_text 21
           MangaDetails.reading
           (MangaDetails.addToLibrary (Some Sample.bob) Fixtures.manga_text
              20 MangaDetails.planned None Fixtures.library).1.1
           (MangaDetails.addToLibrary (Some Sample.bob) Fixtures.manga_text
              20 MangaDetails.planned None Fixtures.library).1.2).1.2
        Fixtures.manga_text 2%nat
      = [row]
      ∧ MangaDetails.ul_status row = Some MangaDetails.reading
      ∧ MangaDetails.ul_current_chapter row = Some 1.
Proof.
  assert (Hpk : MangaDetails.library_pk Fixtures.library).
  { unfold MangaDetails.library_pk. apply (bool_decide_unpack _).
    vm_compute. exact I. }
  split; [exact Hpk|].
  destruct (addToLibrary_keeps_progress Sample.bob Fixtures.manga_text 20 21
              MangaDetails.planned MangaDetails.reading None Fixtures.library
              eq_refl Hpk) as (row & Hsel & Hst & Hch & _).
  exists row. split; [exact Hsel|]. split; [exact Hst|exact Hch].
Defined.

(** ** The further operations on concrete inputs *)

Example is_uuid_text_mixed_case :
  MangaDetails.is_uuid_text "123E4567-e89b-12d3-a456-426614174000" = true.
Proof. reflexivity. Qed.

Example is_uuid_text_no_hyphens :
  MangaDetails.is_uuid_text "123e4567e89b12d3a456426614174000" = false.
Proof. reflexivity. Qed.

Example is_uuid_text_trailing :
  MangaDetails.is_uuid_text "123e4567-e89b-12d3-a456-426614174000 " = false.
Proof. reflexivity. Qed.

Example is_uuid_text_not_hex :
  MangaDetails.is_uuid_text "123g4567-e89b-12d3-a456-426614174000" = false.
Proof. reflexivity. Qed.

Example endsWith_pdf : ReaderView.endsWith "scan.pdf" ".pdf" = true.
Proof. reflexivity. Qed.

Example endsWith_upper_case : ReaderView.endsWith "scan.PDF" ".pdf" = false.
Proof. reflexivity. Qed.

Example endsWith_shorter : ReaderView.endsWith "pdf" ".pdf" = false.
Proof. reflexivity. Qed.

Example removeFile_middle :
  Upload.removeFile 1 ["a.png"; "b.png"; "c.png"] = ["a.png"; "c.png"].
Proof. reflexivity. Qed.

Example toggleGenre_twice_selected :
  Directory.toggleGenre "Action"
    (Directory.toggleGenre "Action" ["Action"; "Drama"])
  = ["Drama"; "Action"].
Proof. reflexivity. Qed.

(** A chapter of one image and one PDF of two pages shows three pages. *)
Example loadChapter_with_pdf :
  Reader.pages
    (ReaderView.base
       (ReaderView.loadChapter "https://x.example"
          (λ _, Some ["data:1"; "data:2"])
          (ReaderView.chapter_data (Some ["1.jpg"; "2.pdf"]))
          ReaderView.initial).1)
  = ["https://x.example/storage/v1/object/public/pages/1.jpg";
     "data:1"; "data:2"].
Proof. reflexivity. Qed.

(** The username "alice" is taken: bob cannot have it. *)
Example handleUsernameUpdate_taken :
  let d := Reader.store
             (Reader.handleComment (Sample.reader_props (Some Sample.bob)) 20
                (Sample.reader_state (js "hi") false) Sample.store) in
  let d2 := AuthStore.store
              (AuthStore.fetchUserProfile
                 (AuthStore.auth_data
                    (Some {| AuthStore.au_id := 2%nat;
                             AuthStore.au_email := "bob@example.org" |}))
                 21 2%nat Sample.logged_out d) in
  UserProfile.toasts (UserProfile.handleUsernameUpdate Sample.bob "alice" 22 d2)
  = [toast_error "Failed to update username"]
  ∧ UserProfile.store (UserProfile.handleUsernameUpdate Sample.bob "alice" 22 d2)
    = d2.
Proof. vm_compute. done. Qed.
